(** * Balance-sheet downloader (selena_from_nalog_gov.py): a shallow embedding

    The script drives a browser, polls a download directory, moves files
    and writes a report.  Everything outside the script (the WebDriver
    session, the file system, the clock, the random source) is gathered in
    one [World] value; every method of [BalanceSheetDownloader] becomes a
    computation in a state-and-exception monad over that world.  A Python
    exception keeps the effects made before it was raised, so a computation
    returns its outcome together with the world it leaves behind.

    Conventions.
    - Strings are byte strings; the character classes used by [str.strip]
      and [str.lower] are the ASCII ones.
    - Time is a logical clock in milliseconds.  It advances in [time.sleep]
      and by the duration every WebDriver call reports; the statements
      between two such calls take no time.
    - Only exceptions deriving from [Exception] are modelled (a keyboard
      interrupt is not). *)

From Stdlib Require Import List String Ascii Bool Arith ZArith QArith Lia.
From Stdlib Require Import DecimalString DecimalNat FinFun.
Import ListNotations.

Local Close Scope Q_scope.
Local Open Scope nat_scope.
Local Open Scope list_scope.
Local Open Scope string_scope.

(* ===================================================================== *)
(** ** Python strings *)
(* ===================================================================== *)

Module PyStr.

(** The ASCII characters for which [str.isspace] holds. *)
Definition isspace (c : ascii) : bool :=
  let n := nat_of_ascii c in
  (((9 <=? n) && (n <=? 13)) || ((28 <=? n) && (n <=? 32)))%nat.

Fixpoint lstrip (s : string) : string :=
  match s with
  | EmptyString => EmptyString
  | String c r => if isspace c then lstrip r else s
  end.

Fixpoint rev_onto (s acc : string) : string :=
  match s with
  | EmptyString => acc
  | String c r => rev_onto r (String c acc)
  end.

Definition rev (s : string) : string := rev_onto s EmptyString.

Definition rstrip (s : string) : string := rev (lstrip (rev s)).

(** [s.strip()] *)
Definition strip (s : string) : string := rstrip (lstrip s).

(** [bool(s)]: a string is true when it is not empty. *)
Definition truthy (s : string) : bool :=
  match s with EmptyString => false | String _ _ => true end.

(** [s.startswith(p)] *)
Fixpoint startswith (p s : string) : bool :=
  match p, s with
  | EmptyString, _ => true
  | String a p', String b s' => Ascii.eqb a b && startswith p' s'
  | String _ _, EmptyString => false
  end.

(** [s.endswith(suf)] *)
Definition endswith (s suf : string) : bool := startswith (rev suf) (rev s).

Definition lower_ascii (c : ascii) : ascii :=
  let n := nat_of_ascii c in
  if ((65 <=? n) && (n <=? 90))%nat then ascii_of_nat (n + 32) else c.

(** [s.lower()] *)
Fixpoint lower (s : string) : string :=
  match s with
  | EmptyString => EmptyString
  | String c r => String (lower_ascii c) (lower r)
  end.

(** [str(n)] for a natural number. *)
Definition of_nat (n : nat) : string := NilEmpty.string_of_uint (Nat.to_uint n).

(** [s.rfind('.')]: the index of the last dot, if there is one. *)
Fixpoint rfind_dot (s : string) : option nat :=
  match s with
  | EmptyString => None
  | String c r =>
      match rfind_dot r with
      | Some i => Some (S i)
      | None => if Ascii.eqb c "."%char then Some 0 else None
      end
  end.

(** [sep.join(parts)] *)
Fixpoint join (sep : string) (parts : list string) : string :=
  match parts with
  | [] => EmptyString
  | [p] => p
  | p :: rest => p ++ sep ++ join sep rest
  end.

Definition LF : ascii := ascii_of_nat 10.
Definition CR : ascii := ascii_of_nat 13.

(** Iterating over a text file opened with the default [newline=None]:
    ["\n"], ["\r"] and ["\r\n"] all end a line and are handed over as
    ["\n"]; a last line without terminator is handed over as it is.
    [after_cr] tells that the previous character was a ["\r"], whose
    line is already closed. *)
Fixpoint lines_from (cur : string) (after_cr : bool) (s : string) : list string :=
  match s with
  | EmptyString => if truthy cur then [cur] else []
  | String c r =>
      if Ascii.eqb c LF then
        if after_cr then lines_from cur false r
        else (cur ++ String LF EmptyString) :: lines_from EmptyString false r
      else if Ascii.eqb c CR then
        (cur ++ String LF EmptyString) :: lines_from EmptyString true r
      else lines_from (cur ++ String c EmptyString) false r
  end.

Definition lines (s : string) : list string := lines_from EmptyString false s.

End PyStr.

(* ===================================================================== *)
(** ** Paths and the file system *)
(* ===================================================================== *)

(** A [pathlib.Path], as the list of its components below the working
    directory; [[]] is the working directory itself. *)
Definition path := list string.

Definition path_eqb (p q : path) : bool :=
  if list_eq_dec string_dec p q then true else false.

(** [p / name], for a [name] that is one component: pathlib drops an
    empty component and a ["."]; separators inside [name] are not
    interpreted. *)
Definition child (p : path) (name : string) : path :=
  if String.eqb name "" || String.eqb name "." then p else (p ++ [name])%list.

(** [p.name] *)
Definition name_of (p : path) : string := last p "".

(** [p.parent] *)
Definition parent (p : path) : path := removelast p.

(** [str(p)] *)
Definition path_str (p : path) : string :=
  match p with [] => "." | _ => PyStr.join "/" p end.

(** [PurePath.suffix] and [PurePath.stem] split the name at its last dot,
    unless that dot is the first or the last character. *)
Definition split_at_suffix (name : string) : string * string :=
  match PyStr.rfind_dot name with
  | Some i =>
      if ((0 <? i) && (i <? String.length name - 1))%nat
      then (substring 0 i name, substring i (String.length name - i) name)
      else (name, "")
  | None => (name, "")
  end.

Definition stem (p : path) : string := fst (split_at_suffix (name_of p)).
Definition suffix (p : path) : string := snd (split_at_suffix (name_of p)).

(** One member of a zip archive: its name, the size of its data and
    whether the data matches the CRC-32 stored for it. *)
Record zip_member := mkMember {
  member_name : string;
  member_size : N;
  crc_matches : bool
}.

(** What a regular file holds: bytes that [zipfile] does not accept as an
    archive, or an archive with its members in directory order. *)
Inductive payload :=
| Bytes (content : string)
| ZipArchive (members : list zip_member).

Inductive node :=
| File (c : payload)
| Dir.

(** An archive is never empty: the end-of-central-directory record alone
    takes 22 bytes; every member adds a local header (30 bytes), a central
    header (46 bytes), its name twice and its data. *)
Definition member_bytes (m : zip_member) : N :=
  76 + 2 * N.of_nat (String.length (member_name m)) + member_size m.

Definition payload_size (c : payload) : N :=
  match c with
  | Bytes s => N.of_nat (String.length s)
  | ZipArchive ms => fold_right (fun m acc => member_bytes m + acc) 22 ms
  end%N.

(** The file system: an association list, whose order is the order in
    which a directory lists its entries. *)
Definition filesystem := list (path * node).

Fixpoint fs_lookup (p : path) (fs : filesystem) : option node :=
  match fs with
  | [] => None
  | (q, n) :: rest => if path_eqb p q then Some n else fs_lookup p rest
  end.

Definition fs_remove (p : path) (fs : filesystem) : filesystem :=
  filter (fun e => negb (path_eqb p (fst e))) fs.

Definition fs_put (p : path) (n : node) (fs : filesystem) : filesystem :=
  (fs_remove p fs ++ [(p, n)])%list.

(** [p.exists()] *)
Definition fs_exists (p : path) (fs : filesystem) : bool :=
  match p with
  | [] => true
  | _ => match fs_lookup p fs with Some _ => true | None => false end
  end.

(** [p.is_dir()] *)
Definition fs_is_dir (p : path) (fs : filesystem) : bool :=
  match p with
  | [] => true
  | _ => match fs_lookup p fs with Some Dir => true | _ => false end
  end.

(** The name under which [q] is an entry of directory [d], if it is one. *)
Fixpoint entry_name (d q : path) : option string :=
  match d, q with
  | [], [name] => Some name
  | a :: d', b :: q' => if String.eqb a b then entry_name d' q' else None
  | _, _ => None
  end.

Definition mem_string (x : string) (l : list string) : bool :=
  existsb (String.eqb x) l.

(** The entries of [d] in listing order; a path met a second time is
    shadowed by the first, as in [fs_lookup]. *)
Fixpoint fs_entries_from (seen : list string) (d : path) (fs : filesystem)
  : list (string * node) :=
  match fs with
  | [] => []
  | (q, n) :: rest =>
      match entry_name d q with
      | Some name =>
          if mem_string name seen then fs_entries_from seen d rest
          else (name, n) :: fs_entries_from (name :: seen) d rest
      | None => fs_entries_from seen d rest
      end
  end.

Definition fs_entries (d : path) (fs : filesystem) : list (string * node) :=
  fs_entries_from [] d fs.

(** [os.mkdir] along the components of [d], as [Path.mkdir(parents=True,
    exist_ok=True)] does: [done] is the part already known to be a
    directory.  The answer is [None] when a component exists and is no
    directory. *)
Fixpoint fs_mkdir_from (done : path) (todo : path) (fs : filesystem)
  : option filesystem :=
  match todo with
  | [] => Some fs
  | c :: rest =>
      let here := (done ++ [c])%list in
      match fs_lookup here fs with
      | Some Dir => fs_mkdir_from here rest fs
      | Some (File _) => None
      | None => fs_mkdir_from here rest (fs_put here Dir fs)
      end
  end.

Definition fs_mkdir_parents (d : path) (fs : filesystem) : option filesystem :=
  fs_mkdir_from [] d fs.

(* ===================================================================== *)
(** ** Exceptions *)
(* ===================================================================== *)

Inductive exn_class :=
| TimeoutException
| WebDriverException
| AttributeError
| FileNotFoundError
| FileExistsError
| IsADirectoryError
| UnicodeDecodeError
| BadZipFile
| ZeroDivisionError
| RetryError.

(** An exception: its class and the text [str(e)] gives. *)
Record exn := mkExn {
  class_of : exn_class;
  str : string
}.

Definition is_timeout (e : exn) : bool :=
  match class_of e with TimeoutException => true | _ => false end.

Definition is_bad_zip (e : exn) : bool :=
  match class_of e with BadZipFile => true | _ => false end.

(* ===================================================================== *)
(** ** The world outside the script *)
(* ===================================================================== *)

(** What the browser does to the file system on its own: a file appears
    (a download is written) or vanishes (a partial download is renamed
    away). *)
Inductive fs_event :=
| Appears (p : path) (c : payload)
| Vanishes (p : path).

Definition apply_event (ev : fs_event) (fs : filesystem) : filesystem :=
  match ev with
  | Appears p c => fs_put p (File c) fs
  | Vanishes p => fs_remove p fs
  end.

Inductive locator :=
| ByClassName (value : string)
| ByTagName (value : string)
| ByXPath (value : string).

Inductive condition :=
| presence_of_element_located (l : locator)
| element_to_be_clickable (l : locator).

(** A [WebElement]: how it was found and the text it shows. *)
Record element := mkElement {
  found_by : locator;
  text : string
}.

(** The calls the script makes on the WebDriver. *)
Inductive call :=
| CreateDriver
| QuitDriver
| Get (url : string)
| Until (c : condition)
| FindElements (l : locator)
| Click (on : element).

(** What a WebDriver call answers. *)
Inductive reply :=
| Done
| Elements (texts : list string)
| Raises (e : exn).

(** A call takes [took] milliseconds and then answers. *)
Record response := mkResponse {
  took : Z;
  answer : reply
}.

Inductive level := INFO | WARNING | ERROR.

Record World := mkWorld {
  clock : Z;                          (* milliseconds *)
  fs : filesystem;
  pending : list (Z * fs_event);      (* due time and event, in order *)
  session : bool;                     (* [self.driver] is set *)
  browser : list response;            (* answers to the coming calls *)
  entropy : list Z;                   (* coming values of [random.random()], in thousandths *)
  history : list call;                (* calls made so far, oldest first *)
  log : list (level * string);        (* records logged so far, oldest first *)
  stdout : list string                (* lines printed so far *)
}.

Definition set_fs (f : filesystem) (w : World) : World :=
  mkWorld (clock w) f (pending w) (session w) (browser w) (entropy w)
          (history w) (log w) (stdout w).

Definition set_session (b : bool) (w : World) : World :=
  mkWorld (clock w) (fs w) (pending w) b (browser w) (entropy w)
          (history w) (log w) (stdout w).

(** The events due by [now] happen, in order; the others stay pending. *)
Fixpoint settle (now : Z) (evs : list (Z * fs_event)) (f : filesystem)
  : list (Z * fs_event) * filesystem :=
  match evs with
  | [] => ([], f)
  | (t, ev) :: rest =>
      if (t <=? now)%Z then settle now rest (apply_event ev f)
      else let '(keep, f') := settle now rest f in ((t, ev) :: keep, f')
  end.

(** [d] milliseconds pass. *)
Definition advance (d : Z) (w : World) : World :=
  let now := (clock w + Z.max 0 d)%Z in
  let '(keep, f) := settle now (pending w) (fs w) in
  mkWorld now f keep (session w) (browser w) (entropy w)
          (history w) (log w) (stdout w).

(* ===================================================================== *)
(** ** Computations: state and exceptions *)
(* ===================================================================== *)

(** How a computation ends: with a value, with an exception, or not
    within the number of iterations granted to one of its [while] loops.
    The last outcome is no Python exception and no handler sees it; the
    loops below are granted enough iterations for it never to arise
    ([wait_loop_fuel], [free_target_fuel]). *)
Inductive result (A : Type) :=
| Ok (a : A)
| Raise (e : exn)
| OutOfFuel.

Arguments Ok {A} a.
Arguments Raise {A} e.
Arguments OutOfFuel {A}.

Definition M (A : Type) : Type := World -> result A * World.

Definition ret {A} (a : A) : M A := fun w => (Ok a, w).

Definition raise {A} (e : exn) : M A := fun w => (Raise e, w).

Definition out_of_fuel {A} : M A := fun w => (OutOfFuel, w).

Definition bind {A B} (m : M A) (k : A -> M B) : M B :=
  fun w =>
    match m w with
    | (Ok a, w') => k a w'
    | (Raise e, w') => (Raise e, w')
    | (OutOfFuel, w') => (OutOfFuel, w')
    end.

(** [try: m  except Exception as e: handler e] *)
Definition try_except {A} (m : M A) (handler : exn -> M A) : M A :=
  fun w =>
    match m w with
    | (Raise e, w') => handler e w'
    | other => other
    end.

(** [try: m  finally: cleanup] *)
Definition try_finally {A} (m : M A) (cleanup : M unit) : M A :=
  fun w =>
    match m w with
    | (OutOfFuel, w') => (OutOfFuel, w')
    | (r, w') =>
        match cleanup w' with
        | (Ok _, w'') => (r, w'')
        | (Raise e, w'') => (Raise e, w'')
        | (OutOfFuel, w'') => (OutOfFuel, w'')
        end
    end.

Declare Scope monad_scope.
Delimit Scope monad_scope with monad.
Notation "x <- m ;; k" := (bind m (fun x => k))
  (at level 100, m at next level, right associativity) : monad_scope.
Notation "m ;; k" := (bind m (fun _ => k))
  (at level 100, right associativity) : monad_scope.
Local Open Scope monad_scope.

Definition get_world : M World := fun w => (Ok w, w).

Definition modify (f : World -> World) : M unit := fun w => (Ok tt, f w).

(** [time.time()], in milliseconds. *)
Definition time_time : M Z := fun w => (Ok (clock w), w).

(** [time.sleep(ms / 1000)] *)
Definition time_sleep (ms : Z) : M unit := modify (advance ms).

(** [random.random()], in thousandths: a value in [0, 1000). *)
Definition random_random : M Z :=
  fun w =>
    match entropy w with
    | [] => (Ok 0%Z, w)
    | u :: rest =>
        (Ok (u mod 1000)%Z,
         mkWorld (clock w) (fs w) (pending w) (session w) (browser w) rest
                 (history w) (log w) (stdout w))
    end.

(** [random.uniform(a, b)] for whole seconds [a] and [b], in
    milliseconds: [a + (b - a) * random()]. *)
Definition random_uniform (a b : Z) : M Z :=
  u <- random_random ;;
  ret (a * 1000 + (b - a) * u)%Z.

Definition logger (l : level) (msg : string) : M unit :=
  modify (fun w =>
    mkWorld (clock w) (fs w) (pending w) (session w) (browser w) (entropy w)
            (history w) (log w ++ [(l, msg)])%list (stdout w)).

Definition print (line : string) : M unit :=
  modify (fun w =>
    mkWorld (clock w) (fs w) (pending w) (session w) (browser w) (entropy w)
            (history w) (log w) (stdout w ++ [line])%list).

(** The next answer of the browser; one that has no more answers
    scripted answers [Done] at once. *)
Definition next_response (w : World) : response * list response :=
  match browser w with
  | [] => (mkResponse 0 Done, [])
  | r :: rest => (r, rest)
  end.

(** One call on [self.driver]: the call is recorded, its time passes and
    its answer is returned or raised.  Without a session [self.driver] is
    [None], and the attribute access fails. *)
Definition driver_call (c : call) : M reply :=
  fun w =>
    if session w then
      let '(r, rest) := next_response w in
      let w1 := mkWorld (clock w) (fs w) (pending w) (session w) rest (entropy w)
                        (history w ++ [c])%list (log w) (stdout w) in
      let w2 := advance (took r) w1 in
      match answer r with
      | Raises e => (Raise e, w2)
      | a => (Ok a, w2)
      end
    else
      (Raise (mkExn AttributeError "'NoneType' object has no attribute"), w).

(** [self.driver.get(url)] *)
Definition driver_get (url : string) : M unit :=
  _ <- driver_call (Get url) ;; ret tt.

(** [self.wait.until(cond)]: the element the condition located. *)
Definition wait_until (c : condition) : M element :=
  _ <- driver_call (Until c) ;;
  ret (mkElement match c with
                 | presence_of_element_located l => l
                 | element_to_be_clickable l => l
                 end "").

(** [self.driver.find_elements(by, value)] *)
Definition find_elements (l : locator) : M (list element) :=
  a <- driver_call (FindElements l) ;;
  ret match a with
      | Elements texts => map (mkElement l) texts
      | _ => []
      end.

(** [element.click()] *)
Definition click (e : element) : M unit :=
  _ <- driver_call (Click e) ;; ret tt.

(** File-system calls as computations. *)

(** [d.mkdir(parents=True, exist_ok=True)] *)
Definition path_mkdir_parents (d : path) : M unit :=
  fun w =>
    match fs_mkdir_parents d (fs w) with
    | Some f => (Ok tt, set_fs f w)
    | None => (Raise (mkExn FileExistsError ("File exists: " ++ path_str d)), w)
    end.

(** [d.mkdir(exist_ok=True)] *)
Definition path_mkdir (d : path) : M unit :=
  fun w =>
    if fs_is_dir d (fs w) then (Ok tt, w)
    else if fs_exists d (fs w) then
      (Raise (mkExn FileExistsError ("File exists: " ++ path_str d)), w)
    else if fs_is_dir (parent d) (fs w) then (Ok tt, set_fs (fs_put d Dir (fs w)) w)
    else (Raise (mkExn FileNotFoundError ("No such file or directory: " ++ path_str d)), w).

(** [q] with its prefix [src] replaced by [dst], when it has that prefix. *)
Fixpoint reroot (src dst q : path) : path :=
  match src, q with
  | [], _ => (dst ++ q)%list
  | a :: src', b :: q' => if String.eqb a b then reroot src' dst q' else q
  | _ :: _, [] => q
  end.

Fixpoint has_prefix (src q : path) : bool :=
  match src, q with
  | [], _ => true
  | a :: src', b :: q' => String.eqb a b && has_prefix src' q'
  | _ :: _, [] => false
  end.

(** [src.rename(dst)]: a regular file moves to [dst] and replaces a file
    that is there; a directory moves with all that is below it, to a
    [dst] that does not exist yet. *)
Definition path_rename (src dst : path) : M unit :=
  fun w =>
    match fs_lookup src (fs w) with
    | None =>
        (Raise (mkExn FileNotFoundError ("No such file or directory: " ++ path_str src)), w)
    | Some (File c) =>
        if negb (fs_is_dir (parent dst) (fs w)) then
          (Raise (mkExn FileNotFoundError ("No such file or directory: " ++ path_str dst)), w)
        else if fs_is_dir dst (fs w) then
          (Raise (mkExn IsADirectoryError ("Is a directory: " ++ path_str dst)), w)
        else (Ok tt, set_fs (fs_put dst (File c) (fs_remove src (fs w))) w)
    | Some Dir =>
        if negb (fs_is_dir (parent dst) (fs w)) then
          (Raise (mkExn FileNotFoundError ("No such file or directory: " ++ path_str dst)), w)
        else if fs_exists dst (fs w) then
          (Raise (mkExn FileExistsError ("File exists: " ++ path_str dst)), w)
        else
          (Ok tt,
           set_fs (map (fun e => (if has_prefix src (fst e)
                                  then reroot src dst (fst e) else fst e, snd e))
                       (fs w)) w)
    end.

(** [p.stat().st_size]; a directory reports one block. *)
Definition stat_size (p : path) : M N :=
  fun w =>
    match p, fs_lookup p (fs w) with
    | [], _ | _, Some Dir => (Ok 4096%N, w)
    | _, Some (File c) => (Ok (payload_size c), w)
    | _, None =>
        (Raise (mkExn FileNotFoundError ("No such file or directory: " ++ path_str p)), w)
    end.

(** Reading the whole text of [open(p, 'r', encoding='utf-8')]. *)
Definition read_text (p : path) : M string :=
  fun w =>
    match p, fs_lookup p (fs w) with
    | [], _ | _, Some Dir =>
        (Raise (mkExn IsADirectoryError ("Is a directory: " ++ path_str p)), w)
    | _, Some (File (Bytes s)) => (Ok s, w)
    | _, Some (File (ZipArchive _)) =>
        (Raise (mkExn UnicodeDecodeError "'utf-8' codec can't decode byte"), w)
    | _, None =>
        (Raise (mkExn FileNotFoundError ("No such file or directory: " ++ path_str p)), w)
    end.

(** [open(p, 'w', encoding='utf-8')] and [f.write(s)] *)
Definition write_text (p : path) (s : string) : M unit :=
  fun w =>
    if fs_is_dir p (fs w) then
      (Raise (mkExn IsADirectoryError ("Is a directory: " ++ path_str p)), w)
    else if fs_is_dir (parent p) (fs w) then
      (Ok tt, set_fs (fs_put p (File (Bytes s)) (fs w)) w)
    else
      (Raise (mkExn FileNotFoundError ("No such file or directory: " ++ path_str p)), w).

(** [zipfile.ZipFile(p, 'r')]: the members of the archive. *)
Definition ZipFile (p : path) : M (list zip_member) :=
  fun w =>
    match p, fs_lookup p (fs w) with
    | [], _ | _, Some Dir =>
        (Raise (mkExn IsADirectoryError ("Is a directory: " ++ path_str p)), w)
    | _, Some (File (ZipArchive ms)) => (Ok ms, w)
    | _, Some (File (Bytes _)) => (Raise (mkExn BadZipFile "File is not a zip file"), w)
    | _, None =>
        (Raise (mkExn FileNotFoundError ("No such file or directory: " ++ path_str p)), w)
    end.

(** [zip_ref.testzip()]: the name of the first member whose data does not
    match its CRC, or [None]. *)
Fixpoint testzip (ms : list zip_member) : option string :=
  match ms with
  | [] => None
  | m :: rest => if crc_matches m then testzip rest else Some (member_name m)
  end.

(** [zip_ref.namelist()] *)
Definition namelist (ms : list zip_member) : list string := map member_name ms.

(* ===================================================================== *)
(** ** tenacity: the [@retry] decorator *)
(* ===================================================================== *)

Module Tenacity.

(** [wait_exponential(multiplier, min, max)]: the seconds to wait after
    attempt [attempt_number] (counted from 1). *)
Definition wait_exponential (multiplier min max : Z) (attempt_number : nat) : Z :=
  Z.max (Z.max 0 min) (Z.min (multiplier * 2 ^ (Z.of_nat attempt_number - 1)) max).

(** The decorated call.  With the default [retry_if_exception_type()] an
    attempt is repeated when it RAISES; an attempt that returns, whatever
    the value, ends the loop.  After the last attempt allowed by
    [stop_after_attempt] the failure surfaces as a [RetryError]. *)
Fixpoint attempts {A} (remaining attempt_number : nat) (wait : nat -> Z) (f : M A) : M A :=
  try_except f
    (fun e =>
       match remaining with
       | O => raise (mkExn RetryError ("RetryError: " ++ str e))
       | S remaining' =>
           time_sleep (1000 * wait attempt_number) ;;
           attempts remaining' (S attempt_number) wait f
       end).

Definition retry {A} (stop_after_attempt : nat) (wait : nat -> Z) (f : M A) : M A :=
  attempts (stop_after_attempt - 1) 1 wait f.

End Tenacity.

(* ===================================================================== *)
(** ** Floating point: what the success rate needs *)
(* ===================================================================== *)

Module Float.

(** [p / q] rounded to the nearest integer, ties to even ([0 <= p],
    [0 < q]). *)
Definition rne (p q : Z) : Z :=
  let d := (p / q)%Z in
  let r := (p mod q)%Z in
  if (2 * r <? q)%Z then d
  else if (q <? 2 * r)%Z then (d + 1)%Z
  else if Z.even d then d else (d + 1)%Z.

(** A binary64 number that is not negative: [(m, e)] stands for
    [m * 2^e], with [m] of at most 53 bits.  The range of the exponent
    is not bounded: the quotients of list lengths are far from it. *)
Definition float : Type := Z * Z.

(** The float nearest to [p / q] ([0 <= p], [0 < q]). *)
Definition round53 (p q : Z) : float :=
  if (p =? 0)%Z then (0, 0)%Z
  else
    let k := (Z.log2 p - Z.log2 q)%Z in
    let b := if (q * 2 ^ Z.max 0 k <=? p * 2 ^ Z.max 0 (- k))%Z then k else (k - 1)%Z in
    let e := (b - 52)%Z in
    (rne (p * 2 ^ Z.max 0 (- e)) (q * 2 ^ Z.max 0 e), e).

(** [a / b] for Python integers [0 <= a], [0 < b]: true division is
    correctly rounded. *)
Definition div_int (a b : Z) : float := round53 a b.

(** [x * n] for a float [x] and a small integer [n]. *)
Definition mul_int (x : float) (n : Z) : float :=
  let '(m, e) := x in
  round53 (m * n * 2 ^ Z.max 0 e) (2 ^ Z.max 0 (- e)).

(** [f"{x:.1f}"]: the decimal with one digit after the point nearest to
    the exact value of [x], ties to even. *)
Definition format_1f (x : float) : string :=
  let '(m, e) := x in
  let tenths := rne (m * 10 * 2 ^ Z.max 0 e) (2 ^ Z.max 0 (- e)) in
  PyStr.of_nat (Z.to_nat (tenths / 10)) ++ "." ++ PyStr.of_nat (Z.to_nat (tenths mod 10)).

End Float.

(* ===================================================================== *)
(** ** DownloadResult and BalanceSheetDownloader *)
(* ===================================================================== *)

(** Results of a download operation. *)
Record DownloadResult := mkResult {
  inn : string;
  year : option string;
  success : bool;
  file_path : option string;
  error_message : option string;
  timestamp : Z
}.

Record BalanceSheetDownloader := mkDownloader {
  download_dir : path;
  headless : bool
}.

(** [year or "all"] *)
Definition year_or_all (y : option string) : string :=
  match y with
  | Some s => if PyStr.truthy s then s else "all"
  | None => "all"
  end.

(** [bool(x)] for an optional string. *)
Definition truthy_opt (x : option string) : bool :=
  match x with Some s => PyStr.truthy s | None => false end.

Definition is_partial (name : string) : bool :=
  PyStr.endswith name ".crdownload" || PyStr.endswith name ".tmp".

(** [x or y] for optional strings, as an f-string shows it. *)
Definition show_or (x y : option string) : string :=
  if truthy_opt x then match x with Some s => s | None => "" end
  else match y with Some s => s | None => "None" end.

Definition nl : string := String PyStr.LF EmptyString.

Section Downloader.

Variable self : BalanceSheetDownloader.

(** [datetime.strftime('%Y-%m-%d %H:%M:%S')] of a clock value. *)
Variable strftime : Z -> string.

(** [__init__]: the download directory is created when it is missing. *)
Definition init : M unit := path_mkdir (download_dir self).

(** Create and configure Chrome WebDriver: one interaction with the
    browser, which gives the session or raises. *)
Definition _create_driver : M unit :=
  fun w =>
    let '(r, rest) := next_response w in
    let w1 := mkWorld (clock w) (fs w) (pending w) (session w) rest (entropy w)
                      (history w ++ [CreateDriver])%list (log w) (stdout w) in
    let w2 := advance (took r) w1 in
    match answer r with
    | Raises e => (Raise e, w2)
    | _ => (Ok tt, set_session true w2)
    end.

(** Context manager for WebDriver lifecycle. *)
Definition get_driver {A} (body : M A) : M A :=
  try_finally
    (_create_driver ;; body)
    (w <- get_world ;;
     if session w then
       (_ <- driver_call QuitDriver ;; modify (set_session false))
     else ret tt).

(** Add randomized delay to avoid detection. *)
Definition random_delay (min_seconds max_seconds : Z) : M unit :=
  delay <- random_uniform min_seconds max_seconds ;;
  time_sleep delay.

(** The loop over [inn_elements] of [search_organization]. *)
Fixpoint click_matching (inn : string) (inn_elements : list element) : M bool :=
  match inn_elements with
  | [] => ret false
  | element :: rest =>
      if String.eqb (PyStr.strip (text element)) inn then
        (logger INFO ("Found matching INN: " ++ inn) ;;
         click element ;;
         random_delay 2 4 ;;
         ret true)
      else click_matching inn rest
  end.

(** The body of [search_organization]: one attempt. *)
Definition search_attempt (inn : string) : M bool :=
  try_except
    (let search_url := "https://bo.nalog.gov.ru/search?query=" ++ inn in
     logger INFO ("Searching for INN: " ++ inn) ;;
     driver_get search_url ;;
     random_delay 2 4 ;;
     results_container <-
       wait_until (presence_of_element_located (ByClassName "results-search-table-item")) ;;
     inn_elements <- find_elements (ByTagName "ins") ;;
     found <- click_matching inn inn_elements ;;
     if found : bool then ret true
     else (logger WARNING ("INN " ++ inn ++ " not found in search results") ;;
           ret false))
    (fun e =>
       if is_timeout e then
         (logger ERROR ("Timeout waiting for search results for INN: " ++ inn) ;;
          ret false)
       else
         (logger ERROR ("Error searching for INN " ++ inn ++ ": " ++ str e) ;;
          ret false)).

(** Search for organization by INN, under
    [@retry(stop=stop_after_attempt(3),
            wait=wait_exponential(multiplier=1, min=2, max=10))]. *)
Definition search_organization (inn : string) : M bool :=
  Tenacity.retry 3 (Tenacity.wait_exponential 1 2 10) (search_attempt inn).

(** Get list of current files in download directory. *)
Definition _get_download_files : M (list string) :=
  fun w =>
    if fs_is_dir (download_dir self) (fs w) then
      (Ok (map fst (filter (fun e => match snd e with File _ => true | Dir => false end)
                           (fs_entries (download_dir self) (fs w)))), w)
    else
      (Raise (mkExn FileNotFoundError
                    ("No such file or directory: " ++ path_str (download_dir self))), w).

(** The [while] loop of [_wait_for_download]; times in milliseconds. *)
Fixpoint wait_loop (fuel : nat) (initial_files : list string) (start_time timeout : Z)
  : M (option string) :=
  now <- time_time ;;
  if (now - start_time <? timeout)%Z then
    match fuel with
    | O => out_of_fuel
    | S fuel' =>
        current_files <- _get_download_files ;;
        let new_files := filter (fun f => negb (mem_string f initial_files)) current_files in
        match new_files with
        | new_file :: _ =>
            (* Wait a bit more to ensure download is complete *)
            time_sleep 2000 ;;
            (* Check if file is complete (not partial download) *)
            if negb (PyStr.endswith new_file ".crdownload")
               && negb (PyStr.endswith new_file ".tmp")
            then ret (Some new_file)
            else (time_sleep 1000 ;;
                  wait_loop fuel' initial_files start_time timeout)
        | [] =>
            time_sleep 1000 ;;
            wait_loop fuel' initial_files start_time timeout
        end
    end
  else ret None.

(** Wait for new file to appear in download directory; [timeout] in
    seconds.  Every iteration of the loop sleeps a second at least, so
    [timeout] iterations are all it can make. *)
Definition _wait_for_download (initial_files : list string) (timeout : Z)
  : M (option string) :=
  start_time <- time_time ;;
  wait_loop (Z.to_nat timeout) initial_files start_time (timeout * 1000).

(** The [while target_path.exists()] loop of [_organize_download]. *)
Fixpoint free_target (fuel : nat) (target_dir : path) (base_name extension : string)
         (counter : nat) (target_path : path) (f : filesystem) : option path :=
  if fs_exists target_path f then
    match fuel with
    | O => None
    | S fuel' =>
        free_target fuel' target_dir base_name extension (S counter)
          (child target_dir (base_name ++ "_" ++ PyStr.of_nat counter ++ extension)) f
    end
  else Some target_path.

(** Organize downloaded file into proper directory structure.  The
    loop tries the name itself and then one numbered name after the
    other; the numbered names are all different, so one of the first
    [n + 1] is free when the file system has [n] entries. *)
Definition _organize_download (filename inn year : string) : M path :=
  let source_path := child (download_dir self) filename in
  (* Create directory structure: downloads/INN/year/ *)
  let target_dir := child (child (download_dir self) inn) year in
  path_mkdir_parents target_dir ;;
  (* Generate unique filename if file already exists *)
  let base_name := stem source_path in
  let extension := suffix source_path in
  w <- get_world ;;
  match free_target (S (List.length (fs w))) target_dir base_name extension 1
                    (child target_dir filename) (fs w) with
  | None => out_of_fuel
  | Some target_path =>
      (* Move file to organized location *)
      path_rename source_path target_path ;;
      ret target_path
  end.

(** The archive part of [_verify_download]: [false] stands for the
    [return False] inside the [with] block. *)
Definition verify_zip (file_path : path) : M bool :=
  try_except
    (zip_ref <- ZipFile file_path ;;
     (* Test ZIP integrity *)
     let bad_file := testzip zip_ref in
     if truthy_opt bad_file then
       (logger ERROR ("ZIP file corrupted, first bad file: "
                      ++ match bad_file with Some n => n | None => "" end) ;;
        ret false)
     else
       (* Check for .xlsx files in ZIP *)
       let xlsx_files := filter (fun f => PyStr.endswith f ".xlsx") (namelist zip_ref) in
       (match xlsx_files with
        | [] => logger WARNING ("No .xlsx files found in ZIP: " ++ path_str file_path)
        | _ => logger INFO ("Found " ++ PyStr.of_nat (List.length xlsx_files)
                            ++ " .xlsx files in ZIP")
        end ;;
        ret true))
    (fun e =>
       if is_bad_zip e then
         (logger ERROR ("Invalid ZIP file: " ++ path_str file_path) ;; ret false)
       else raise e).

(** Verify downloaded file integrity. *)
Definition _verify_download (file_path : path) : M bool :=
  try_except
    (w <- get_world ;;
     if negb (fs_exists file_path (fs w)) then
       (logger ERROR ("File does not exist: " ++ path_str file_path) ;; ret false)
     else
       (* Check file size *)
       st_size <- stat_size file_path ;;
       if (st_size =? 0)%N then
         (logger ERROR ("File is empty: " ++ path_str file_path) ;; ret false)
       else
         (* If it's a ZIP file, verify ZIP integrity *)
         intact <- (if String.eqb (PyStr.lower (suffix file_path)) ".zip"
                    then verify_zip file_path else ret true) ;;
         if intact : bool then
           (logger INFO ("File verification passed: " ++ path_str file_path) ;;
            ret true)
         else ret false)
    (fun e =>
       logger ERROR ("Error verifying file " ++ path_str file_path ++ ": " ++ str e) ;;
       ret false).

(** The failed result built by the [except] blocks. *)
Definition failure (inn : string) (year : option string) (e : exn) : M DownloadResult :=
  now <- time_time ;;
  ret (mkResult inn year false None (Some (str e)) now).

(** Handle the download popup window. *)
Definition _handle_download_popup (inn : string) (year : option string)
  : M (option DownloadResult) :=
  try_except
    ((* Wait for popup to appear *)
     _ <- wait_until (presence_of_element_located (ByClassName "download-reports-buttons")) ;;
     (* Click "Выбрать все" *)
     select_all_button <-
       wait_until (element_to_be_clickable
         (ByXPath "//button[@data-action='add' and contains(text(), 'Выбрать все')]")) ;;
     click select_all_button ;;
     random_delay 1 2 ;;
     (* Click "Скачать архив" *)
     download_archive_button <-
       wait_until (element_to_be_clickable
         (ByXPath "//span[contains(text(), 'Скачать архив')]")) ;;
     (* Get initial file count *)
     initial_files <- _get_download_files ;;
     click download_archive_button ;;
     random_delay 3 5 ;;
     (* Wait for download to complete *)
     downloaded_file <- _wait_for_download initial_files 30 ;;
     match downloaded_file with
     | Some name =>
         if PyStr.truthy name then
           organized_path <- _organize_download name inn (year_or_all year) ;;
           verified <- _verify_download organized_path ;;
           now <- time_time ;;
           if verified : bool then
             ret (Some (mkResult inn (Some (year_or_all year)) true
                                 (Some (path_str organized_path)) None now))
           else
             ret (Some (mkResult inn (Some (year_or_all year)) false
                                 None (Some "Download verification failed") now))
         else ret None
     | None => ret None
     end)
    (fun e =>
       logger ERROR ("Error in download popup for INN " ++ inn ++ ": " ++ str e) ;;
       r <- failure inn year e ;;
       ret (Some r)).

(** Download reports for a specific year. *)
Definition _download_specific_year (inn year : string) : M (option DownloadResult) :=
  try_except
    ((* Click year button *)
     year_button <-
       wait_until (element_to_be_clickable
         (ByXPath ("//button[@data-year='" ++ year ++ "' and contains(text(), '"
                   ++ year ++ "')]"))) ;;
     click year_button ;;
     random_delay 1 2 ;;
     (* Click "Выбрать все" for the year *)
     select_all_button <-
       wait_until (element_to_be_clickable
         (ByXPath "//button[@data-action='add' and contains(text(), 'Выбрать все')]")) ;;
     click select_all_button ;;
     random_delay 1 2 ;;
     (* Click "Скачать архив" *)
     download_archive_button <-
       wait_until (element_to_be_clickable
         (ByXPath "//span[contains(text(), 'Скачать архив')]")) ;;
     initial_files <- _get_download_files ;;
     click download_archive_button ;;
     random_delay 3 5 ;;
     downloaded_file <- _wait_for_download initial_files 30 ;;
     match downloaded_file with
     | Some name =>
         if PyStr.truthy name then
           organized_path <- _organize_download name inn year ;;
           verified <- _verify_download organized_path ;;
           now <- time_time ;;
           if verified : bool then
             ret (Some (mkResult inn (Some year) true
                                 (Some (path_str organized_path)) None now))
           else ret None
         else ret None
     | None => ret None
     end)
    (fun e =>
       logger ERROR ("Error downloading " ++ year ++ " reports for INN " ++ inn
                     ++ ": " ++ str e) ;;
       r <- failure inn (Some year) e ;;
       ret (Some r)).

(** [results.append(x)] under [if x:]. *)
Definition append_if (results : list DownloadResult) (x : option DownloadResult)
  : list DownloadResult :=
  match x with
  | Some r => (results ++ [r])%list
  | None => results
  end.

(** Download balance sheet reports for specified year or all years.
    [results] is a local list that the [except] block appends to as well:
    the handler is given the value the list has where the exception can
    arise. *)
Definition download_reports (inn : string) (year : option string)
  : M (list DownloadResult) :=
  let on_error (results : list DownloadResult) (e : exn) :=
    logger ERROR ("Error downloading reports for INN " ++ inn ++ ": " ++ str e) ;;
    r <- failure inn year e ;;
    ret (results ++ [r])%list in
  try_except
    ((* Wait for organization page to load *)
     _ <- wait_until (presence_of_element_located (ByClassName "download-reports-wrapper")) ;;
     (* Click "Скачать таблицей или текстом" *)
     download_button <-
       wait_until (element_to_be_clickable
         (ByXPath "//button[contains(text(), 'Скачать таблицей или текстом')]")) ;;
     click download_button ;;
     random_delay 1 2 ;;
     (* Handle popup *)
     popup_result <- _handle_download_popup inn year ;;
     let results := append_if [] popup_result in
     try_except
       ((* If no specific year requested, also download 2023 specifically *)
        match year with
        | None =>
            year_2023_result <- _download_specific_year inn "2023" ;;
            ret (append_if results year_2023_result)
        | Some _ => ret results
        end)
       (on_error results))
    (on_error []).

(** [line.strip() for line in f if line.strip()] *)
Definition read_inns (content : string) : list string :=
  map PyStr.strip (filter (fun line => PyStr.truthy (PyStr.strip line))
                          (PyStr.lines content)).

(** The logging loop over the results of one INN. *)
Fixpoint log_results (inn : string) (results : list DownloadResult) : M unit :=
  match results with
  | [] => ret tt
  | result :: rest =>
      (if success result then
         logger INFO ("Successfully downloaded "
                      ++ match year result with Some y => y | None => "None" end
                      ++ " reports for INN " ++ inn ++ ": "
                      ++ match file_path result with Some p => p | None => "None" end)
       else
         logger ERROR ("Failed to download "
                       ++ match year result with Some y => y | None => "None" end
                       ++ " reports for INN " ++ inn ++ ": "
                       ++ match error_message result with Some m => m | None => "None" end)) ;;
      log_results inn rest
  end.

(** One turn of the loop of [process_inns]: the value [all_results] has
    after it.  The log calls that follow [all_results.extend(results)]
    cannot raise, so the handler meets the list as it was before the
    [try]. *)
Definition process_inn (inn : string) (all_results : list DownloadResult)
  : M (list DownloadResult) :=
  try_except
    ((* Search for organization *)
     found <- search_organization inn ;;
     if found : bool then
       (* Download reports *)
       results <- download_reports inn None ;;
       let all_results := (all_results ++ results)%list in
       (* Log results for this INN *)
       log_results inn results ;;
       ret all_results
     else
       now <- time_time ;;
       ret (all_results
            ++ [mkResult inn None false None (Some "Organization not found") now])%list)
    (fun e =>
       logger ERROR ("Error processing INN " ++ inn ++ ": " ++ str e) ;;
       r <- failure inn None e ;;
       ret (all_results ++ [r])%list).

(** The loop [for i, inn in enumerate(inns, 1)] of [process_inns]. *)
Fixpoint process_loop (inns : list string) (i total : nat)
         (all_results : list DownloadResult) : M (list DownloadResult) :=
  match inns with
  | [] => ret all_results
  | inn :: rest =>
      logger INFO ("Processing INN " ++ PyStr.of_nat i ++ "/" ++ PyStr.of_nat total
                   ++ ": " ++ inn) ;;
      all_results <- process_inn inn all_results ;;
      (* Add delay between INNs *)
      random_delay 5 10 ;;
      process_loop rest (S i) total all_results
  end.

(** Process all INNs from the input file. *)
Definition process_inns (inns_file : path) : M (list DownloadResult) :=
  w <- get_world ;;
  if negb (fs_exists inns_file (fs w)) then
    (logger ERROR ("INNs file not found: " ++ path_str inns_file) ;;
     ret [])
  else
    (* Read INNs from file *)
    content <- read_text inns_file ;;
    let inns := read_inns content in
    logger INFO ("Processing " ++ PyStr.of_nat (List.length inns) ++ " INNs from "
                 ++ path_str inns_file) ;;
    get_driver (process_loop inns 1 (List.length inns) []).

(** The detail lines of the report. *)
Fixpoint detail_lines (results : list DownloadResult) : string :=
  match results with
  | [] => ""
  | result :: rest =>
      let status := if success result then "✓" else "✗" in
      status ++ " " ++ inn result ++ " (" ++ year_or_all (year result) ++ "): "
      ++ show_or (file_path result) (error_message result) ++ nl
      ++ detail_lines rest
  end.

Definition total_inns (results : list DownloadResult) : nat :=
  List.length (nodup string_dec (map inn results)).

Definition successful_downloads (results : list DownloadResult) : nat :=
  List.length (filter success results).

Definition failed_downloads (results : list DownloadResult) : nat :=
  List.length (filter (fun r => negb (success r)) results).

(** [successful_downloads / len(results) * 100] *)
Definition success_rate (results : list DownloadResult) : M Float.float :=
  match results with
  | [] => raise (mkExn ZeroDivisionError "division by zero")
  | _ =>
      ret (Float.mul_int
             (Float.div_int (Z.of_nat (successful_downloads results))
                            (Z.of_nat (List.length results)))
             100)
  end.

(** Generate summary report of download results. *)
Definition generate_report (results : list DownloadResult) : M string :=
  now <- time_time ;;
  rate <- success_rate results ;;
  let report :=
    nl ++ "Balance Sheet Download Summary Report" ++ nl
    ++ "=====================================" ++ nl
    ++ "Generated: " ++ strftime now ++ nl
    ++ nl
    ++ "Total INNs processed: " ++ PyStr.of_nat (total_inns results) ++ nl
    ++ "Successful downloads: " ++ PyStr.of_nat (successful_downloads results) ++ nl
    ++ "Failed downloads: " ++ PyStr.of_nat (failed_downloads results) ++ nl
    ++ "Success rate: " ++ Float.format_1f rate ++ "%" ++ nl
    ++ nl
    ++ "Detailed Results:" ++ nl in
  ret (report ++ detail_lines results).

End Downloader.

(** The command line. *)
Record Args := mkArgs {
  inns_file : path;
  arg_download_dir : path;
  arg_headless : bool;
  report : path
}.

(** Main execution function: the exit status of the process.  The
    downloader is built outside the [try], so an exception of [__init__]
    is not caught and ends the process with status 1 as well, without the
    ["Fatal error"] line. *)
Definition main (strftime : Z -> string) (args : Args) : M nat :=
  let downloader := mkDownloader (arg_download_dir args) (arg_headless args) in
  try_except
    (init downloader ;;
     try_except
       ((* Process all INNs *)
        results <- process_inns downloader (inns_file args) ;;
        (* Generate and save report *)
        report_text <- generate_report strftime results ;;
        write_text (report args) report_text ;;
        print ("Download process completed. Report saved to: " ++ path_str (report args)) ;;
        print ("Total results: " ++ PyStr.of_nat (List.length results)) ;;
        print ("Successful downloads: "
               ++ PyStr.of_nat (List.length (filter success results))) ;;
        ret 0)
       (fun e =>
          print ("Fatal error: " ++ str e) ;;
          ret 1))
    (fun _ => ret 1).

(* ===================================================================== *)
(** ** Names used in the statements *)
(* ===================================================================== *)

(** The name tried at the [counter]-th turn of the loop of
    [_organize_download]. *)
Definition numbered (base_name extension : string) (counter : nat) : string :=
  base_name ++ "_" ++ PyStr.of_nat counter ++ extension.

(** The path tried at the [counter]-th turn. *)
Definition numbered_path (target_dir : path) (base_name extension : string)
           (counter : nat) : path :=
  child target_dir (numbered base_name extension counter).

(** A downloader with the default directory. *)
Definition dl : BalanceSheetDownloader := mkDownloader ["downloads"] true.

(** An archive with one sound spreadsheet. *)
Definition sound_zip : payload :=
  ZipArchive [mkMember "balance_2023.xlsx" 2048 true].

(** [downloads/7707083893/2023/report.zip] is there already and a second
    [report.zip] has just been downloaded. *)
Definition w_collision : World :=
  mkWorld 0
    [ (["downloads"], Dir);
      (["downloads"; "7707083893"], Dir);
      (["downloads"; "7707083893"; "2023"], Dir);
      (["downloads"; "7707083893"; "2023"; "report.zip"], File (Bytes "old"));
      (["downloads"; "report.zip"], File sound_zip) ]
    [] true [] [] [] [] [].

(** The names that [_wait_for_download] finds new in world [w]: those of
    the listing that are not in the snapshot ([None] when the directory
    cannot be listed). *)
Definition new_files (self : BalanceSheetDownloader) (initial_files : list string)
           (w : World) : option (list string) :=
  match fst (_get_download_files self w) with
  | Ok current_files =>
      Some (filter (fun f => negb (mem_string f initial_files)) current_files)
  | _ => None
  end.

(** The world [k] polls later, when each poll is followed by
    [time.sleep(1)]. *)
Definition seconds_later (k : nat) (w : World) : World :=
  Nat.iter k (advance 1000) w.

(** An older download is in the directory; [report.zip] arrives 3.5
    seconds from now. *)
Definition w_arriving : World :=
  mkWorld 0
    [ (["downloads"], Dir);
      (["downloads"; "old.zip"], File sound_zip) ]
    [ (3500%Z, Appears ["downloads"; "report.zip"] sound_zip) ]
    true [] [] [] [] [].

(** The same directory, and nothing arrives. *)
Definition w_quiet : World :=
  mkWorld 0
    [ (["downloads"], Dir);
      (["downloads"; "old.zip"], File sound_zip) ]
    [] true [] [] [] [] [].

(** [m] does not run out of iterations, and a value it returns
    satisfies [Q]; it may raise. *)
Definition yields {A} (m : M A) (Q : A -> Prop) : Prop :=
  forall w, match fst (m w) with
            | Ok a => Q a
            | Raise _ => True
            | OutOfFuel => False
            end.

(** [m] neither raises nor runs out of iterations, and the value it
    returns satisfies [Q]. *)
Definition always {A} (m : M A) (Q : A -> Prop) : Prop :=
  forall w, match fst (m w) with
            | Ok a => Q a
            | Raise _ | OutOfFuel => False
            end.

(** An archive in which some member does not match its CRC. *)
Definition corrupted (ms : list zip_member) : bool :=
  existsb (fun m => negb (crc_matches m)) ms.

(** A file that is no [.zip] by its name, holding an archive with a
    corrupted spreadsheet. *)
Definition w_misnamed : World :=
  mkWorld 0
    [ (["downloads"], Dir);
      (["downloads"; "7707083893"], Dir);
      (["downloads"; "7707083893"; "all"], Dir);
      (["downloads"; "7707083893"; "all"; "report.dat"],
       File (ZipArchive [mkMember "balance_2023.xlsx" 2048 false])) ]
    [] true [] [] [] [] [].

(** A [.zip] whose only member is corrupted and has the empty name. *)
Definition w_unnamed : World :=
  mkWorld 0
    [ (["downloads"], Dir);
      (["downloads"; "report.zip"], File (ZipArchive [mkMember "" 2048 false])) ]
    [] true [] [] [] [] [].

(** A [.zip] with a corrupted spreadsheet, one with sound members but no
    spreadsheet, and an empty file. *)
Definition w_archives : World :=
  mkWorld 0
    [ (["downloads"], Dir);
      (["downloads"; "good.zip"], File sound_zip);
      (["downloads"; "bad.zip"],
       File (ZipArchive [mkMember "a.xlsx" 10 true; mkMember "b.xlsx" 20 false]));
      (["downloads"; "text.zip"], File (ZipArchive [mkMember "readme.txt" 5 true]));
      (["downloads"; "empty.zip"], File (Bytes ""));
      (["downloads"; "notes.txt"], File (Bytes "hello")) ]
    [] true [] [] [] [] [].

(** The search page answers too late at the first attempt: the wait for
    the results container times out after 20 seconds.  A second attempt
    would find the organization. *)
Definition w_slow_page : World :=
  mkWorld 0 [ (["downloads"], Dir) ] [] true
    [ mkResponse 500 Done;
      mkResponse 20000 (Raises (mkExn TimeoutException "Message: "));
      mkResponse 500 Done;
      mkResponse 300 Done;
      mkResponse 100 (Elements ["7707083893"]);
      mkResponse 100 Done ]
    [] [] [] [].

(** The page of the organization is open, every control answers, and the
    archive that arrives while the script waits is empty. *)
Definition w_empty_archive : World :=
  mkWorld 0 [ (["downloads"], Dir) ]
    [ (3000%Z, Appears ["downloads"; "report.zip"] (Bytes "")) ]
    true [] [] [] [] [].

(** All results of [rs] are results for the identifier [ident]. *)
Definition results_for (ident : string) (rs : list DownloadResult) : Prop :=
  Forall (fun r => inn r = ident) rs.

(** What an optional result says about its identifier. *)
Definition result_for (ident : string) (o : option DownloadResult) : Prop :=
  match o with
  | Some r => inn r = ident
  | None => True
  end.

(** One identifier in the input file; the organization is found, every
    control of its page answers, and no file ever arrives in the download
    directory. *)
Definition w_no_file : World :=
  mkWorld 0
    [ (["downloads"], Dir);
      (["inns.txt"], File (Bytes ("7707083893" ++ nl))) ]
    [] false
    [ mkResponse 0 Done;                          (* the driver starts *)
      mkResponse 0 Done;                          (* the search page loads *)
      mkResponse 0 Done;                          (* the results container is there *)
      mkResponse 0 (Elements ["7707083893"]) ]    (* the entries shown *)
    [] [] [] [].

(** The same file, and the search shows another organization only. *)
Definition w_not_found : World :=
  mkWorld 0
    [ (["downloads"], Dir);
      (["inns.txt"], File (Bytes ("7707083893" ++ nl))) ]
    [] true
    [ mkResponse 0 Done;
      mkResponse 0 Done;
      mkResponse 0 (Elements ["7736050003"]) ]
    [] [] [] [].

(** A session is open; the search shows the organization looked for and
    every control answers, but no file ever arrives. *)
Definition w_found : World :=
  mkWorld 0
    [ (["downloads"], Dir) ]
    [] true
    [ mkResponse 0 Done;
      mkResponse 0 Done;
      mkResponse 0 (Elements ["7707083893"]) ]
    [] [] [] [].

(** The result recorded when the search does not find [ident]. *)
Definition not_found (ident : string) (now : Z) : DownloadResult :=
  mkResult ident None false None (Some "Organization not found") now.

(** A line is blank when all its characters are white space. *)
Fixpoint is_blank (s : string) : bool :=
  match s with
  | EmptyString => true
  | String c r => PyStr.isspace c && is_blank r
  end.

(** The identifiers of an input file, in the words of the specification:
    its non-blank lines, with surrounding white space stripped, in file
    order. *)
Definition identifiers (content : string) : list string :=
  map PyStr.strip (filter (fun line => negb (is_blank line)) (PyStr.lines content)).

(** The address [search_organization] loads for an identifier. *)
Definition search_url (ident : string) : string :=
  "https://bo.nalog.gov.ru/search?query=" ++ ident.

(** The addresses loaded so far, oldest first. *)
Definition searches (w : World) : list string :=
  flat_map (fun c => match c with Get url => [url] | _ => [] end) (history w).

(** [m] loads no page and leaves the session as it is. *)
Definition quiet {A} (m : M A) : Prop :=
  forall w, searches (snd (m w)) = searches w /\ session (snd (m w)) = session w.

(** The next call on the browser does not raise. *)
Definition browser_answers (w : World) : Prop :=
  forall e, answer (fst (next_response w)) <> Raises e.

(** Three identifiers, one of them twice, between blank lines and with
    white space around; the browser starts, finds nothing and no file
    arrives. *)
Definition w_three_lines : World :=
  mkWorld 0
    [ (["downloads"], Dir);
      (["inns.txt"],
       File (Bytes ("  7707083893 " ++ nl ++ nl ++ "7736050003" ++ nl
                    ++ "   " ++ nl ++ "7707083893"))) ]
    [] false [] [] [] [] [].

(** The head of the report with its numbers filled in. *)
Definition summary_block (generated : string) (total ok failed : nat) (rate : string)
  : string :=
  nl ++ "Balance Sheet Download Summary Report" ++ nl
  ++ "=====================================" ++ nl
  ++ "Generated: " ++ generated ++ nl
  ++ nl
  ++ "Total INNs processed: " ++ PyStr.of_nat total ++ nl
  ++ "Successful downloads: " ++ PyStr.of_nat ok ++ nl
  ++ "Failed downloads: " ++ PyStr.of_nat failed ++ nl
  ++ "Success rate: " ++ rate ++ "%" ++ nl
  ++ nl
  ++ "Detailed Results:" ++ nl.

(** A rendering of the clock for the examples. *)
Definition seconds_stamp (t : Z) : string :=
  "t+" ++ PyStr.of_nat (Z.to_nat (t / 1000)) ++ "s".

(** Two identifiers: the first downloaded one archive, the second was not
    found by the search. *)
Definition two_results : list DownloadResult :=
  [ mkResult "7707083893" (Some "all") true
             (Some "downloads/7707083893/all/report.zip") None 7000;
    not_found "7736050003" 20000 ].

(** The command line of a run whose input file is missing. *)
Definition args_missing : Args :=
  mkArgs ["missing.txt"] ["downloads"] true ["download_report.txt"].

(* ===================================================================== *)
(** ** Names used in the further statements *)
(* ===================================================================== *)

(** The world after the driver has answered call [c] with [r], the
    answers [rest] being left. *)
Definition answered (c : call) (r : response) (rest : list response) (w : World) : World :=
  advance (took r)
    (mkWorld (clock w) (fs w) (pending w) (session w) rest (entropy w)
             (history w ++ [c])%list (log w) (stdout w)).

(** The next answer of the browser is no exception. *)
Definition answers (r : response) : Prop := forall e, answer r <> Raises e.

(** The driver starts and the first page does not load. *)
Definition w_failing_page : World :=
  mkWorld 0 [ (["downloads"], Dir) ] [] false
    [ mkResponse 900 Done;
      mkResponse 100 (Raises (mkExn WebDriverException "net::ERR_CONNECTION_RESET")) ]
    [] [] [] [].

(** Some values of the random source. *)
Definition w_dice : World :=
  mkWorld 0 [ (["downloads"], Dir) ] [] true [] [4711; 250; 999]%Z [] [] [].

(** A session is open and the first call raises. *)
Definition w_broken_page : World :=
  mkWorld 0 [ (["downloads"], Dir) ] [] true
    [ mkResponse 100 (Raises (mkExn WebDriverException "net::ERR_CONNECTION_RESET")) ]
    [] [] [] [].

(** The browser does not start. *)
Definition w_no_chrome : World :=
  mkWorld 0 [ (["downloads"], Dir) ] [] false
    [ mkResponse 100 (Raises (mkExn WebDriverException "chrome not reachable")) ]
    [] [] [] [].

(** The search page lists two organizations; the second is the one
    looked for, shown with white space around its number. *)
Definition w_listed : World :=
  mkWorld 0 [ (["downloads"], Dir) ] [] true
    [ mkResponse 700 Done;
      mkResponse 300 Done;
      mkResponse 50 (Elements ["7736050003"; " 7707083893 "; "7707083893"]);
      mkResponse 80 Done;
      mkResponse 10 Done ]
    [] [] [] [].

(** A result is success with a file path and no message, or failure with
    a message and no file path; the year it names is the one of the bulk
    flow (["all"]), the fixed year of the second flow, or none. *)
Definition well_formed (r : DownloadResult) : Prop :=
  if success r then
    (exists p, file_path r = Some p) /\ error_message r = None
    /\ (year r = Some "all" \/ year r = Some "2023")
  else
    file_path r = None /\ (exists m, error_message r = Some m)
    /\ (year r = None \/ year r = Some "all" \/ year r = Some "2023").

Definition well_formed_opt (o : option DownloadResult) : Prop :=
  match o with
  | Some r => well_formed r
  | None => True
  end.

(** The most results [download_reports] returns for a given [year]
    argument. *)
Definition most_results (y : option string) : nat :=
  match y with
  | Some _ => 1
  | None => 2
  end.

(** The input file names two organizations; the browser starts, the
    first is found and its archive arrives, the second is not listed. *)
Definition w_batch : World :=
  mkWorld 0
    [ (["downloads"], Dir);
      (["inns.txt"], File (Bytes ("7707083893" ++ nl ++ "7736050003" ++ nl))) ]
    [ (13000%Z, Appears ["downloads"; "report.zip"] sound_zip) ]
    false
    [ mkResponse 0 Done;                          (* the driver starts *)
      mkResponse 0 Done;                          (* search page *)
      mkResponse 0 Done;                          (* results container *)
      mkResponse 0 (Elements ["7707083893"]);     (* entries *)
      mkResponse 0 Done;                          (* click on the entry *)
      mkResponse 0 Done; mkResponse 0 Done; mkResponse 0 Done;   (* bulk flow ... *)
      mkResponse 0 Done; mkResponse 0 Done; mkResponse 0 Done;
      mkResponse 0 Done; mkResponse 0 Done;
      mkResponse 0 (Raises (mkExn TimeoutException "Message: ")); (* no 2023 button *)
      mkResponse 0 Done;                          (* second search page *)
      mkResponse 0 Done;
      mkResponse 0 (Elements []) ]
    [] [] [] [].

(** What the batch returns in [w_batch]. *)
Definition batch_results : list DownloadResult :=
  [ mkResult "7707083893" (Some "all") true
             (Some "downloads/7707083893/all/report.zip") None 15000;
    mkResult "7707083893" (Some "2023") false None (Some "Message: ") 15000;
    not_found "7736050003" 22000 ].

(** A download directory with two archives, the folder of an
    organization and a download in progress. *)
Definition w_listing : World :=
  mkWorld 0
    [ (["downloads"], Dir);
      (["downloads"; "a.zip"], File sound_zip);
      (["downloads"; "7707083893"], Dir);
      (["downloads"; "7707083893"; "all"], Dir);
      (["downloads"; "7707083893"; "all"; "old.zip"], File sound_zip);
      (["downloads"; "b.zip.crdownload"], File (Bytes "PK"));
      (["elsewhere.zip"], File sound_zip) ]
    [ (2500%Z, Vanishes ["downloads"; "b.zip.crdownload"]);
      (2500%Z, Appears ["downloads"; "b.zip"] sound_zip) ]
    true [] [] [] [] [].

(** The server has answered with an error page saved as [report.zip]. *)
Definition w_error_page : World :=
  mkWorld 0
    [ (["downloads"], Dir);
      (["downloads"; "report.zip"], File (Bytes "<html>Service unavailable</html>")) ]
    [] true [] [] [] [] [].

(** A first download for an organization: its folders are not there
    yet. *)
Definition w_first_download : World :=
  mkWorld 0
    [ (["downloads"], Dir);
      (["downloads"; "report.zip"], File sound_zip) ]
    [] true [] [] [] [] [].

(** The command line of a run over [inns.txt]. *)
Definition args_batch : Args :=
  mkArgs ["inns.txt"] ["downloads"] true ["download_report.txt"].

(** The download directory asked for is a regular file. *)
Definition w_blocked : World :=
  mkWorld 0 [ (["downloads"], File (Bytes "not a folder")) ] [] false [] [] [] [] [].

(** Time does not run backwards through [m]. *)
Definition forward {A} (m : M A) : Prop :=
  forall w, (clock w <= clock (snd (m w)))%Z.

(** A string has no white space at its start. *)
Definition starts_clean (s : string) : bool :=
  match s with
  | EmptyString => true
  | String c _ => negb (PyStr.isspace c)
  end.

(** A string has no white space at its end. *)
Definition ends_clean (s : string) : bool := starts_clean (PyStr.rev s).

(** [m] leaves the file system and the clock as they are. *)
Definition still {A} (m : M A) : Prop :=
  forall w, fs (snd (m w)) = fs w /\ clock (snd (m w)) = clock w.

(** The popup is open and every control answers; the archive arrives
    three seconds later. *)
Definition w_popup : World :=
  mkWorld 0
    [ (["downloads"], Dir) ]
    [ (3000%Z, Appears ["downloads"; "report.zip"] sound_zip) ]
    true [] [] [] [] [].

(** The input path given is a folder. *)
Definition w_folder_as_input : World :=
  mkWorld 0 [ (["downloads"], Dir); (["inns.txt"], Dir) ] [] false [] [] [] [] [].

(* ===================================================================== *)
(** * Properties *)
(* ===================================================================== *)

Local Open Scope list_scope.

(** ** The file system *)

Lemma path_eqb_eq (p q : path) : path_eqb p q = true <-> p = q.
Proof.
  unfold path_eqb. destruct (list_eq_dec string_dec p q); intuition congruence.
Qed.

Lemma path_eqb_refl (p : path) : path_eqb p p = true.
Proof. now apply path_eqb_eq. Qed.

Lemma path_eqb_neq (p q : path) : p <> q -> path_eqb p q = false.
Proof.
  intros H. unfold path_eqb. destruct (list_eq_dec string_dec p q); congruence.
Qed.

Lemma fs_lookup_app (p : path) (f g : filesystem) :
  fs_lookup p (f ++ g) =
  match fs_lookup p f with Some n => Some n | None => fs_lookup p g end.
Proof.
  induction f as [|[q n] f IH]; simpl; [reflexivity|].
  destruct (path_eqb p q); [reflexivity | exact IH].
Qed.

Lemma fs_lookup_remove_same (p : path) (f : filesystem) :
  fs_lookup p (fs_remove p f) = None.
Proof.
  induction f as [|[q n] f IH]; simpl; [reflexivity|].
  destruct (path_eqb p q) eqn:E; simpl; [exact IH|].
  now rewrite E.
Qed.

Lemma fs_lookup_remove_other (p q : path) (f : filesystem) :
  p <> q -> fs_lookup q (fs_remove p f) = fs_lookup q f.
Proof.
  intros Hne. induction f as [|[r n] f IH]; simpl; [reflexivity|].
  destruct (path_eqb p r) eqn:E; simpl.
  - apply path_eqb_eq in E. subst r.
    rewrite (path_eqb_neq q p) by congruence. exact IH.
  - now rewrite IH.
Qed.

Lemma fs_lookup_put_same (p : path) (n : node) (f : filesystem) :
  fs_lookup p (fs_put p n f) = Some n.
Proof.
  unfold fs_put. rewrite fs_lookup_app, fs_lookup_remove_same. simpl.
  now rewrite path_eqb_refl.
Qed.

Lemma fs_lookup_put_other (p q : path) (n : node) (f : filesystem) :
  p <> q -> fs_lookup q (fs_put p n f) = fs_lookup q f.
Proof.
  intros Hne. unfold fs_put. rewrite fs_lookup_app, fs_lookup_remove_other by exact Hne.
  destruct (fs_lookup q f); [reflexivity|]. simpl.
  now rewrite (path_eqb_neq q p) by congruence.
Qed.

Lemma fs_lookup_In (p : path) (n : node) (f : filesystem) :
  fs_lookup p f = Some n -> In p (map fst f).
Proof.
  induction f as [|[q m] f IH]; simpl; [discriminate|].
  destruct (path_eqb p q) eqn:E.
  - apply path_eqb_eq in E. now left.
  - intros H. right. now apply IH.
Qed.

Lemma fs_exists_In (p : path) (f : filesystem) :
  p <> [] -> fs_exists p f = true -> In p (map fst f).
Proof.
  intros Hp. unfold fs_exists. destruct p; [congruence|].
  destruct (fs_lookup (s :: p) f) eqn:E; [|discriminate].
  intros _. eapply fs_lookup_In; eauto.
Qed.

(** Creating the directories of a path keeps what is there and adds
    directories only. *)
Lemma fs_mkdir_from_keeps (todo done : path) (f f' : filesystem) :
  fs_mkdir_from done todo f = Some f' ->
  forall q n, fs_lookup q f = Some n -> fs_lookup q f' = Some n.
Proof.
  revert done f. induction todo as [|c todo IH]; simpl; intros done f H q n Hq.
  - now inversion H; subst.
  - destruct (fs_lookup (done ++ [c]) f) as [[?|]|] eqn:E; [discriminate| |].
    + eapply IH; eauto.
    + eapply IH; [exact H|].
      rewrite fs_lookup_put_other; [exact Hq|]. intros Heq. subst q. congruence.
Qed.

Lemma fs_mkdir_from_is_dir (todo done : path) (f f' : filesystem) :
  fs_mkdir_from done todo f = Some f' ->
  fs_is_dir done f = true ->
  fs_is_dir (done ++ todo) f' = true.
Proof.
  revert done f. induction todo as [|c todo IH]; simpl; intros done f H Hd.
  - inversion H; subst. now rewrite app_nil_r.
  - replace (done ++ c :: todo)%list with ((done ++ [c]) ++ todo)%list
      by now rewrite <- app_assoc.
    assert (Hne : (done ++ [c])%list <> []) by (destruct done; discriminate).
    destruct (fs_lookup (done ++ [c]) f) as [[?|]|] eqn:E; [discriminate| |].
    + eapply IH; [exact H|]. unfold fs_is_dir.
      destruct (done ++ [c])%list; [congruence|]. now rewrite E.
    + eapply IH; [exact H|]. unfold fs_is_dir.
      destruct (done ++ [c])%list eqn:E'; [congruence|].
      now rewrite fs_lookup_put_same.
Qed.

(** ** Numbered names *)

Lemma string_length_append (a b : string) :
  String.length (a ++ b)%string = String.length a + String.length b.
Proof. induction a; simpl; [reflexivity | now rewrite IHa]. Qed.

Lemma string_append_inv_head (s a b : string) :
  (s ++ a)%string = (s ++ b)%string -> a = b.
Proof. induction s; simpl; intros H; [exact H | injection H; auto]. Qed.

Lemma string_append_inv_tail (a b e : string) :
  (a ++ e)%string = (b ++ e)%string -> a = b.
Proof.
  revert b. induction a as [|c a IH]; intros [|d b] H; simpl in H.
  - reflexivity.
  - apply (f_equal String.length) in H. simpl in H.
    rewrite string_length_append in H. lia.
  - apply (f_equal String.length) in H. simpl in H.
    rewrite string_length_append in H. lia.
  - injection H as -> H. f_equal. now apply IH.
Qed.

Lemma of_nat_inj (m n : nat) : PyStr.of_nat m = PyStr.of_nat n -> m = n.
Proof.
  unfold PyStr.of_nat. intros H.
  apply Unsigned.to_uint_inj.
  apply (f_equal NilEmpty.uint_of_string) in H.
  rewrite !NilEmpty.usu in H. now injection H.
Qed.

Lemma numbered_inj (base ext : string) (m n : nat) :
  numbered base ext m = numbered base ext n -> m = n.
Proof.
  unfold numbered. intros H.
  apply string_append_inv_head in H. simpl in H. injection H as H.
  apply string_append_inv_tail in H. now apply of_nat_inj.
Qed.

Lemma child_numbered (d : path) (base ext : string) (k : nat) :
  child d (numbered base ext k) = d ++ [numbered base ext k].
Proof.
  unfold child, numbered.
  destruct base as [|c [|c' base]]; simpl; try reflexivity.
  all: destruct (Ascii.eqb c "."); reflexivity.
Qed.

Lemma child_numbered_inj (d : path) (base ext : string) (m n : nat) :
  child d (numbered base ext m) = child d (numbered base ext n) -> m = n.
Proof.
  rewrite !child_numbered. intros H. apply app_inv_head in H.
  injection H as H. now apply numbered_inj in H.
Qed.

Lemma child_numbered_not_nil (d : path) (base ext : string) (k : nat) :
  child d (numbered base ext k) <> [].
Proof. rewrite child_numbered. destruct d; discriminate. Qed.

(** A file system with [n] entries cannot hold [n + 1] numbered names. *)
Lemma numbered_pigeonhole (f : filesystem) (d : path) (base ext : string) (n : nat) :
  (forall k, 1 <= k <= n -> fs_exists (child d (numbered base ext k)) f = true) ->
  n <= List.length f.
Proof.
  intros H.
  assert (Hle : List.length (map (fun k => child d (numbered base ext k)) (seq 1 n))
                <= List.length (map fst f)).
  { apply NoDup_incl_length.
    - apply Injective_map_NoDup; [|apply seq_NoDup].
      intros a b. apply child_numbered_inj.
    - intros p Hp. apply in_map_iff in Hp as (k & <- & Hk). apply in_seq in Hk.
      apply fs_exists_In; [apply child_numbered_not_nil|]. apply H. lia. }
  now rewrite !length_map, length_seq in Hle.
Qed.

(** ** The loop of [_organize_download] *)

Section FreeTarget.

Variables (f : filesystem) (target_dir : path) (base_name extension : string).

Local Abbreviation cand := (numbered_path target_dir base_name extension).

(** The loop is granted enough iterations. *)
Lemma free_target_fuel_gen (fuel counter : nat) (target : path) :
  (forall k, 1 <= k -> S k < counter -> fs_exists (cand k) f = true) ->
  (2 <= counter -> target = cand (counter - 1)) ->
  List.length f + 2 <= counter + fuel ->
  free_target fuel target_dir base_name extension counter target f <> None.
Proof.
  revert counter target.
  induction fuel as [|fuel IH]; intros counter target Hall Htgt Hlen; simpl.
  - destruct (fs_exists target f) eqn:E; [|discriminate].
    exfalso.
    assert (counter - 1 <= List.length f); [|lia].
    apply (numbered_pigeonhole f target_dir base_name extension).
    intros k Hk. destruct (Nat.eq_dec k (counter - 1)) as [->|Hne].
    + fold (numbered_path target_dir base_name extension (counter - 1)).
      rewrite <- Htgt by lia. exact E.
    + apply Hall; lia.
  - destruct (fs_exists target f) eqn:E; [|discriminate].
    apply IH.
    + intros k Hk1 Hk2. destruct (Nat.eq_dec (S k) counter) as [<-|Hne].
      * rewrite Htgt in E by lia. simpl in E. now rewrite Nat.sub_0_r in E.
      * apply Hall; lia.
    + intros _. simpl. now rewrite Nat.sub_0_r.
    + lia.
Qed.

Lemma free_target_fuel (target : path) :
  free_target (S (List.length f)) target_dir base_name extension 1 target f <> None.
Proof. apply free_target_fuel_gen; intros; lia. Qed.

(** What the loop answers does not exist. *)
Lemma free_target_fresh (fuel counter : nat) (target p : path) :
  free_target fuel target_dir base_name extension counter target f = Some p ->
  fs_exists p f = false.
Proof.
  revert counter target. induction fuel as [|fuel IH]; intros counter target; simpl.
  - destruct (fs_exists target f) eqn:E; [discriminate|]. now intros [= <-].
  - destruct (fs_exists target f) eqn:E; [apply IH|]. now intros [= <-].
Qed.

(** It is the first target or a numbered name. *)
Lemma free_target_shape (fuel counter : nat) (target p : path) :
  free_target fuel target_dir base_name extension counter target f = Some p ->
  p = target \/ exists k, counter <= k /\ p = cand k.
Proof.
  revert counter target. induction fuel as [|fuel IH]; intros counter target; simpl.
  - destruct (fs_exists target f); [discriminate|]. intros [= <-]. now left.
  - destruct (fs_exists target f).
    + intros H. apply IH in H as [->|(k & Hk & ->)]; right.
      * exists counter. split; [lia | reflexivity].
      * exists k. split; [lia | reflexivity].
    + intros [= <-]. now left.
Qed.

Lemma free_target_step (fuel counter : nat) (target : path) :
  free_target (S fuel) target_dir base_name extension counter target f
  = if fs_exists target f
    then free_target fuel target_dir base_name extension (S counter) (cand counter) f
    else Some target.
Proof. reflexivity. Qed.

(** From the name numbered [j], the loop stops at the first free one. *)
Lemma free_target_scan (n j fuel : nat) :
  (forall i, j <= i < j + n -> fs_exists (cand i) f = true) ->
  fs_exists (cand (j + n)) f = false ->
  n <= fuel ->
  free_target fuel target_dir base_name extension (S j) (cand j) f
  = Some (cand (j + n)).
Proof.
  revert j fuel. induction n as [|n IH]; intros j fuel Hall Hfree Hfuel.
  - rewrite Nat.add_0_r in Hfree. destruct fuel; simpl; rewrite Hfree;
      now rewrite Nat.add_0_r.
  - destruct fuel as [|fuel]; [lia|]. rewrite free_target_step.
    rewrite (Hall j) by lia.
    rewrite (IH (S j) fuel).
    + f_equal. f_equal. lia.
    + intros i Hi. apply Hall. lia.
    + now replace (S j + n) with (j + S n) by lia.
    + lia.
Qed.

(** On a collision the answer is the name with the least free number. *)
Lemma free_target_least (k : nat) (target : path) :
  fs_exists target f = true ->
  1 <= k ->
  (forall i, 1 <= i < k -> fs_exists (cand i) f = true) ->
  fs_exists (cand k) f = false ->
  free_target (S (List.length f)) target_dir base_name extension 1 target f
  = Some (cand k).
Proof.
  intros Ht Hk Hall Hfree. rewrite free_target_step, Ht.
  replace k with (1 + (k - 1)) in * by lia.
  apply free_target_scan.
  - intros i Hi. apply Hall. lia.
  - exact Hfree.
  - assert (k - 1 <= List.length f); [|lia].
    apply (numbered_pigeonhole f target_dir base_name extension).
    intros i Hi. apply Hall. lia.
Qed.

End FreeTarget.

(** ** [_organize_download] *)

Lemma fs_exists_lookup (p : path) (f : filesystem) :
  fs_exists p f = false -> fs_lookup p f = None /\ p <> [].
Proof.
  unfold fs_exists. destruct p; [discriminate|].
  destruct (fs_lookup (s :: p) f); [discriminate|]. split; [reflexivity|discriminate].
Qed.

Lemma fs_lookup_exists (p : path) (n : node) (f : filesystem) :
  fs_lookup p f = Some n -> fs_exists p f = true.
Proof. unfold fs_exists. destruct p; [reflexivity|]. now intros ->. Qed.

Lemma fs_is_dir_exists (p : path) (f : filesystem) :
  fs_is_dir p f = true -> fs_exists p f = true.
Proof.
  unfold fs_is_dir, fs_exists. destruct p; [reflexivity|].
  destruct (fs_lookup (s :: p) f) as [[]|]; congruence.
Qed.

Lemma parent_snoc (d : path) (name : string) : parent (d ++ [name]) = d.
Proof. apply removelast_last. Qed.

(** [_organize_download], one step after the other. *)
Lemma organize_unfold (self : BalanceSheetDownloader) (filename inn year : string)
      (w : World) :
  let source_path := child (download_dir self) filename in
  let target_dir := child (child (download_dir self) inn) year in
  _organize_download self filename inn year w =
  match fs_mkdir_parents target_dir (fs w) with
  | None => (Raise (mkExn FileExistsError ("File exists: " ++ path_str target_dir)%string), w)
  | Some f1 =>
      match free_target (S (List.length f1)) target_dir (stem source_path)
                        (suffix source_path) 1 (child target_dir filename) f1 with
      | None => (OutOfFuel, set_fs f1 w)
      | Some target_path =>
          match path_rename source_path target_path (set_fs f1 w) with
          | (Ok _, w') => (Ok target_path, w')
          | (Raise e, w') => (Raise e, w')
          | (OutOfFuel, w') => (OutOfFuel, w')
          end
      end
  end.
Proof.
  intros source_path target_dir.
  unfold _organize_download, bind, path_mkdir_parents, get_world, out_of_fuel, ret.
  fold source_path target_dir.
  destruct (fs_mkdir_parents target_dir (fs w)) as [f1|]; [|reflexivity].
  cbn [fs set_fs].
  destruct (free_target _ _ _ _ _ _ f1); reflexivity.
Qed.

(** [src.rename(dst)] for a regular file and a free destination in an
    existing directory. *)
Lemma path_rename_file (src dst : path) (c : payload) (w : World) :
  fs_lookup src (fs w) = Some (File c) ->
  fs_is_dir (parent dst) (fs w) = true ->
  fs_exists dst (fs w) = false ->
  path_rename src dst w = (Ok tt, set_fs (fs_put dst (File c) (fs_remove src (fs w))) w).
Proof.
  intros Hs Hp Hd. unfold path_rename. rewrite Hs, Hp. simpl.
  destruct (fs_is_dir dst (fs w)) eqn:E; [|reflexivity].
  apply fs_is_dir_exists in E. congruence.
Qed.

(** Whatever [rename] does to a regular file, it does it only when the
    destination can take it. *)
Lemma path_rename_file_inv (src dst : path) (c : payload) (w w' : World) :
  fs_lookup src (fs w) = Some (File c) ->
  path_rename src dst w = (Ok tt, w') ->
  w' = set_fs (fs_put dst (File c) (fs_remove src (fs w))) w.
Proof.
  intros Hs. unfold path_rename. rewrite Hs.
  destruct (negb (fs_is_dir (parent dst) (fs w))); [discriminate|].
  destruct (fs_is_dir dst (fs w)); [discriminate|]. now intros [= <-].
Qed.

(** C6.  On a name collision the download is moved to the name with the
    least free number: when [target_dir / filename] exists, the names
    numbered [1 .. k-1] (number before the extension) exist too and the
    one numbered [k] is free, [_organize_download] returns the name
    numbered [k]; afterwards the file is there with its content, it is no
    longer at its source path, and no other path has changed.  With
    [report.zip] present and [report_1.zip] free ([k = 1]) this is
    [report_1.zip]. *)
Theorem organize_collision_numbering
        (self : BalanceSheetDownloader) (filename inn year : string)
        (w : World) (c : payload) (k : nat) :
  let source_path := child (download_dir self) filename in
  let target_dir := child (child (download_dir self) inn) year in
  let numbered_path := numbered_path target_dir (stem source_path) (suffix source_path) in
  fs_lookup source_path (fs w) = Some (File c) ->
  fs_mkdir_parents target_dir (fs w) = Some (fs w) ->
  fs_exists (child target_dir filename) (fs w) = true ->
  1 <= k ->
  (forall i, 1 <= i < k -> fs_exists (numbered_path i) (fs w) = true) ->
  fs_exists (numbered_path k) (fs w) = false ->
  exists w',
    _organize_download self filename inn year w = (Ok (numbered_path k), w')
    /\ fs_lookup (numbered_path k) (fs w') = Some (File c)
    /\ fs_lookup source_path (fs w') = None
    /\ forall q, q <> source_path -> q <> numbered_path k ->
                 fs_lookup q (fs w') = fs_lookup q (fs w).
Proof.
  intros source_path target_dir new_path Hsrc Hmk Htaken Hk Hall Hfree.
  assert (Hne : source_path <> new_path k).
  { intros Heq. apply fs_lookup_exists in Hsrc. congruence. }
  assert (Hdir : fs_is_dir (parent (new_path k)) (fs w) = true).
  { unfold new_path, numbered_path. rewrite child_numbered, parent_snoc.
    apply (fs_mkdir_from_is_dir target_dir [] (fs w) (fs w) Hmk). reflexivity. }
  pose proof (organize_unfold self filename inn year w) as Hu. cbv zeta in Hu.
  fold source_path target_dir in Hu. rewrite Hmk in Hu.
  rewrite (free_target_least (fs w) target_dir (stem source_path) (suffix source_path) k)
    in Hu by assumption.
  fold (new_path k) in Hu.
  assert (Hset : set_fs (fs w) w = w) by (destruct w; reflexivity).
  rewrite Hset in Hu.
  rewrite (path_rename_file source_path (new_path k) c w Hsrc Hdir Hfree) in Hu.
  eexists. split; [exact Hu|]. cbn [fs set_fs]. repeat split.
  - apply fs_lookup_put_same.
  - rewrite fs_lookup_put_other by congruence. apply fs_lookup_remove_same.
  - intros q Hq1 Hq2.
    rewrite fs_lookup_put_other by congruence.
    apply fs_lookup_remove_other. congruence.
Qed.

Lemma organize_collision_report_zip :
  exists w',
    _organize_download dl "report.zip" "7707083893" "2023" w_collision
    = (Ok ["downloads"; "7707083893"; "2023"; "report_1.zip"], w')
    /\ fs_lookup ["downloads"; "7707083893"; "2023"; "report_1.zip"] (fs w')
       = Some (File sound_zip)
    /\ fs_lookup ["downloads"; "report.zip"] (fs w') = None
    /\ forall q, q <> ["downloads"; "report.zip"] ->
                 q <> ["downloads"; "7707083893"; "2023"; "report_1.zip"] ->
                 fs_lookup q (fs w') = fs_lookup q (fs w_collision).
Proof.
  apply (organize_collision_numbering dl "report.zip" "7707083893" "2023"
                                      w_collision sound_zip 1).
  - reflexivity.
  - reflexivity.
  - reflexivity.
  - lia.
  - intros i Hi. lia.
  - reflexivity.
Defined.

(** C7.  [_organize_download] never overwrites: the path it returns did
    not exist before the invocation and lies in the target directory; when
    the source is a regular file, that file is at the returned path
    afterwards and every other path that existed before still holds what
    it held. *)
Theorem organize_never_overwrites
        (self : BalanceSheetDownloader) (filename inn year : string)
        (w w' : World) (p : path) :
  let source_path := child (download_dir self) filename in
  let target_dir := child (child (download_dir self) inn) year in
  _organize_download self filename inn year w = (Ok p, w') ->
  fs_exists p (fs w) = false
  /\ (exists name, p = target_dir ++ [name])
  /\ forall c, fs_lookup source_path (fs w) = Some (File c) ->
       fs_lookup p (fs w') = Some (File c)
       /\ forall q n, q <> source_path ->
                      fs_lookup q (fs w) = Some n -> fs_lookup q (fs w') = Some n.
Proof.
  intros source_path target_dir H.
  pose proof (organize_unfold self filename inn year w) as Hu. cbv zeta in Hu.
  fold source_path target_dir in Hu. rewrite Hu in H. clear Hu.
  destruct (fs_mkdir_parents target_dir (fs w)) as [f1|] eqn:Hmk; [|discriminate].
  destruct (free_target _ _ _ _ _ _ f1) as [t|] eqn:Hft; [|discriminate].
  destruct (path_rename source_path t (set_fs f1 w)) as [[[]|e|] w1] eqn:Hrn;
    try discriminate.
  injection H as -> ->.
  pose proof (free_target_fresh _ _ _ _ _ _ _ _ Hft) as Hfresh.
  assert (Hdir : fs_is_dir target_dir f1 = true).
  { apply (fs_mkdir_from_is_dir target_dir [] (fs w) f1 Hmk). reflexivity. }
  assert (Habsent : fs_exists p (fs w) = false).
  { destruct (fs_exists p (fs w)) eqn:E; [|reflexivity].
    apply fs_exists_lookup in Hfresh as [Hnone Hnil].
    unfold fs_exists in E. destruct p as [|a p]; [congruence|].
    destruct (fs_lookup (a :: p) (fs w)) as [n|] eqn:El; [|discriminate].
    apply (fs_mkdir_from_keeps _ _ _ _ Hmk) in El. congruence. }
  split; [exact Habsent|]. split.
  - apply free_target_shape in Hft as [->|(k & _ & ->)].
    + unfold child in *.
      destruct (String.eqb filename "" || String.eqb filename ".").
      * apply fs_is_dir_exists in Hdir. congruence.
      * now exists filename.
    + unfold numbered_path. rewrite child_numbered. eauto.
  - intros c Hsrc.
    apply (fs_mkdir_from_keeps _ _ _ _ Hmk) in Hsrc as Hsrc1.
    apply (path_rename_file_inv source_path p c (set_fs f1 w) w') in Hrn;
      [|exact Hsrc1].
    subst w'. cbn [fs set_fs]. split.
    + apply fs_lookup_put_same.
    + intros q n Hq Hl.
      assert (q <> p).
      { intros ->. apply fs_exists_lookup in Habsent as [? _]. congruence. }
      rewrite fs_lookup_put_other by congruence.
      rewrite fs_lookup_remove_other by congruence.
      eapply fs_mkdir_from_keeps; eauto.
Qed.

Lemma organize_never_overwrites_report_zip :
  fs_exists ["downloads"; "7707083893"; "2023"; "report_1.zip"] (fs w_collision) = false
  /\ (exists name,
        ["downloads"; "7707083893"; "2023"; "report_1.zip"]
        = child (child (download_dir dl) "7707083893") "2023" ++ [name])
  /\ forall c,
       fs_lookup (child (download_dir dl) "report.zip") (fs w_collision) = Some (File c) ->
       fs_lookup ["downloads"; "7707083893"; "2023"; "report_1.zip"]
         (fs (snd (_organize_download dl "report.zip" "7707083893" "2023" w_collision)))
       = Some (File c)
       /\ forall q n,
            q <> child (download_dir dl) "report.zip" ->
            fs_lookup q (fs w_collision) = Some n ->
            fs_lookup q
              (fs (snd (_organize_download dl "report.zip" "7707083893" "2023" w_collision)))
            = Some n.
Proof.
  apply (organize_never_overwrites dl "report.zip" "7707083893" "2023" w_collision).
  reflexivity.
Defined.

(** ** [_wait_for_download] *)

Lemma clock_advance (d : Z) (w : World) : clock (advance d w) = (clock w + Z.max 0 d)%Z.
Proof. unfold advance. destruct (settle _ _ _). reflexivity. Qed.

Lemma clock_seconds_later (k : nat) (w : World) :
  clock (seconds_later k w) = (clock w + 1000 * Z.of_nat k)%Z.
Proof.
  unfold seconds_later. induction k as [|k IH].
  - simpl. lia.
  - rewrite Nat.iter_succ, clock_advance, IH. lia.
Qed.

Lemma seconds_later_succ (k : nat) (w : World) :
  seconds_later (S k) w = seconds_later k (advance 1000 w).
Proof. unfold seconds_later. apply Nat.iter_succ_r. Qed.

Lemma get_download_files_pure (self : BalanceSheetDownloader) (w : World) :
  snd (_get_download_files self w) = w.
Proof. unfold _get_download_files. destruct (fs_is_dir _ _); reflexivity. Qed.

Lemma new_files_listing (self : BalanceSheetDownloader) (initial : list string)
      (w : World) (l : list string) :
  new_files self initial w = Some l ->
  exists current,
    _get_download_files self w = (Ok current, w)
    /\ filter (fun f => negb (mem_string f initial)) current = l.
Proof.
  unfold new_files. pose proof (get_download_files_pure self w) as Hp.
  destruct (_get_download_files self w) as [[cur| |] w1]; simpl in *; try discriminate.
  subst w1. intros [= <-]. eauto.
Qed.

Section WaitLoop.

Variables (self : BalanceSheetDownloader) (initial_files : list string).
Variables (start_time timeout : Z).

(** A turn of the loop that finds nothing new. *)
Lemma wait_loop_idle (fuel : nat) (w : World) :
  (clock w - start_time < timeout)%Z ->
  new_files self initial_files w = Some [] ->
  wait_loop self (S fuel) initial_files start_time timeout w
  = wait_loop self fuel initial_files start_time timeout (advance 1000 w).
Proof.
  intros Hc Hn. apply new_files_listing in Hn as (cur & Hl & Hf).
  cbn [wait_loop]. unfold bind at 1. unfold time_time at 1.
  apply Z.ltb_lt in Hc. rewrite Hc.
  unfold bind at 1. rewrite Hl, Hf. reflexivity.
Qed.

(** A turn of the loop that finds a complete file first among the new
    names. *)
Lemma wait_loop_found (fuel : nat) (w : World) (f : string) (others : list string) :
  (clock w - start_time < timeout)%Z ->
  new_files self initial_files w = Some (f :: others) ->
  is_partial f = false ->
  wait_loop self (S fuel) initial_files start_time timeout w
  = (Ok (Some f), advance 2000 w).
Proof.
  intros Hc Hn Hp. apply new_files_listing in Hn as (cur & Hl & Hf).
  cbn [wait_loop]. unfold bind at 1. unfold time_time at 1.
  apply Z.ltb_lt in Hc. rewrite Hc.
  unfold bind at 1. rewrite Hl, Hf.
  unfold is_partial in Hp. apply orb_false_elim in Hp as [-> ->].
  reflexivity.
Qed.

Lemma wait_loop_detects (k : nat) :
  forall (fuel : nat) (w : World) (f : string),
    k < fuel ->
    (clock w - start_time + 1000 * Z.of_nat k < timeout)%Z ->
    (forall j, j < k -> new_files self initial_files (seconds_later j w) = Some []) ->
    new_files self initial_files (seconds_later k w) = Some [f] ->
    is_partial f = false ->
    wait_loop self fuel initial_files start_time timeout w
    = (Ok (Some f), advance 2000 (seconds_later k w)).
Proof.
  induction k as [|k IH]; intros fuel w f Hfuel Hc Hidle Hnew Hp.
  - destruct fuel as [|fuel]; [lia|].
    change (seconds_later 0 w) with w in *.
    apply wait_loop_found with (others := []); [lia | exact Hnew | exact Hp].
  - destruct fuel as [|fuel]; [lia|].
    rewrite wait_loop_idle.
    + rewrite seconds_later_succ. apply IH; auto.
      * lia.
      * rewrite clock_advance. lia.
      * intros j Hj. rewrite <- seconds_later_succ. apply Hidle. lia.
      * now rewrite <- seconds_later_succ.
    + lia.
    + apply (Hidle 0). lia.
Qed.

Lemma wait_loop_times_out (m : nat) :
  forall (fuel : nat) (w : World),
    m <= fuel ->
    (clock w - start_time = timeout - 1000 * Z.of_nat m)%Z ->
    (forall j, j < m -> new_files self initial_files (seconds_later j w) = Some []) ->
    wait_loop self fuel initial_files start_time timeout w
    = (Ok None, seconds_later m w).
Proof.
  induction m as [|m IH]; intros fuel w Hfuel Hc Hidle.
  - assert (Hge : (clock w - start_time <? timeout)%Z = false)
      by (apply Z.ltb_ge; lia).
    destruct fuel; cbn [wait_loop]; unfold bind, time_time; rewrite Hge; reflexivity.
  - destruct fuel as [|fuel]; [lia|].
    rewrite wait_loop_idle.
    + rewrite seconds_later_succ. apply IH.
      * lia.
      * rewrite clock_advance. lia.
      * intros j Hj. rewrite <- seconds_later_succ. apply Hidle. lia.
    + lia.
    + apply (Hidle 0). lia.
Qed.

(** The loop is granted enough iterations: every turn takes a second
    at least. *)
Lemma wait_loop_fuel (fuel : nat) :
  forall w : World,
    (timeout - (clock w - start_time) <= 1000 * Z.of_nat fuel)%Z ->
    fst (wait_loop self fuel initial_files start_time timeout w) <> OutOfFuel.
Proof.
  induction fuel as [|fuel IH]; intros w Hc; cbn [wait_loop];
    unfold bind at 1; unfold time_time at 1.
  - assert (Hge : (clock w - start_time <? timeout)%Z = false)
      by (apply Z.ltb_ge; lia).
    rewrite Hge. discriminate.
  - destruct (clock w - start_time <? timeout)%Z; [|discriminate].
    unfold bind at 1. pose proof (get_download_files_pure self w) as Hp.
    destruct (_get_download_files self w) as [[cur| |] w1] eqn:Hl; simpl in Hp;
      try discriminate.
    + subst w1.
      destruct (filter _ cur) as [|new_file rest].
      * unfold bind, time_sleep, modify. apply IH. rewrite clock_advance. lia.
      * unfold bind at 1. unfold time_sleep at 1, modify at 1.
        destruct (negb _ && negb _); [discriminate|].
        unfold bind, time_sleep, modify. apply IH. rewrite !clock_advance. lia.
    + unfold _get_download_files in Hl.
      destruct (fs_is_dir _ _); discriminate.
Qed.

End WaitLoop.

Lemma wait_for_download_unfold (self : BalanceSheetDownloader)
      (initial_files : list string) (timeout : Z) (w : World) :
  _wait_for_download self initial_files timeout w
  = wait_loop self (Z.to_nat timeout) initial_files (clock w) (timeout * 1000) w.
Proof. reflexivity. Qed.

(** C4.  The detector, with a timeout of [timeout] seconds (30 by default)
    and one poll a second.  (1) When the polls before the [k]-th find no
    new name and the [k]-th finds the directory to differ from the
    snapshot by exactly one name [f] without partial-download suffix, the
    detector returns [f], after its grace period of two seconds.  (2) When
    none of the [timeout] polls finds a new name, it returns no file and
    does not raise. *)
Theorem wait_for_download_detects
        (self : BalanceSheetDownloader) (initial_files : list string)
        (timeout : nat) (w : World) :
  (forall (k : nat) (f : string),
      k < timeout ->
      (forall j, j < k -> new_files self initial_files (seconds_later j w) = Some []) ->
      new_files self initial_files (seconds_later k w) = Some [f] ->
      is_partial f = false ->
      _wait_for_download self initial_files (Z.of_nat timeout) w
      = (Ok (Some f), advance 2000 (seconds_later k w)))
  /\ ((forall j, j < timeout ->
                 new_files self initial_files (seconds_later j w) = Some []) ->
      _wait_for_download self initial_files (Z.of_nat timeout) w
      = (Ok None, seconds_later timeout w)).
Proof.
  split.
  - intros k f Hk Hidle Hnew Hp.
    rewrite wait_for_download_unfold, Nat2Z.id.
    apply wait_loop_detects; auto. lia.
  - intros Hidle.
    rewrite wait_for_download_unfold, Nat2Z.id.
    apply wait_loop_times_out; auto. lia.
Qed.

Lemma wait_for_download_polls :
  _wait_for_download dl ["old.zip"] (Z.of_nat 30) w_arriving
  = (Ok (Some "report.zip"), advance 2000 (seconds_later 4 w_arriving))
  /\ _wait_for_download dl ["old.zip"] (Z.of_nat 30) w_quiet
     = (Ok None, seconds_later 30 w_quiet).
Proof.
  split.
  - apply (proj1 (wait_for_download_detects dl ["old.zip"] 30 w_arriving) 4 "report.zip").
    + lia.
    + intros j Hj. do 4 (destruct j as [|j]; [reflexivity|]). lia.
    + reflexivity.
    + reflexivity.
  - apply (proj2 (wait_for_download_detects dl ["old.zip"] 30 w_quiet)).
    intros j Hj. do 30 (destruct j as [|j]; [reflexivity|]). lia.
Defined.

(** ** [_verify_download] *)

Lemma testzip_sound (ms : list zip_member) :
  testzip ms = None <-> corrupted ms = false.
Proof.
  unfold corrupted. induction ms as [|m ms IH]; simpl; [tauto|].
  destruct (crc_matches m); simpl; [exact IH|]. split; discriminate.
Qed.

(** What [_verify_download] answers for a regular file. *)
Lemma verify_download_verdict (p : path) (c : payload) (w : World) :
  p <> [] ->
  fs_lookup p (fs w) = Some (File c) ->
  fst (_verify_download p w) =
  Ok (if (payload_size c =? 0)%N then false
      else if String.eqb (PyStr.lower (suffix p)) ".zip" then
        match c with
        | Bytes _ => false
        | ZipArchive ms => negb (truthy_opt (testzip ms))
        end
      else true).
Proof.
  intros Hp Hl. destruct p as [|a p]; [congruence|].
  unfold _verify_download, try_except, bind, get_world, stat_size, fs_exists.
  rewrite Hl. cbv beta iota. cbn [negb]. rewrite Hl. cbv beta iota.
  destruct (payload_size c =? 0)%N; [reflexivity|].
  destruct (String.eqb (PyStr.lower (suffix (a :: p))) ".zip"); [|reflexivity].
  unfold verify_zip, try_except, bind, ZipFile. rewrite Hl.
  destruct c as [s|ms]; cbv beta iota.
  - reflexivity.
  - destruct (truthy_opt (testzip ms)); [reflexivity|].
    destruct (filter _ (namelist ms)); reflexivity.
Qed.

Lemma archive_size (ms : list zip_member) : (22 <= payload_size (ZipArchive ms))%N.
Proof.
  simpl. induction ms as [|m ms IH]; simpl; [reflexivity|].
  unfold member_bytes. lia.
Qed.

(** A sound archive under a [.zip] name and without spreadsheet: the
    records logged. *)
Lemma verify_download_log_no_xlsx (p : path) (ms : list zip_member) (w : World) :
  p <> [] ->
  fs_lookup p (fs w) = Some (File (ZipArchive ms)) ->
  PyStr.lower (suffix p) = ".zip" ->
  testzip ms = None ->
  filter (fun f => PyStr.endswith f ".xlsx") (namelist ms) = [] ->
  log (snd (_verify_download p w))
  = log w ++ [(WARNING, ("No .xlsx files found in ZIP: " ++ path_str p)%string);
              (INFO, ("File verification passed: " ++ path_str p)%string)].
Proof.
  intros Hp Hl Hz Ht Hx. destruct p as [|a p]; [congruence|].
  pose proof (archive_size ms) as Hs.
  unfold _verify_download, try_except, bind, get_world, stat_size, fs_exists.
  rewrite Hl. cbv beta iota. cbn [negb]. rewrite Hl. cbv beta iota.
  destruct (payload_size (ZipArchive ms) =? 0)%N eqn:E;
    [apply N.eqb_eq in E; lia|].
  rewrite Hz. cbn [String.eqb Ascii.eqb Bool.eqb].
  unfold verify_zip, try_except, bind, ZipFile. rewrite Hl. cbv beta iota.
  rewrite Ht, Hx. cbn. now rewrite <- app_assoc.
Qed.




(** The test [if bad_file:] takes the empty name for "no bad file": a
    corrupted member without name passes under a [.zip] name too. *)
Remark verify_unnamed_corrupted_passes :
  testzip [mkMember "" 2048 false] = Some ""%string
  /\ fst (_verify_download ["downloads"; "report.zip"] w_unnamed) = Ok true.
Proof. split; reflexivity. Qed.

(** ** Reasoning about computations *)

Section Outcomes.

Context {A B : Type}.

Lemma yields_ret (a : A) (Q : A -> Prop) : Q a -> yields (ret a) Q.
Proof. intros H w. exact H. Qed.

Lemma always_ret (a : A) (Q : A -> Prop) : Q a -> always (ret a) Q.
Proof. intros H w. exact H. Qed.

Lemma yields_raise (e : exn) (Q : A -> Prop) : yields (raise e) Q.
Proof. intros w. exact I. Qed.

Lemma always_yields (m : M A) (Q : A -> Prop) : always m Q -> yields m Q.
Proof. intros H w. specialize (H w). destruct (fst (m w)); tauto. Qed.

Lemma always_weaken (m : M A) (P Q : A -> Prop) :
  always m P -> (forall a, P a -> Q a) -> always m Q.
Proof. intros H HPQ w. specialize (H w). destruct (fst (m w)); auto. Qed.

Lemma yields_bind (m : M A) (k : A -> M B) (P : A -> Prop) (Q : B -> Prop) :
  yields m P -> (forall a, P a -> yields (k a) Q) -> yields (bind m k) Q.
Proof.
  intros Hm Hk w. specialize (Hm w). unfold bind.
  destruct (m w) as [[a|e|] w']; simpl in *; auto. now apply Hk.
Qed.

Lemma always_bind (m : M A) (k : A -> M B) (P : A -> Prop) (Q : B -> Prop) :
  always m P -> (forall a, P a -> always (k a) Q) -> always (bind m k) Q.
Proof.
  intros Hm Hk w. specialize (Hm w). unfold bind.
  destruct (m w) as [[a|e|] w']; simpl in *; auto. now apply Hk.
Qed.

Lemma yields_bind_any (m : M A) (k : A -> M B) (Q : B -> Prop) :
  yields m (fun _ => True) -> (forall a, yields (k a) Q) -> yields (bind m k) Q.
Proof. intros Hm Hk. eapply yields_bind; eauto. Qed.

Lemma always_bind_any (m : M A) (k : A -> M B) (Q : B -> Prop) :
  always m (fun _ => True) -> (forall a, always (k a) Q) -> always (bind m k) Q.
Proof. intros Hm Hk. eapply always_bind; eauto. Qed.

(** A [try] whose handlers all return turns every exception into a
    value. *)
Lemma always_try_except (m : M A) (h : exn -> M A) (Q : A -> Prop) :
  yields m Q -> (forall e, always (h e) Q) -> always (try_except m h) Q.
Proof.
  intros Hm Hh w. specialize (Hm w). unfold try_except.
  destruct (m w) as [[a|e|] w']; simpl in *; auto. apply Hh.
Qed.

Lemma yields_try_except (m : M A) (h : exn -> M A) (Q : A -> Prop) :
  yields m Q -> (forall e, yields (h e) Q) -> yields (try_except m h) Q.
Proof.
  intros Hm Hh w. specialize (Hm w). unfold try_except.
  destruct (m w) as [[a|e|] w']; simpl in *; auto. apply Hh.
Qed.

(** What [always] says about one run. *)
Lemma always_run (m : M A) (Q : A -> Prop) (w : World) :
  always m Q -> exists a w', m w = (Ok a, w') /\ Q a.
Proof.
  intros H. specialize (H w). destruct (m w) as [[a|e|] w']; simpl in H; try tauto.
  eauto.
Qed.

(** A computation that does not raise is not repeated by [@retry]. *)
Lemma retry_of_total (stop : nat) (wait : nat -> Z) (m : M A) (Q : A -> Prop) :
  always m Q -> forall w, Tenacity.retry stop wait m w = m w.
Proof.
  intros H w. unfold Tenacity.retry.
  destruct (stop - 1); cbn [Tenacity.attempts]; unfold try_except;
    specialize (H w); destruct (m w) as [[a|e|] w']; simpl in H; tauto.
Qed.

End Outcomes.

Create HintDb run.

Lemma always_get_world : always get_world (fun _ => True).
Proof. intros w. exact I. Qed.

Lemma always_time_time : always time_time (fun _ => True).
Proof. intros w. exact I. Qed.

Lemma always_modify (f : World -> World) : always (modify f) (fun _ => True).
Proof. intros w. exact I. Qed.

Lemma always_time_sleep (ms : Z) : always (time_sleep ms) (fun _ => True).
Proof. intros w. exact I. Qed.

Lemma always_logger (l : level) (msg : string) : always (logger l msg) (fun _ => True).
Proof. intros w. exact I. Qed.

Lemma always_print (line : string) : always (print line) (fun _ => True).
Proof. intros w. exact I. Qed.

Lemma always_random_delay (a b : Z) : always (random_delay a b) (fun _ => True).
Proof.
  intros w. unfold random_delay, random_uniform, random_random, bind.
  destruct (entropy w); exact I.
Qed.

Lemma yields_driver_call (c : call) : yields (driver_call c) (fun _ => True).
Proof.
  intros w. unfold driver_call. destruct (session w); [|exact I].
  destruct (next_response w) as [r rest]. destruct (answer r); exact I.
Qed.

#[export] Hint Resolve always_get_world always_time_time always_modify always_time_sleep
  always_logger always_print always_random_delay yields_driver_call : run.
#[export] Hint Resolve always_yields | 5 : run.

Lemma yields_driver_get (url : string) : yields (driver_get url) (fun _ => True).
Proof. apply yields_bind_any; [auto with run|]. intros _. now apply yields_ret. Qed.

Lemma yields_wait_until (c : condition) : yields (wait_until c) (fun _ => True).
Proof. apply yields_bind_any; [auto with run|]. intros _. now apply yields_ret. Qed.

Lemma yields_find_elements (l : locator) : yields (find_elements l) (fun _ => True).
Proof. apply yields_bind_any; [auto with run|]. intros a. now apply yields_ret. Qed.

Lemma yields_click (e : element) : yields (click e) (fun _ => True).
Proof. apply yields_bind_any; [auto with run|]. intros _. now apply yields_ret. Qed.

Lemma yields_get_download_files (self : BalanceSheetDownloader) :
  yields (_get_download_files self) (fun _ => True).
Proof. intros w. unfold _get_download_files. destruct (fs_is_dir _ _); exact I. Qed.

Lemma yields_wait_for_download (self : BalanceSheetDownloader)
      (initial_files : list string) (timeout : Z) :
  yields (_wait_for_download self initial_files timeout) (fun _ => True).
Proof.
  intros w. rewrite wait_for_download_unfold.
  pose proof (wait_loop_fuel self initial_files (clock w) (timeout * 1000)
                             (Z.to_nat timeout) w) as H.
  specialize (H ltac:(lia)).
  destruct (fst (wait_loop self (Z.to_nat timeout) initial_files (clock w)
                           (timeout * 1000) w)); [exact I | exact I | congruence].
Qed.

Lemma yields_organize_download (self : BalanceSheetDownloader)
      (filename inn year : string) :
  yields (_organize_download self filename inn year) (fun _ => True).
Proof.
  intros w. pose proof (organize_unfold self filename inn year w) as Hu.
  cbv zeta in Hu. rewrite Hu. clear Hu.
  destruct (fs_mkdir_parents _ _) as [f1|]; [|exact I].
  destruct (free_target _ _ _ _ _ _ f1) as [t|] eqn:E.
  - unfold path_rename.
    destruct (fs_lookup _ _) as [[c|]|]; simpl;
      repeat match goal with
             | |- context [if ?b then _ else _] => destruct b
             end; exact I.
  - now apply free_target_fuel in E.
Qed.

Lemma always_verify_download (file_path : path) :
  always (_verify_download file_path) (fun _ => True).
Proof.
  apply always_try_except.
  - apply yields_bind_any; [auto with run|]. intros w0.
    destruct (negb _).
    { apply yields_bind_any; [auto with run|]. intros _. now apply yields_ret. }
    apply yields_bind_any.
    { intros w. unfold stat_size.
      destruct file_path; [exact I|]. destruct (fs_lookup _ _) as [[]|]; exact I. }
    intros size. destruct (size =? 0)%N.
    { apply yields_bind_any; [auto with run|]. intros _. now apply yields_ret. }
    apply yields_bind_any.
    + destruct (String.eqb _ _); [|now apply yields_ret].
      apply yields_try_except.
      * apply yields_bind_any.
        { intros w. unfold ZipFile.
          destruct file_path; [exact I|]. destruct (fs_lookup _ _) as [[[]|]|]; exact I. }
        intros ms. cbv zeta. destruct (truthy_opt (testzip ms)).
        { apply yields_bind_any; [auto with run|]. intros _. now apply yields_ret. }
        apply yields_bind_any; [|intros _; now apply yields_ret].
        destruct (filter _ (namelist ms)); auto with run.
      * intros e. destruct (is_bad_zip e); [|apply yields_raise].
        apply yields_bind_any; [auto with run|]. intros _. now apply yields_ret.
    + intros [|]; [|now apply yields_ret].
      apply yields_bind_any; [auto with run|]. intros _. now apply yields_ret.
  - intros e. apply always_bind_any; [auto with run|]. intros _. now apply always_ret.
Qed.

#[export] Hint Resolve yields_driver_get yields_wait_until yields_find_elements
  yields_click yields_get_download_files yields_wait_for_download
  yields_organize_download always_verify_download : run.

(** ** [search_organization] *)

Lemma yields_click_matching (ident : string) (els : list element) :
  yields (click_matching ident els) (fun _ => True).
Proof.
  induction els as [|el els IH]; simpl; [now apply yields_ret|].
  destruct (String.eqb _ _); [|exact IH].
  repeat (apply yields_bind_any; [auto with run|]; intros _).
  now apply yields_ret.
Qed.

(** One attempt never raises: every failure is turned into [False]. *)
Lemma always_search_attempt (ident : string) :
  always (search_attempt ident) (fun _ => True).
Proof.
  apply always_try_except.
  - cbv zeta.
    repeat (apply yields_bind_any; [auto with run|]; intros _).
    apply yields_bind_any; [auto with run|]. intros els.
    apply yields_bind_any; [apply yields_click_matching|]. intros [|].
    + now apply yields_ret.
    + apply yields_bind_any; [auto with run|]. intros _. now apply yields_ret.
  - intros e. destruct (is_timeout e);
      (apply always_bind_any; [auto with run|]; intros _; now apply always_ret).
Qed.

(** ... so the decorator never sees an exception and never repeats. *)
Lemma search_organization_single_attempt (ident : string) (w : World) :
  search_organization ident w = search_attempt ident w.
Proof.
  unfold search_organization.
  apply (retry_of_total _ _ _ _ (always_search_attempt ident)).
Qed.

Lemma always_search_organization (ident : string) :
  always (search_organization ident) (fun _ => True).
Proof.
  intros w. rewrite search_organization_single_attempt. apply always_search_attempt.
Qed.

(** The decorator as such does repeat a call that raises: two failed
    attempts, a wait of two seconds after each, and the third succeeds. *)
Example retry_repeats_a_raising_call :
  let w := mkWorld 0 [] [] true
             [ mkResponse 0 (Raises (mkExn WebDriverException "unreachable"));
               mkResponse 0 (Raises (mkExn WebDriverException "unreachable"));
               mkResponse 0 Done ] [] [] [] [] in
  let '(r, w') := Tenacity.retry 3 (Tenacity.wait_exponential 1 2 10)
                                 (driver_get "https://bo.nalog.gov.ru") w in
  r = Ok tt /\ clock w' = 4000%Z /\ List.length (history w') = 3
  /\ map (Tenacity.wait_exponential 1 2 10) [1; 2; 3; 4; 5] = [2; 2; 4; 8; 10]%Z.
Proof. repeat split. Qed.

(** C2, evaluated.  [search_organization] is one attempt, whatever
    happens in it; when the results container times out, the caller gets
    [False] after that single attempt: one page load is on record, no
    back-off wait has passed and the answers that a second attempt would
    have met are still to come. *)
Theorem search_organization_is_not_retried :
  (forall ident w, search_organization ident w = search_attempt ident w)
  /\ (let '(r, w') := search_organization "7707083893" w_slow_page in
      r = Ok false
      /\ history w'
         = [ Get "https://bo.nalog.gov.ru/search?query=7707083893";
             Until (presence_of_element_located (ByClassName "results-search-table-item")) ]
      /\ clock w' = 22500%Z
      /\ browser w'
         = [ mkResponse 500 Done; mkResponse 300 Done;
             mkResponse 100 (Elements ["7707083893"]); mkResponse 100 Done ]
      /\ log w'
         = [ (INFO, "Searching for INN: 7707083893");
             (ERROR, "Timeout waiting for search results for INN: 7707083893") ]).
Proof.
  split; [exact search_organization_single_attempt|].
  vm_compute. repeat split.
Qed.

(** ** The download flows *)

(** C3, evaluated.  In a world where the downloaded archive is empty, the
    year-specific flow moves the file, verification of the moved file
    fails, and the flow returns no result at all; the bulk flow, in the
    same world, returns the failed result ["Download verification
    failed"]. *)
Theorem year_flow_loses_verification_failure :
  (let '(r, w') := _download_specific_year dl "7707083893" "2023" w_empty_archive in
   r = Ok None
   /\ fs_lookup ["downloads"; "7707083893"; "2023"; "report.zip"] (fs w')
      = Some (File (Bytes ""))
   /\ fst (_verify_download ["downloads"; "7707083893"; "2023"; "report.zip"] w')
      = Ok false
   /\ log w' = [(ERROR, "File is empty: downloads/7707083893/2023/report.zip")])
  /\ fst (_handle_download_popup dl "7707083893" None w_empty_archive)
     = Ok (Some (mkResult "7707083893" (Some "all") false None
                          (Some "Download verification failed") 6000)).
Proof. vm_compute. repeat split. Qed.

Ltac binds :=
  repeat (apply yields_bind_any; [solve [auto with run]|]; intros ?).

(** Through a sequence of calls whose values do not matter, and through
    the tests on them. *)
Ltac walk :=
  repeat first
    [ apply yields_bind_any; [solve [auto with run]|]; intros ?
    | match goal with
      | |- yields (match ?x with _ => _ end) _ => destruct x
      end ].

Lemma always_failure (ident : string) (y : option string) (e : exn) :
  always (failure ident y e) (fun r => inn r = ident).
Proof. intros w. reflexivity. Qed.

Lemma always_handle_download_popup (self : BalanceSheetDownloader)
      (ident : string) (y : option string) :
  always (_handle_download_popup self ident y) (result_for ident).
Proof.
  apply always_try_except.
  - walk; now apply yields_ret.
  - intros e. apply always_bind_any; [auto with run|]. intros _.
    eapply always_bind; [apply always_failure|]. intros r Hr. now apply always_ret.
Qed.

Lemma always_download_specific_year (self : BalanceSheetDownloader)
      (ident y : string) :
  always (_download_specific_year self ident y) (result_for ident).
Proof.
  apply always_try_except.
  - walk; now apply yields_ret.
  - intros e. apply always_bind_any; [auto with run|]. intros _.
    eapply always_bind; [apply always_failure|]. intros r Hr. now apply always_ret.
Qed.

Lemma results_for_append_if (ident : string) (rs : list DownloadResult)
      (o : option DownloadResult) :
  results_for ident rs -> result_for ident o -> results_for ident (append_if rs o).
Proof.
  intros Hrs Ho. destruct o as [r|]; simpl; [|exact Hrs].
  apply Forall_app. split; [exact Hrs | now constructor].
Qed.

Lemma length_append_if (rs : list DownloadResult) (o : option DownloadResult) :
  List.length (append_if rs o) <= S (List.length rs).
Proof. destruct o; simpl; [rewrite length_app; simpl|]; lia. Qed.

(** [download_reports] never raises; it returns at most two results, all
    for the identifier asked for. *)
Lemma always_download_reports (self : BalanceSheetDownloader)
      (ident : string) (y : option string) :
  always (download_reports self ident y)
         (fun rs => List.length rs <= 2 /\ results_for ident rs).
Proof.
  assert (Herr : forall rs e,
             List.length rs <= 1 -> results_for ident rs ->
             always (logger ERROR ("Error downloading reports for INN " ++ ident
                                   ++ ": " ++ str e)%string ;;
                     r <- failure ident y e ;;
                     ret (rs ++ [r])%list)
                    (fun rs => List.length rs <= 2 /\ results_for ident rs)).
  { intros rs e Hl Hf. apply always_bind_any; [auto with run|]. intros _.
    eapply always_bind; [apply always_failure|]. intros r Hr. apply always_ret.
    split; [rewrite length_app; simpl; lia|].
    apply Forall_app. split; [exact Hf | now constructor]. }
  unfold download_reports. apply always_try_except.
  - binds.
    eapply yields_bind;
      [apply always_yields, (always_handle_download_popup self ident y)|].
    intros popup Hpopup. cbv zeta.
    pose proof (length_append_if [] popup) as Hlen. simpl in Hlen.
    pose proof (results_for_append_if ident [] popup (Forall_nil _) Hpopup) as Hfor.
    apply always_yields, always_try_except.
    + destruct y as [y|].
      * apply yields_ret. split; [lia | exact Hfor].
      * eapply yields_bind;
          [apply always_yields, (always_download_specific_year self ident "2023")|].
        intros yr Hyr. apply yields_ret. split.
        -- pose proof (length_append_if (append_if [] popup) yr). lia.
        -- now apply results_for_append_if.
    + intros e. apply Herr; [lia | exact Hfor].
  - intros e. apply Herr; [simpl; lia | constructor].
Qed.

Lemma always_log_results (ident : string) (rs : list DownloadResult) :
  always (log_results ident rs) (fun _ => True).
Proof.
  induction rs as [|r rs IH]; simpl; [now apply always_ret|].
  apply always_bind_any; [|intros _; exact IH].
  destruct (success r); auto with run.
Qed.

(** One turn of the batch loop never raises; it adds at most two results,
    all for its identifier. *)
Lemma always_process_inn (self : BalanceSheetDownloader) (ident : string)
      (acc : list DownloadResult) :
  always (process_inn self ident acc)
         (fun rs => exists g, rs = acc ++ g /\ List.length g <= 2 /\ results_for ident g).
Proof.
  apply always_try_except.
  - apply yields_bind_any; [apply always_yields, always_search_organization|].
    intros [|].
    + eapply yields_bind; [apply always_yields, (always_download_reports self ident None)|].
      intros rs [Hl Hf]. cbv zeta.
      apply yields_bind_any; [apply always_yields, always_log_results|]. intros _.
      apply yields_ret. eauto.
    + apply yields_bind_any; [auto with run|]. intros now. apply yields_ret.
      eexists. split; [reflexivity|]. split; [simpl; lia|]. now repeat constructor.
  - intros e. apply always_bind_any; [auto with run|]. intros _.
    eapply always_bind; [apply always_failure|]. intros r Hr. apply always_ret.
    exists [r]. split; [reflexivity|]. split; [simpl; lia|]. now repeat constructor.
Qed.

(** The batch loop never raises; its results fall into one group for
    each identifier, in order. *)
Lemma always_process_loop (self : BalanceSheetDownloader) (inns : list string) :
  forall (i total : nat) (acc : list DownloadResult),
    always (process_loop self inns i total acc)
           (fun rs => exists groups,
                        rs = acc ++ List.concat groups
                        /\ Forall2 (fun ident g => List.length g <= 2 /\ results_for ident g)
                                   inns groups).
Proof.
  induction inns as [|ident inns IH]; intros i total acc; simpl.
  - apply always_ret. exists []. split; [now rewrite app_nil_r | constructor].
  - apply always_bind_any; [auto with run|]. intros _.
    eapply always_bind; [apply always_process_inn|]. intros rs (g & -> & Hl & Hf).
    apply always_bind_any; [auto with run|]. intros _.
    eapply always_weaken; [apply IH|]. intros rs (groups & -> & Hall).
    exists (g :: groups). split; [simpl; now rewrite app_assoc|].
    constructor; auto.
Qed.

Lemma length_concat_groups (inns : list string) (groups : list (list DownloadResult)) :
  Forall2 (fun ident g => List.length g <= 2 /\ results_for ident g) inns groups ->
  List.length (List.concat groups) <= 2 * List.length inns.
Proof.
  induction 1 as [|ident g inns groups [Hl _] _ IH]; simpl; [lia|].
  rewrite length_app. lia.
Qed.




(** ** Reading the identifiers *)

Lemma lstrip_blank (s : string) : PyStr.lstrip s = EmptyString <-> is_blank s = true.
Proof.
  induction s as [|c s IH]; simpl; [tauto|].
  destruct (PyStr.isspace c); simpl; [exact IH|]. split; discriminate.
Qed.

Lemma lstrip_not_blank (s : string) :
  PyStr.lstrip s <> EmptyString -> is_blank (PyStr.lstrip s) = false.
Proof.
  induction s as [|c s IH]; simpl; [congruence|].
  destruct (PyStr.isspace c) eqn:E; [exact IH|]. intros _. simpl. now rewrite E.
Qed.

Lemma is_blank_rev_onto (s acc : string) :
  is_blank (PyStr.rev_onto s acc) = is_blank s && is_blank acc.
Proof.
  revert acc. induction s as [|c s IH]; intros acc; simpl; [reflexivity|].
  rewrite IH. simpl. destruct (PyStr.isspace c), (is_blank s); reflexivity.
Qed.

Lemma is_blank_rev (s : string) : is_blank (PyStr.rev s) = is_blank s.
Proof. unfold PyStr.rev. rewrite is_blank_rev_onto. simpl. apply andb_true_r. Qed.

Lemma rev_onto_empty (s acc : string) :
  PyStr.rev_onto s acc = EmptyString -> s = EmptyString.
Proof.
  revert acc. induction s as [|c s IH]; intros acc; simpl; [reflexivity|].
  intros H. pose proof (IH _ H) as Hs. subst s. discriminate H.
Qed.

(** A line survives the test [if line.strip()] exactly when it is not
    blank. *)
Lemma truthy_strip (s : string) : PyStr.truthy (PyStr.strip s) = negb (is_blank s).
Proof.
  unfold PyStr.strip, PyStr.rstrip.
  destruct (is_blank s) eqn:E.
  - apply lstrip_blank in E. rewrite E. reflexivity.
  - assert (Hne : PyStr.lstrip s <> EmptyString).
    { intros H. apply lstrip_blank in H. congruence. }
    apply lstrip_not_blank in Hne.
    destruct (PyStr.rev (PyStr.lstrip (PyStr.rev (PyStr.lstrip s)))) eqn:R;
      [|reflexivity].
    apply rev_onto_empty in R. apply lstrip_blank in R.
    rewrite is_blank_rev in R. congruence.
Qed.

(** The comprehension of [process_inns] yields the identifiers of the
    file. *)
Lemma read_inns_identifiers (content : string) : read_inns content = identifiers content.
Proof.
  unfold read_inns, identifiers. f_equal.
  apply filter_ext. intros line. apply truthy_strip.
Qed.

(** ** Which pages a batch loads *)

Section Quiet.

Context {A B : Type}.

Lemma quiet_ret (a : A) : quiet (ret a).
Proof. intros w. split; reflexivity. Qed.

Lemma quiet_raise (e : exn) : quiet (@raise A e).
Proof. intros w. split; reflexivity. Qed.

Lemma quiet_out_of_fuel : quiet (@out_of_fuel A).
Proof. intros w. split; reflexivity. Qed.

Lemma quiet_bind (m : M A) (k : A -> M B) :
  quiet m -> (forall a, quiet (k a)) -> quiet (bind m k).
Proof.
  intros Hm Hk w. specialize (Hm w). unfold bind.
  destruct (m w) as [[a|e|] w']; simpl in *; auto.
  destruct (Hk a w') as [H1 H2]. destruct Hm as [H3 H4]. split; congruence.
Qed.

Lemma quiet_try_except (m : M A) (h : exn -> M A) :
  quiet m -> (forall e, quiet (h e)) -> quiet (try_except m h).
Proof.
  intros Hm Hh w. specialize (Hm w). unfold try_except.
  destruct (m w) as [[a|e|] w']; simpl in *; auto.
  destruct (Hh e w') as [H1 H2]. destruct Hm as [H3 H4]. split; congruence.
Qed.

(** A step of a [try] block, when the step returns and when it
    raises. *)
Lemma try_except_bind (m : M B) (k : B -> M A) (h : exn -> M A) (w : World) :
  try_except (bind m k) h w
  = match m w with
    | (Ok b, w') => try_except (k b) h w'
    | (Raise e, w') => h e w'
    | (OutOfFuel, w') => (OutOfFuel, w')
    end.
Proof. unfold try_except, bind. destruct (m w) as [[b|e|] w']; reflexivity. Qed.

End Quiet.

Create HintDb quiet.

Lemma searches_advance (d : Z) (w : World) : searches (advance d w) = searches w.
Proof. unfold advance. destruct (settle _ _ _). reflexivity. Qed.

Lemma session_advance (d : Z) (w : World) : session (advance d w) = session w.
Proof. unfold advance. destruct (settle _ _ _). reflexivity. Qed.

Lemma quiet_get_world : quiet get_world.
Proof. intros w. split; reflexivity. Qed.

Lemma quiet_time_time : quiet time_time.
Proof. intros w. split; reflexivity. Qed.

Lemma quiet_time_sleep (ms : Z) : quiet (time_sleep ms).
Proof. intros w. split; [apply searches_advance | apply session_advance]. Qed.

Lemma quiet_logger (l : level) (msg : string) : quiet (logger l msg).
Proof. intros w. split; reflexivity. Qed.

Lemma quiet_print (line : string) : quiet (print line).
Proof. intros w. split; reflexivity. Qed.

Lemma quiet_random_delay (a b : Z) : quiet (random_delay a b).
Proof.
  intros w. unfold random_delay, random_uniform, random_random, bind, ret, time_sleep, modify.
  destruct (entropy w); simpl; now rewrite searches_advance, session_advance.
Qed.

(** What a call on the driver adds to the pages loaded. *)
Lemma driver_call_searches (c : call) (w : World) :
  session w = true ->
  searches (snd (driver_call c w))
  = searches w ++ match c with Get url => [url] | _ => [] end
  /\ session (snd (driver_call c w)) = true.
Proof.
  intros Hs. unfold driver_call. rewrite Hs.
  destruct (next_response w) as [r rest].
  assert (H : forall w2 : World,
             w2 = advance (took r)
                    (mkWorld (clock w) (fs w) (pending w) true rest (entropy w)
                             (history w ++ [c]) (log w) (stdout w)) ->
             searches w2 = searches w ++ match c with Get url => [url] | _ => [] end
             /\ session w2 = true).
  { intros w2 ->. rewrite searches_advance, session_advance. split; [|reflexivity].
    unfold searches. cbn [history]. rewrite flat_map_app. simpl.
    now rewrite app_nil_r. }
  destruct (answer r); cbn [snd]; apply H; reflexivity.
Qed.

Lemma quiet_driver_call (c : call) :
  (forall url, c <> Get url) -> quiet (driver_call c).
Proof.
  intros Hc w. destruct (session w) eqn:Hs.
  - destruct (driver_call_searches c w Hs) as [H1 H2]. rewrite H1, H2.
    split; [|reflexivity]. destruct c; try apply app_nil_r. now destruct (Hc url).
  - unfold driver_call. rewrite Hs. split; [reflexivity | exact Hs].
Qed.

#[export] Hint Resolve quiet_get_world quiet_time_time quiet_time_sleep quiet_logger
  quiet_print quiet_random_delay : quiet.

Ltac hush :=
  repeat first
    [ solve [auto with quiet]
    | apply quiet_ret
    | apply quiet_raise
    | apply quiet_out_of_fuel
    | apply quiet_driver_call; discriminate
    | apply quiet_bind; [|intros ?]
    | apply quiet_try_except; [|intros ?]
    | match goal with
      | |- quiet (match ?x with _ => _ end) => destruct x
      end
    | progress cbv zeta ].

Lemma quiet_wait_until (c : condition) : quiet (wait_until c).
Proof. unfold wait_until. hush. Qed.

Lemma quiet_find_elements (l : locator) : quiet (find_elements l).
Proof. unfold find_elements. hush. Qed.

Lemma quiet_click (e : element) : quiet (click e).
Proof. unfold click. hush. Qed.

Lemma quiet_get_download_files (self : BalanceSheetDownloader) :
  quiet (_get_download_files self).
Proof.
  intros w. unfold _get_download_files. destruct (fs_is_dir _ _); split; reflexivity.
Qed.

Lemma quiet_path_mkdir_parents (d : path) : quiet (path_mkdir_parents d).
Proof.
  intros w. unfold path_mkdir_parents. destruct (fs_mkdir_parents _ _); split; reflexivity.
Qed.

Lemma quiet_path_rename (src dst : path) : quiet (path_rename src dst).
Proof.
  intros w. unfold path_rename.
  destruct (fs_lookup _ _) as [[c|]|];
    repeat match goal with
           | |- context [if ?b then _ else _] => destruct b
           end; split; reflexivity.
Qed.

Lemma quiet_stat_size (p : path) : quiet (stat_size p).
Proof.
  intros w. unfold stat_size. destruct p; [split; reflexivity|].
  destruct (fs_lookup _ _) as [[c|]|]; split; reflexivity.
Qed.

Lemma quiet_ZipFile (p : path) : quiet (ZipFile p).
Proof.
  intros w. unfold ZipFile. destruct p; [split; reflexivity|].
  destruct (fs_lookup _ _) as [[[]|]|]; split; reflexivity.
Qed.

#[export] Hint Resolve quiet_wait_until quiet_find_elements quiet_click
  quiet_get_download_files quiet_path_mkdir_parents quiet_path_rename
  quiet_stat_size quiet_ZipFile : quiet.

Lemma quiet_click_matching (ident : string) (els : list element) :
  quiet (click_matching ident els).
Proof. induction els as [|el els IH]; simpl; hush. Qed.

Lemma quiet_wait_loop (self : BalanceSheetDownloader) (initial : list string)
      (start timeout : Z) (fuel : nat) :
  quiet (wait_loop self fuel initial start timeout).
Proof. induction fuel as [|fuel IH]; cbn [wait_loop]; hush. Qed.

Lemma quiet_wait_for_download (self : BalanceSheetDownloader) (initial : list string)
      (timeout : Z) :
  quiet (_wait_for_download self initial timeout).
Proof. unfold _wait_for_download. hush. apply quiet_wait_loop. Qed.

Lemma quiet_organize_download (self : BalanceSheetDownloader) (filename ident y : string) :
  quiet (_organize_download self filename ident y).
Proof. unfold _organize_download. hush. Qed.

Lemma quiet_verify_download (p : path) : quiet (_verify_download p).
Proof. unfold _verify_download, verify_zip. hush. Qed.

#[export] Hint Resolve quiet_click_matching quiet_wait_for_download
  quiet_organize_download quiet_verify_download : quiet.

Lemma quiet_failure (ident : string) (y : option string) (e : exn) :
  quiet (failure ident y e).
Proof. unfold failure. hush. Qed.

#[export] Hint Resolve quiet_failure : quiet.

Lemma quiet_handle_download_popup (self : BalanceSheetDownloader) (ident : string)
      (y : option string) :
  quiet (_handle_download_popup self ident y).
Proof. unfold _handle_download_popup. hush. Qed.

Lemma quiet_download_specific_year (self : BalanceSheetDownloader) (ident y : string) :
  quiet (_download_specific_year self ident y).
Proof. unfold _download_specific_year. hush. Qed.

#[export] Hint Resolve quiet_handle_download_popup quiet_download_specific_year : quiet.

Lemma quiet_download_reports (self : BalanceSheetDownloader) (ident : string)
      (y : option string) :
  quiet (download_reports self ident y).
Proof. unfold download_reports. hush. Qed.

Lemma quiet_log_results (ident : string) (rs : list DownloadResult) :
  quiet (log_results ident rs).
Proof. induction rs as [|r rs IH]; simpl; hush. Qed.

#[export] Hint Resolve quiet_download_reports quiet_log_results : quiet.

Lemma driver_get_searches (url : string) (w : World) :
  session w = true ->
  searches (snd (driver_get url w)) = searches w ++ [url]
  /\ session (snd (driver_get url w)) = true
  /\ fst (driver_get url w) <> OutOfFuel.
Proof.
  intros Hs. destruct (driver_call_searches (Get url) w Hs) as [H1 H2].
  pose proof (yields_driver_call (Get url) w) as Hy.
  unfold driver_get, bind. destruct (driver_call (Get url) w) as [[a|e|] w']; simpl in *;
    repeat split; auto; discriminate.
Qed.

(** One attempt of the search loads the search page of its identifier,
    once. *)
Lemma search_attempt_searches (ident : string) (w : World) :
  session w = true ->
  searches (snd (search_attempt ident w)) = searches w ++ [search_url ident]
  /\ session (snd (search_attempt ident w)) = true.
Proof.
  intros Hs. unfold search_attempt. cbv zeta.
  rewrite try_except_bind.
  set (w1 := snd (logger INFO ("Searching for INN: " ++ ident)%string w)).
  change (logger INFO ("Searching for INN: " ++ ident)%string w) with (Ok tt, w1).
  cbv iota. rewrite try_except_bind.
  assert (Hs1 : session w1 = true) by exact Hs.
  assert (Hw1 : searches w1 = searches w) by reflexivity.
  fold (search_url ident).
  destruct (driver_get_searches (search_url ident) w1 Hs1) as (H1 & H2 & H3).
  destruct (driver_get (search_url ident) w1) as [[[]|e|] w2];
    cbn [fst snd] in H1, H2, H3; cbv iota.
  - match goal with
    | |- context [try_except ?m ?h w2] =>
        assert (Hq : quiet (try_except m h)) by hush;
        destruct (Hq w2) as [Hq1 Hq2]
    end.
    rewrite Hq1, Hq2, H1, Hw1. auto.
  - assert (Hq : forall b : bool, quiet (if b then
                 (logger ERROR ("Timeout waiting for search results for INN: " ++ ident)%string ;;
                  ret false)
               else
                 (logger ERROR ("Error searching for INN " ++ ident ++ ": " ++ str e)%string ;;
                  ret false))) by (intros []; hush).
    destruct (Hq (is_timeout e) w2) as [Hq1 Hq2].
    rewrite Hq1, Hq2, H1, Hw1. auto.
  - congruence.
Qed.

(** One turn of the batch loop loads the search page of its identifier,
    once, and no other page. *)
Lemma process_inn_searches (self : BalanceSheetDownloader) (ident : string)
      (acc : list DownloadResult) (w : World) :
  session w = true ->
  searches (snd (process_inn self ident acc w)) = searches w ++ [search_url ident]
  /\ session (snd (process_inn self ident acc w)) = true.
Proof.
  intros Hs. unfold process_inn. rewrite try_except_bind.
  rewrite search_organization_single_attempt.
  destruct (search_attempt_searches ident w Hs) as [H1 H2].
  destruct (search_attempt ident w) as [[b|e|] w1]; simpl in H1, H2.
  - match goal with
    | |- context [try_except ?m ?h w1] =>
        assert (Hq : quiet (try_except m h)) by hush;
        destruct (Hq w1) as [Hq1 Hq2]
    end.
    rewrite Hq1, Hq2, H1. auto.
  - match goal with
    | |- context [bind ?m ?k w1] =>
        assert (Hq : quiet (bind m k)) by hush;
        destruct (Hq w1) as [Hq1 Hq2]
    end.
    rewrite Hq1, Hq2, H1. auto.
  - simpl. auto.
Qed.

Lemma bind_run {A B} (m : M A) (k : A -> M B) (w : World) :
  bind m k w
  = match m w with
    | (Ok a, w') => k a w'
    | (Raise e, w') => (Raise e, w')
    | (OutOfFuel, w') => (OutOfFuel, w')
    end.
Proof. reflexivity. Qed.

Lemma process_loop_searches (self : BalanceSheetDownloader) (inns : list string) :
  forall (i total : nat) (acc : list DownloadResult) (w : World),
    session w = true ->
    searches (snd (process_loop self inns i total acc w))
    = searches w ++ map search_url inns
    /\ session (snd (process_loop self inns i total acc w)) = true.
Proof.
  induction inns as [|ident inns IH]; intros i total acc w Hs; cbn [process_loop map].
  - cbn [ret snd]. now rewrite app_nil_r.
  - rewrite bind_run.
    match goal with
    | |- context [logger ?l ?msg w] =>
        set (w1 := snd (logger l msg w));
        change (logger l msg w) with (Ok tt, w1)
    end.
    cbv iota. rewrite bind_run.
    assert (Hs1 : session w1 = true) by exact Hs.
    assert (Hw1 : searches w1 = searches w) by reflexivity.
    destruct (process_inn_searches self ident acc w1 Hs1) as [H1 H2].
    pose proof (always_process_inn self ident acc w1) as Hp.
    destruct (process_inn self ident acc w1) as [[rs|e|] w2];
      cbn [fst snd] in H1, H2, Hp; cbv iota; try tauto.
    rewrite bind_run.
    destruct (quiet_random_delay 5 10 w2) as [Hq1 Hq2].
    pose proof (always_random_delay 5 10 w2) as Hd.
    destruct (random_delay 5 10 w2) as [[[]|e|] w3];
      cbn [fst snd] in Hq1, Hq2, Hd; try tauto. cbv iota.
    destruct (IH (S i) total rs w3) as [H3 H4]; [congruence|].
    rewrite H3, H4, Hq1, H1, Hw1, <- app_assoc. auto.
Qed.

Lemma create_driver_answers (w : World) :
  browser_answers w ->
  exists w2, _create_driver w = (Ok tt, w2)
             /\ searches w2 = searches w /\ session w2 = true.
Proof.
  unfold browser_answers, _create_driver. intros Ha.
  destruct (next_response w) as [r rest]. simpl in Ha.
  assert (Hs : forall w2 : World,
             w2 = set_session true
                    (advance (took r)
                       (mkWorld (clock w) (fs w) (pending w) (session w) rest (entropy w)
                                (history w ++ [CreateDriver]) (log w) (stdout w))) ->
             searches w2 = searches w /\ session w2 = true).
  { intros w2 ->. split; [|reflexivity].
    change (searches (set_session true ?x)) with (searches x).
    rewrite searches_advance. unfold searches. cbn [history].
    rewrite flat_map_app. simpl. now rewrite app_nil_r. }
  destruct (answer r) eqn:E; [| |now destruct (Ha e)]; eexists; split;
    try reflexivity; now apply Hs.
Qed.

(** The [finally] block of [get_driver] loads no page. *)
Lemma quit_searches (w : World) :
  searches (snd ((w0 <- get_world ;;
                  if session w0 then
                    (_ <- driver_call QuitDriver ;; modify (set_session false))
                  else ret tt) w))
  = searches w.
Proof.
  rewrite bind_run. change (get_world w) with (Ok w, w). cbv iota.
  destruct (session w) eqn:Hs; [|reflexivity].
  destruct (driver_call_searches QuitDriver w Hs) as [H1 _].
  rewrite bind_run.
  destruct (driver_call QuitDriver w) as [[a|e|] w1]; cbn [fst snd] in H1; cbv iota.
  - change (searches (snd (modify (set_session false) w1))) with (searches w1).
    rewrite H1. apply app_nil_r.
  - cbn [snd]. rewrite H1. apply app_nil_r.
  - cbn [snd]. rewrite H1. apply app_nil_r.
Qed.



(** ** The report *)

Lemma length_filter_count (rs : list DownloadResult) (b : bool) :
  List.length (filter (fun r => Bool.eqb (success r) b) rs)
  = count_occ bool_dec (map success rs) b.
Proof.
  induction rs as [|r rs IH]; simpl; [reflexivity|].
  destruct (bool_dec (success r) b) as [<-|Hne].
  - rewrite Bool.eqb_reflx. simpl. now rewrite IH.
  - apply Bool.eqb_false_iff in Hne. now rewrite Hne.
Qed.

Lemma successful_downloads_count (rs : list DownloadResult) :
  successful_downloads rs = count_occ bool_dec (map success rs) true.
Proof.
  rewrite <- length_filter_count. unfold successful_downloads. f_equal.
  apply filter_ext. intros r. now destruct (success r).
Qed.

Lemma failed_downloads_count (rs : list DownloadResult) :
  failed_downloads rs = count_occ bool_dec (map success rs) false.
Proof.
  rewrite <- length_filter_count. reflexivity.
Qed.

Lemma count_true_false (l : list bool) :
  count_occ bool_dec l true + count_occ bool_dec l false = List.length l.
Proof.
  induction l as [|[] l IH]; simpl; [reflexivity| |]; lia.
Qed.



(** The text of that report. *)
Example report_two_identifiers :
  fst (generate_report seconds_stamp two_results w_quiet)
  = Ok (nl ++ "Balance Sheet Download Summary Report" ++ nl
        ++ "=====================================" ++ nl
        ++ "Generated: t+0s" ++ nl
        ++ nl
        ++ "Total INNs processed: 2" ++ nl
        ++ "Successful downloads: 1" ++ nl
        ++ "Failed downloads: 1" ++ nl
        ++ "Success rate: 50.0%" ++ nl
        ++ nl
        ++ "Detailed Results:" ++ nl
        ++ "✓ 7707083893 (all): downloads/7707083893/all/report.zip" ++ nl
        ++ "✗ 7736050003 (all): Organization not found" ++ nl)%string.
Proof. vm_compute. reflexivity. Qed.

(** The rate is taken over results, not over identifiers: one identifier
    with a successful bulk download and a failed year download is shown
    with 50.0, not with 100.0. *)
Example rate_counts_results :
  let rs := [ mkResult "7707083893" (Some "all") true (Some "a.zip") None 7000;
              mkResult "7707083893" (Some "2023") false None (Some "timeout") 9000 ] in
  total_inns rs = 1
  /\ exists rate, fst (success_rate rs w_quiet) = Ok rate
                  /\ Float.format_1f rate = "50.0".
Proof. split; [reflexivity|]. eexists. split; reflexivity. Qed.

(** ** The empty list of results *)

(** C10.  (1) For the empty list of results [generate_report] raises
    [ZeroDivisionError]: the division by the number of results is not
    guarded.  (2) The batch runner returns the empty list when the input
    file is missing.  (3) In that case [main] prints ["Fatal error:
    division by zero"], exits with status 1 and writes no report: the
    file system is as it was. *)
Theorem empty_results_break_the_report (strftime : Z -> string) :
  (forall w,
      generate_report strftime [] w
      = (Raise (mkExn ZeroDivisionError "division by zero"), w))
  /\ (forall self file w,
         fs_exists file (fs w) = false ->
         fst (process_inns self file w) = Ok [])
  /\ (forall args w,
         fs_is_dir (arg_download_dir args) (fs w) = true ->
         fs_exists (inns_file args) (fs w) = false ->
         exists w',
           main strftime args w = (Ok 1, w')
           /\ stdout w' = stdout w ++ ["Fatal error: division by zero"]
           /\ fs w' = fs w).
Proof.
  split; [|split].
  - reflexivity.
  - intros self file w He. unfold process_inns, bind, get_world. now rewrite He.
  - intros args w Hd He.
    unfold main, try_except, bind, init, path_mkdir. cbn [download_dir].
    rewrite Hd. unfold process_inns, bind, get_world. rewrite He.
    cbv beta iota. cbn [negb]. eexists. split; [reflexivity|]. split; reflexivity.
Qed.

Lemma main_with_missing_input_file :
  exists w',
    main seconds_stamp args_missing w_quiet = (Ok 1, w')
    /\ stdout w' = stdout w_quiet ++ ["Fatal error: division by zero"]
    /\ fs w' = fs w_quiet.
Proof.
  apply (proj2 (proj2 (empty_results_break_the_report seconds_stamp)) args_missing w_quiet);
    reflexivity.
Defined.


(* ===================================================================== *)
(** * Further properties *)
(* ===================================================================== *)

(** ** The session *)

Lemma history_advance (d : Z) (w : World) : history (advance d w) = history w.
Proof. unfold advance. destruct (settle _ _ _). reflexivity. Qed.

Lemma browser_advance (d : Z) (w : World) : browser (advance d w) = browser w.
Proof. unfold advance. destruct (settle _ _ _). reflexivity. Qed.

Lemma log_advance (d : Z) (w : World) : log (advance d w) = log w.
Proof. unfold advance. destruct (settle _ _ _). reflexivity. Qed.

(** A call on an open session, answered by the head of the script. *)
Lemma driver_call_run (c : call) (w : World) (r : response) (rest : list response) :
  session w = true ->
  browser w = r :: rest ->
  driver_call c w
  = (match answer r with Raises e => Raise e | a => Ok a end, answered c r rest w).
Proof.
  intros Hs Hb. unfold driver_call, next_response, answered. rewrite Hs, Hb.
  destruct (answer r); reflexivity.
Qed.

(** The [finally] block of [get_driver], on an open session. *)
Lemma quit_run (w : World) :
  session w = true ->
  let cleanup := (w0 <- get_world ;;
                  if session w0 then
                    (_ <- driver_call QuitDriver ;; modify (set_session false))
                  else ret tt) in
  history (snd (cleanup w)) = history w ++ [QuitDriver]
  /\ (forall e, answer (fst (next_response w)) = Raises e ->
                fst (cleanup w) = Raise e /\ session (snd (cleanup w)) = true)
  /\ (answers (fst (next_response w)) ->
      fst (cleanup w) = Ok tt /\ session (snd (cleanup w)) = false).
Proof.
  intros Hs cleanup. unfold cleanup. rewrite bind_run.
  change (get_world w) with (Ok w, w). cbv iota. rewrite Hs, bind_run.
  unfold driver_call. rewrite Hs.
  destruct (next_response w) as [r rest]. cbn [fst].
  assert (Hh : history (advance (took r)
                 (mkWorld (clock w) (fs w) (pending w) true rest (entropy w)
                          (history w ++ [QuitDriver]) (log w) (stdout w)))
               = history w ++ [QuitDriver])
    by now rewrite history_advance.
  assert (Hss : session (advance (took r)
                 (mkWorld (clock w) (fs w) (pending w) true rest (entropy w)
                          (history w ++ [QuitDriver]) (log w) (stdout w)))
               = true)
    by now rewrite session_advance.
  destruct (answer r) as [|texts|e0] eqn:Ha; cbv iota; cbn [fst snd modify set_session history session].
  - split; [exact Hh|]. split; [intros e He; discriminate | auto].
  - split; [exact Hh|]. split; [intros e He; discriminate | auto].
  - split; [exact Hh|]. split.
    + intros e [= <-]. auto.
    + intros Hans. now destruct (Hans e0).
Qed.

Lemma get_driver_run
        {A : Type} (body : M A) (w w2 w3 : World) (r : result A) :
  _create_driver w = (Ok tt, w2) ->
  body w2 = (r, w3) ->
  r <> OutOfFuel ->
  session w3 = true ->
  history (snd (get_driver body w)) = history w3 ++ [QuitDriver]
  /\ (answers (fst (next_response w3)) ->
      fst (get_driver body w) = r /\ session (snd (get_driver body w)) = false)
  /\ (forall e, answer (fst (next_response w3)) = Raises e ->
                fst (get_driver body w) = Raise e
                /\ session (snd (get_driver body w)) = true).
Proof.
  intros Hc Hb Hr Hs.
  destruct (quit_run w3 Hs) as (Hh & Hraise & Hok).
  unfold get_driver, try_finally. rewrite bind_run, Hc. cbv iota. rewrite Hb.
  match goal with
  | |- context [match ?c w3 with _ => _ end] => set (cl := c w3) in *
  end.
  destruct r as [a|e|]; [| |congruence];
    destruct cl as [[[]|e'|] w4] eqn:E; cbn [fst snd] in *;
    (split; [exact Hh|]);
    (split;
     [ intros Ha; destruct (Hok Ha) as [H1 H2]
     | intros e0 He; destruct (Hraise e0 He) as [H1 H2] ]);
    try discriminate; split; congruence.
Qed.

(** X1.  [get_driver] releases the session on every exit path: once the
    driver has started and whatever the body does, return or raise, the
    last call made is [quit].  When [quit] answers, the session is gone
    and the outcome is that of the body; when [quit] itself raises, its
    exception replaces the outcome and the session stays set. *)
Theorem get_driver_releases_session
        {A : Type} (body : M A) (w w2 w3 : World) (r : result A) :
  _create_driver w = (Ok tt, w2) ->
  body w2 = (r, w3) ->
  r <> OutOfFuel ->
  session w3 = true ->
  history (snd (get_driver body w)) = history w3 ++ [QuitDriver]
  /\ (answers (fst (next_response w3)) ->
      fst (get_driver body w) = r /\ session (snd (get_driver body w)) = false)
  /\ (forall e, answer (fst (next_response w3)) = Raises e ->
                fst (get_driver body w) = Raise e
                /\ session (snd (get_driver body w)) = true).
Proof. exact (get_driver_run body w w2 w3 r). Qed.

Lemma get_driver_quits_after_a_failure :
  history (snd (get_driver (driver_get "https://bo.nalog.gov.ru") w_failing_page))
  = [CreateDriver; Get "https://bo.nalog.gov.ru"] ++ [QuitDriver]
  /\ (answers (mkResponse 0 Done) ->
      fst (get_driver (driver_get "https://bo.nalog.gov.ru") w_failing_page)
      = Raise (mkExn WebDriverException "net::ERR_CONNECTION_RESET")
      /\ session (snd (get_driver (driver_get "https://bo.nalog.gov.ru") w_failing_page))
         = false)
  /\ (forall e, answer (mkResponse 0 Done) = Raises e ->
                fst (get_driver (driver_get "https://bo.nalog.gov.ru") w_failing_page)
                = Raise e
                /\ session (snd (get_driver (driver_get "https://bo.nalog.gov.ru")
                                            w_failing_page)) = true).
Proof.
  apply (get_driver_releases_session
           (driver_get "https://bo.nalog.gov.ru") w_failing_page
           (snd (_create_driver w_failing_page))
           (snd (driver_get "https://bo.nalog.gov.ru" (snd (_create_driver w_failing_page))))
           (Raise (mkExn WebDriverException "net::ERR_CONNECTION_RESET"))).
  - vm_compute. reflexivity.
  - vm_compute. reflexivity.
  - discriminate.
  - vm_compute. reflexivity.
Defined.

(** X2.  When the driver does not start, [get_driver] does not run its
    body: the exception of the start is raised, nothing but the start is
    on record and, no session being there, nothing is quit. *)
Theorem get_driver_start_failure {A : Type} (body : M A) (w : World) (e : exn) :
  session w = false ->
  answer (fst (next_response w)) = Raises e ->
  fst (get_driver body w) = Raise e
  /\ history (snd (get_driver body w)) = history w ++ [CreateDriver]
  /\ session (snd (get_driver body w)) = false.
Proof.
  intros Hs Ha. unfold get_driver, try_finally. rewrite bind_run.
  unfold _create_driver. destruct (next_response w) as [r rest]. cbn [fst] in Ha.
  rewrite Ha. cbv iota. rewrite bind_run.
  match goal with
  | |- context [get_world ?w1] => change (get_world w1) with (Ok w1, w1)
  end.
  cbv iota. rewrite session_advance. cbn [session]. rewrite Hs. cbn [ret fst snd].
  rewrite history_advance, session_advance. cbn [history session]. auto.
Qed.

Lemma get_driver_without_chrome :
  fst (get_driver (process_loop dl ["7707083893"] 1 1 []) w_no_chrome)
  = Raise (mkExn WebDriverException "chrome not reachable")
  /\ history (snd (get_driver (process_loop dl ["7707083893"] 1 1 []) w_no_chrome))
     = history w_no_chrome ++ [CreateDriver]
  /\ session (snd (get_driver (process_loop dl ["7707083893"] 1 1 []) w_no_chrome)) = false.
Proof.
  apply (get_driver_start_failure (process_loop dl ["7707083893"] 1 1 []) w_no_chrome);
    reflexivity.
Defined.

(** ** The random delay *)

(** The time a random delay sleeps. *)
Lemma random_delay_sleeps (a b : Z) (w : World) :
  (0 <= a <= b)%Z ->
  fst (random_delay a b w) = Ok tt
  /\ (clock w + 1000 * a <= clock (snd (random_delay a b w)) <= clock w + 1000 * b)%Z.
Proof.
  intros Hab. unfold random_delay, random_uniform, random_random, bind, ret, time_sleep, modify.
  destruct (entropy w) as [|u rest]; cbn [fst snd]; rewrite clock_advance; cbn [clock].
  - split; [reflexivity|]. nia.
  - pose proof (Z.mod_pos_bound u 1000 ltac:(lia)) as Hu.
    split; [reflexivity|]. nia.
Qed.

(** X3.  [random_delay(a, b)] with [0 <= a <= b] does not raise and
    sleeps for a time between [a] and [b] seconds: the clock, which here
    moves by just the time slept, is at least [a] and at most [b] seconds
    further. *)
Theorem random_delay_bounds (a b : Z) (w : World) :
  (0 <= a <= b)%Z ->
  fst (random_delay a b w) = Ok tt
  /\ (clock w + 1000 * a <= clock (snd (random_delay a b w)) <= clock w + 1000 * b)%Z.
Proof. exact (random_delay_sleeps a b w). Qed.

Lemma random_delay_between_inns :
  fst (random_delay 5 10 w_dice) = Ok tt
  /\ (clock w_dice + 1000 * 5 <= clock (snd (random_delay 5 10 w_dice))
      <= clock w_dice + 1000 * 10)%Z.
Proof. apply (random_delay_bounds 5 10 w_dice). lia. Defined.

(** ** Stepping through calls *)

Lemma answered_history (c : call) (r : response) (rest : list response) (w : World) :
  history (answered c r rest w) = history w ++ [c].
Proof. unfold answered. now rewrite history_advance. Qed.

Lemma answered_browser (c : call) (r : response) (rest : list response) (w : World) :
  browser (answered c r rest w) = rest.
Proof. unfold answered. now rewrite browser_advance. Qed.

Lemma answered_session (c : call) (r : response) (rest : list response) (w : World) :
  session (answered c r rest w) = session w.
Proof. unfold answered. now rewrite session_advance. Qed.

Lemma answered_log (c : call) (r : response) (rest : list response) (w : World) :
  log (answered c r rest w) = log w.
Proof. unfold answered. now rewrite log_advance. Qed.

(** What a random delay leaves as it is. *)
Lemma random_delay_run (a b : Z) (w : World) :
  random_delay a b w = (Ok tt, snd (random_delay a b w))
  /\ history (snd (random_delay a b w)) = history w
  /\ browser (snd (random_delay a b w)) = browser w
  /\ session (snd (random_delay a b w)) = session w
  /\ log (snd (random_delay a b w)) = log w.
Proof.
  unfold random_delay, random_uniform, random_random, bind, ret, time_sleep, modify.
  destruct (entropy w); cbn [fst snd];
    rewrite history_advance, browser_advance, session_advance, log_advance;
    repeat split.
Qed.

Lemma driver_get_run (url : string) (w : World) (r : response) (rest : list response) :
  session w = true -> browser w = r :: rest -> answers r ->
  driver_get url w = (Ok tt, answered (Get url) r rest w).
Proof.
  intros Hs Hb Ha. unfold driver_get. rewrite bind_run, (driver_call_run _ _ _ _ Hs Hb).
  destruct (answer r) eqn:E; try reflexivity. now destruct (Ha e).
Qed.

Lemma wait_until_run (c : condition) (w : World) (r : response) (rest : list response) :
  session w = true -> browser w = r :: rest -> answers r ->
  exists el, wait_until c w = (Ok el, answered (Until c) r rest w).
Proof.
  intros Hs Hb Ha. unfold wait_until. rewrite bind_run, (driver_call_run _ _ _ _ Hs Hb).
  destruct (answer r) eqn:E; try (eexists; reflexivity). now destruct (Ha e).
Qed.

Lemma find_elements_run (l : locator) (w : World) (r : response) (rest : list response)
      (texts : list string) :
  session w = true -> browser w = r :: rest -> answer r = Elements texts ->
  find_elements l w = (Ok (map (mkElement l) texts), answered (FindElements l) r rest w).
Proof.
  intros Hs Hb Ha. unfold find_elements.
  rewrite bind_run, (driver_call_run _ _ _ _ Hs Hb), Ha. reflexivity.
Qed.

Lemma click_run (el : element) (w : World) (r : response) (rest : list response) :
  session w = true -> browser w = r :: rest -> answers r ->
  click el w = (Ok tt, answered (Click el) r rest w).
Proof.
  intros Hs Hb Ha. unfold click. rewrite bind_run, (driver_call_run _ _ _ _ Hs Hb).
  destruct (answer r) eqn:E; try reflexivity. now destruct (Ha e).
Qed.

(** ** [search_organization], entry by entry *)

Lemma click_matching_none (ident : string) (l : locator) (texts : list string) (w : World) :
  (forall t, In t texts -> PyStr.strip t <> ident) ->
  click_matching ident (map (mkElement l) texts) w = (Ok false, w).
Proof.
  induction texts as [|t texts IH]; intros H; cbn [map click_matching]; [reflexivity|].
  cbn [text]. rewrite (proj2 (String.eqb_neq _ _) (H t (or_introl eq_refl))).
  apply IH. intros t' Ht'. apply H. now right.
Qed.

Lemma click_matching_first (ident : string) (l : locator) (pre post : list string)
      (t : string) (w : World) :
  (forall t', In t' pre -> PyStr.strip t' <> ident) ->
  PyStr.strip t = ident ->
  click_matching ident (map (mkElement l) (pre ++ t :: post)) w
  = (logger INFO ("Found matching INN: " ++ ident)%string ;;
     click (mkElement l t) ;;
     random_delay 2 4 ;;
     ret true) w.
Proof.
  induction pre as [|p pre IH]; intros H Ht; cbn [app map click_matching text].
  - rewrite (proj2 (String.eqb_eq _ _) Ht). reflexivity.
  - rewrite (proj2 (String.eqb_neq _ _) (H p (or_introl eq_refl))).
    apply IH; [|exact Ht]. intros t' Ht'. apply H. now right.
Qed.

(** The first three steps of an attempt, on a page that loads. *)
Lemma search_attempt_page (ident : string) (w : World) (r1 r2 r3 : response)
      (rest : list response) (texts : list string) :
  session w = true ->
  browser w = r1 :: r2 :: r3 :: rest ->
  answers r1 -> answers r2 -> answer r3 = Elements texts ->
  exists w3,
    history w3 = history w
                 ++ [ Get (search_url ident);
                      Until (presence_of_element_located
                               (ByClassName "results-search-table-item"));
                      FindElements (ByTagName "ins") ]
    /\ browser w3 = rest
    /\ session w3 = true
    /\ log w3 = log w ++ [(INFO, ("Searching for INN: " ++ ident)%string)]
    /\ search_attempt ident w
       = try_except
           (found <- click_matching ident (map (mkElement (ByTagName "ins")) texts) ;;
            if found : bool then ret true
            else (logger WARNING ("INN " ++ ident ++ " not found in search results")%string ;;
                  ret false))
           (fun e =>
              if is_timeout e then
                (logger ERROR ("Timeout waiting for search results for INN: "
                               ++ ident)%string ;;
                 ret false)
              else
                (logger ERROR ("Error searching for INN " ++ ident ++ ": "
                               ++ str e)%string ;;
                 ret false))
           w3.
Proof.
  intros Hs Hb Ha1 Ha2 Ha3.
  unfold search_attempt. cbv zeta. fold (search_url ident).
  rewrite try_except_bind.
  set (w0 := snd (logger INFO ("Searching for INN: " ++ ident)%string w)).
  change (logger INFO ("Searching for INN: " ++ ident)%string w) with (Ok tt, w0).
  cbv iota.
  assert (Hs0 : session w0 = true) by exact Hs.
  assert (Hb0 : browser w0 = r1 :: r2 :: r3 :: rest) by exact Hb.
  rewrite try_except_bind, (driver_get_run _ _ _ _ Hs0 Hb0 Ha1). cbv iota.
  set (w1 := answered (Get (search_url ident)) r1 (r2 :: r3 :: rest) w0).
  destruct (random_delay_run 2 4 w1) as (Hrun & Hh & Hbr & Hse & Hlg).
  rewrite try_except_bind, Hrun. cbv iota.
  set (w1' := snd (random_delay 2 4 w1)) in *.
  assert (Hs1 : session w1' = true).
  { rewrite Hse. unfold w1. now rewrite answered_session. }
  assert (Hb1 : browser w1' = r2 :: r3 :: rest).
  { rewrite Hbr. unfold w1. now rewrite answered_browser. }
  destruct (wait_until_run
              (presence_of_element_located (ByClassName "results-search-table-item"))
              w1' r2 (r3 :: rest) Hs1 Hb1 Ha2) as (el & Hw).
  rewrite try_except_bind, Hw. cbv iota.
  set (w2 := answered _ r2 (r3 :: rest) w1') in *.
  assert (Hs2 : session w2 = true) by (unfold w2; now rewrite answered_session).
  assert (Hb2 : browser w2 = r3 :: rest) by (unfold w2; now rewrite answered_browser).
  rewrite try_except_bind, (find_elements_run _ _ _ _ _ Hs2 Hb2 Ha3). cbv iota.
  eexists. split; [|split; [|split; [|split; [|reflexivity]]]].
  - rewrite answered_history. unfold w2. rewrite answered_history, Hh.
    unfold w1. rewrite answered_history. cbn [w0 logger modify snd history].
    now rewrite <- !app_assoc.
  - apply answered_browser.
  - now rewrite answered_session.
  - rewrite answered_log. unfold w2. rewrite answered_log, Hlg.
    unfold w1. rewrite answered_log. reflexivity.
Qed.





(** X6.  [search_organization] never raises, whatever the browser does
    and even without a session: every failure of an attempt comes back as
    [False]. *)
Theorem search_organization_never_raises (ident : string) (w : World) :
  exists (found : bool) (w' : World), search_organization ident w = (Ok found, w').
Proof.
  destruct (always_run _ _ w (always_search_organization ident)) as (b & w' & H & _).
  eauto.
Qed.

(** ** [download_reports] *)

Lemma try_except_ret {A} (a : A) (h : exn -> M A) : try_except (ret a) h = ret a.
Proof. reflexivity. Qed.

(** With a year asked for, the second flow is not run. *)
Lemma always_download_reports_year (self : BalanceSheetDownloader)
      (ident y : string) :
  always (download_reports self ident (Some y))
         (fun rs => List.length rs <= 1 /\ results_for ident rs).
Proof.
  unfold download_reports. apply always_try_except.
  - binds.
    eapply yields_bind;
      [apply always_yields, (always_handle_download_popup self ident (Some y))|].
    intros popup Hpopup. cbv zeta. rewrite try_except_ret.
    pose proof (length_append_if [] popup) as Hlen. simpl in Hlen.
    pose proof (results_for_append_if ident [] popup (Forall_nil _) Hpopup) as Hfor.
    apply yields_ret. auto.
  - intros e. apply always_bind_any; [auto with run|]. intros _.
    eapply always_bind; [apply always_failure|]. intros r Hr. apply always_ret.
    split; [simpl; lia|]. now repeat constructor.
Qed.

(** X7.  [download_reports] never raises: whatever fails on the page
    comes back as a failed result.  All its results are results for the
    identifier asked for; there are at most two of them (bulk flow and
    year 2023) when no year is asked for, and at most one when a year is
    given, the second flow being run only without a year. *)
Theorem download_reports_never_raises
        (self : BalanceSheetDownloader) (ident : string) (y : option string) (w : World) :
  exists rs w',
    download_reports self ident y w = (Ok rs, w')
    /\ results_for ident rs
    /\ List.length rs <= most_results y.
Proof.
  destruct y as [y|].
  - destruct (always_run _ _ w (always_download_reports_year self ident y))
      as (rs & w' & H & Hl & Hf). eauto.
  - destruct (always_run _ _ w (always_download_reports self ident None))
      as (rs & w' & H & Hl & Hf). eauto.
Qed.

Lemma wait_until_raises (c : condition) (w : World) (r : response) (rest : list response)
      (e : exn) :
  session w = true -> browser w = r :: rest -> answer r = Raises e ->
  wait_until c w = (Raise e, answered (Until c) r rest w).
Proof.
  intros Hs Hb Ha. unfold wait_until.
  rewrite bind_run, (driver_call_run _ _ _ _ Hs Hb), Ha. reflexivity.
Qed.

(** X8.  When the page of the organization does not come up (the wait
    for the download area raises), [download_reports] returns exactly one
    failed result: it carries the identifier, the year as passed in, no
    file path and the text of the exception; the error is logged and no
    further call is made on the browser. *)
Theorem download_reports_page_failure
        (self : BalanceSheetDownloader) (ident : string) (y : option string)
        (w : World) (r : response) (rest : list response) (e : exn) :
  session w = true ->
  browser w = r :: rest ->
  answer r = Raises e ->
  fst (download_reports self ident y w)
  = Ok [mkResult ident y false None (Some (str e))
                 (clock (snd (download_reports self ident y w)))]
  /\ history (snd (download_reports self ident y w))
     = history w
       ++ [Until (presence_of_element_located (ByClassName "download-reports-wrapper"))]
  /\ browser (snd (download_reports self ident y w)) = rest
  /\ log (snd (download_reports self ident y w))
     = log w ++ [(ERROR, ("Error downloading reports for INN " ++ ident ++ ": "
                          ++ str e)%string)].
Proof.
  intros Hs Hb Ha. unfold download_reports. cbv zeta.
  rewrite try_except_bind, (wait_until_raises _ _ _ _ _ Hs Hb Ha). cbv iota.
  cbn [bind logger modify failure time_time ret fst snd history browser log clock].
  rewrite answered_history, answered_browser, answered_log. auto.
Qed.

Lemma download_reports_on_a_broken_page :
  fst (download_reports dl "7707083893" None w_broken_page)
  = Ok [mkResult "7707083893" None false None (Some "net::ERR_CONNECTION_RESET")
                 (clock (snd (download_reports dl "7707083893" None w_broken_page)))]
  /\ history (snd (download_reports dl "7707083893" None w_broken_page))
     = history w_broken_page
       ++ [Until (presence_of_element_located (ByClassName "download-reports-wrapper"))]
  /\ browser (snd (download_reports dl "7707083893" None w_broken_page)) = []
  /\ log (snd (download_reports dl "7707083893" None w_broken_page))
     = log w_broken_page
       ++ [(ERROR, "Error downloading reports for INN 7707083893: net::ERR_CONNECTION_RESET")].
Proof.
  apply (download_reports_page_failure
           dl "7707083893" None w_broken_page
           (mkResponse 100 (Raises (mkExn WebDriverException "net::ERR_CONNECTION_RESET")))
           [] (mkExn WebDriverException "net::ERR_CONNECTION_RESET"));
    reflexivity.
Defined.

(** ** The shape of the results *)

Lemma always_failure_shape (ident : string) (y : option string) (e : exn) :
  (y = None \/ y = Some "all"%string \/ y = Some "2023"%string) ->
  always (failure ident y e) well_formed.
Proof. intros Hy w. cbn. split; [reflexivity|]. split; [eauto|exact Hy]. Qed.

Lemma always_handle_download_popup_shape (self : BalanceSheetDownloader) (ident : string) :
  always (_handle_download_popup self ident None) well_formed_opt.
Proof.
  apply always_try_except.
  - walk; apply yields_ret; cbn; auto; split; eauto.
  - intros e. apply always_bind_any; [auto with run|]. intros _.
    eapply always_bind; [apply always_failure_shape; auto|].
    intros r Hr. now apply always_ret.
Qed.

Lemma always_download_specific_year_shape (self : BalanceSheetDownloader) (ident : string) :
  always (_download_specific_year self ident "2023") well_formed_opt.
Proof.
  apply always_try_except.
  - walk; apply yields_ret; cbn; auto; split; eauto.
  - intros e. apply always_bind_any; [auto with run|]. intros _.
    eapply always_bind; [apply always_failure_shape; auto|].
    intros r Hr. now apply always_ret.
Qed.

Lemma well_formed_append_if (rs : list DownloadResult) (o : option DownloadResult) :
  Forall well_formed rs -> well_formed_opt o -> Forall well_formed (append_if rs o).
Proof.
  intros Hrs Ho. destruct o as [r|]; simpl; [|exact Hrs].
  apply Forall_app. split; [exact Hrs | now constructor].
Qed.

Lemma always_download_reports_shape (self : BalanceSheetDownloader) (ident : string) :
  always (download_reports self ident None) (Forall well_formed).
Proof.
  assert (Herr : forall rs e,
             Forall well_formed rs ->
             always (logger ERROR ("Error downloading reports for INN " ++ ident
                                   ++ ": " ++ str e)%string ;;
                     r <- failure ident None e ;;
                     ret (rs ++ [r])%list)
                    (Forall well_formed)).
  { intros rs e Hf. apply always_bind_any; [auto with run|]. intros _.
    eapply always_bind; [apply always_failure_shape; auto|]. intros r Hr.
    apply always_ret. apply Forall_app. split; [exact Hf | now constructor]. }
  unfold download_reports. apply always_try_except.
  - binds.
    eapply yields_bind;
      [apply always_yields, (always_handle_download_popup_shape self ident)|].
    intros popup Hpopup. cbv zeta.
    pose proof (well_formed_append_if [] popup (Forall_nil _) Hpopup) as Hfor.
    apply always_yields, always_try_except.
    + eapply yields_bind;
        [apply always_yields, (always_download_specific_year_shape self ident)|].
      intros yr Hyr. apply yields_ret. now apply well_formed_append_if.
    + intros e. now apply Herr.
  - intros e. apply Herr. constructor.
Qed.

Lemma always_process_inn_shape (self : BalanceSheetDownloader) (ident : string)
      (acc : list DownloadResult) :
  Forall well_formed acc ->
  always (process_inn self ident acc) (Forall well_formed).
Proof.
  intros Hacc. apply always_try_except.
  - apply yields_bind_any; [apply always_yields, always_search_organization|].
    intros [|].
    + eapply yields_bind; [apply always_yields, (always_download_reports_shape self ident)|].
      intros rs Hrs. cbv zeta.
      apply yields_bind_any; [apply always_yields, always_log_results|]. intros _.
      apply yields_ret. apply Forall_app. auto.
    + apply yields_bind_any; [auto with run|]. intros now. apply yields_ret.
      apply Forall_app. split; [exact Hacc|]. constructor; [|constructor].
      cbn. split; [reflexivity|]. split; [eauto | auto].
  - intros e. apply always_bind_any; [auto with run|]. intros _.
    eapply always_bind; [apply always_failure_shape; auto|]. intros r Hr.
    apply always_ret. apply Forall_app. split; [exact Hacc | now constructor].
Qed.

Lemma always_process_loop_shape (self : BalanceSheetDownloader) (inns : list string) :
  forall (i total : nat) (acc : list DownloadResult),
    Forall well_formed acc ->
    always (process_loop self inns i total acc) (Forall well_formed).
Proof.
  induction inns as [|ident inns IH]; intros i total acc Hacc; simpl.
  - now apply always_ret.
  - apply always_bind_any; [auto with run|]. intros _.
    eapply always_bind; [now apply always_process_inn_shape|]. intros rs Hrs.
    apply always_bind_any; [auto with run|]. intros _. now apply IH.
Qed.

(** What [get_driver] returns, its body has returned. *)
Lemma get_driver_ok_inv {A} (body : M A) (w : World) (a : A) :
  fst (get_driver body w) = Ok a ->
  exists w2 w3, body w2 = (Ok a, w3).
Proof.
  unfold get_driver, try_finally. rewrite bind_run.
  destruct (_create_driver w) as [[[]|e|] w2]; cbv iota.
  - destruct (body w2) as [[b|e|] w3] eqn:Hb.
    + match goal with
      | |- context [match ?c w3 with _ => _ end] => destruct (c w3) as [[u|e|] w4]
      end; cbn [fst]; intros [= <-] || discriminate. eauto.
    + match goal with
      | |- context [match ?c w3 with _ => _ end] => destruct (c w3) as [[u|e'|] w4]
      end; cbn [fst]; discriminate.
    + discriminate.
  - match goal with
    | |- context [match ?c w2 with _ => _ end] => destruct (c w2) as [[u|e'|] w4]
    end; cbn [fst]; discriminate.
  - discriminate.
Qed.

(** X9.  Every result a batch returns is either a success with a file
    path and no error message, or a failure with an error message and no
    file path; and the year it names is ["all"] or ["2023"], or none for
    a failure that came before any download. *)
Theorem process_inns_results_well_formed
        (self : BalanceSheetDownloader) (file : path) (w : World)
        (results : list DownloadResult) :
  fst (process_inns self file w) = Ok results ->
  Forall well_formed results.
Proof.
  unfold process_inns. rewrite bind_run. change (get_world w) with (Ok w, w). cbv iota.
  destruct (negb (fs_exists file (fs w))).
  - cbn. intros [= <-]. constructor.
  - rewrite bind_run. destruct (read_text file w) as [[content|e|] w1]; cbv iota;
      try (cbn [fst]; discriminate).
    rewrite bind_run.
    match goal with
    | |- context [logger ?l ?m w1] =>
        change (logger l m w1) with (Ok tt, snd (logger l m w1))
    end.
    cbv iota. intros H. apply get_driver_ok_inv in H as (w2 & w3 & Hb).
    pose proof (always_process_loop_shape self (read_inns content) 1
                  (List.length (read_inns content)) [] (Forall_nil _) w2) as Hq.
    rewrite Hb in Hq. exact Hq.
Qed.

Lemma process_inns_batch_well_formed : Forall well_formed batch_results.
Proof.
  apply (process_inns_results_well_formed dl ["inns.txt"] w_batch batch_results).
  vm_compute. reflexivity.
Defined.

(** ** The listing of the download directory *)

Lemma mem_string_In (x : string) (l : list string) : mem_string x l = true <-> In x l.
Proof.
  unfold mem_string. rewrite existsb_exists. split.
  - intros (y & Hy & E). apply String.eqb_eq in E. now subst.
  - intros H. exists x. split; [exact H | apply String.eqb_refl].
Qed.

Lemma entry_name_spec (d q : path) (name : string) :
  entry_name d q = Some name <-> q = d ++ [name].
Proof.
  revert q. induction d as [|a d IH]; intros q; simpl.
  - destruct q as [|b [|c q]]; split; intros H; try discriminate; congruence.
  - destruct q as [|b q]; [split; discriminate|].
    destruct (String.eqb a b) eqn:E.
    + apply String.eqb_eq in E. subst b. rewrite IH. split; congruence.
    + apply String.eqb_neq in E. split; [discriminate | congruence].
Qed.

(** The entries listed are the first bindings of the paths directly
    below the directory, those whose names are not set aside. *)
Lemma fs_entries_from_spec (d : path) (f : filesystem) :
  forall (seen : list string) (name : string) (n : node),
    In (name, n) (fs_entries_from seen d f)
    <-> (mem_string name seen = false /\ fs_lookup (d ++ [name]) f = Some n).
Proof.
  induction f as [|[q n0] f IH]; intros seen name n; cbn [fs_entries_from fs_lookup In].
  - split; [tauto | intros [_ H]; discriminate].
  - destruct (entry_name d q) as [nm|] eqn:E.
    + apply entry_name_spec in E. subst q.
      destruct (mem_string nm seen) eqn:Hm.
      * rewrite IH. destruct (list_eq_dec string_dec (d ++ [name]) (d ++ [nm])) as [Heq|Hne].
        -- apply app_inv_head in Heq. injection Heq as ->.
           rewrite path_eqb_refl. split; intros [H1 H2]; congruence.
        -- now rewrite (path_eqb_neq _ _ Hne).
      * cbn [In]. rewrite IH.
        destruct (list_eq_dec string_dec (d ++ [name]) (d ++ [nm])) as [Heq|Hne].
        -- apply app_inv_head in Heq. injection Heq as ->.
           rewrite path_eqb_refl. split.
           ++ intros [[= ->]|[H1 H2]]; [auto|].
              cbn [mem_string existsb] in H1. now rewrite String.eqb_refl in H1.
           ++ intros [_ [= ->]]. now left.
        -- rewrite (path_eqb_neq _ _ Hne).
           assert (Hnn : name <> nm) by congruence.
           split.
           ++ intros [[= -> ->]|[H1 H2]]; [congruence|].
              split; [|exact H2].
              cbn [mem_string existsb] in H1. apply orb_false_elim in H1. tauto.
           ++ intros [H1 H2]. right. split; [|exact H2].
              cbn [mem_string existsb]. apply String.eqb_neq in Hnn. now rewrite Hnn.
    + rewrite IH.
      destruct (list_eq_dec string_dec (d ++ [name]) q) as [Heq|Hne].
      * symmetry in Heq. apply entry_name_spec in Heq. congruence.
      * now rewrite (path_eqb_neq _ _ Hne).
Qed.

Lemma fs_entries_from_NoDup (d : path) (f : filesystem) :
  forall seen : list string, NoDup (map fst (fs_entries_from seen d f)).
Proof.
  induction f as [|[q n0] f IH]; intros seen; cbn [fs_entries_from]; [constructor|].
  destruct (entry_name d q) as [nm|]; [|apply IH].
  destruct (mem_string nm seen); [apply IH|].
  cbn [map fst]. constructor; [|apply IH].
  intros Hin. apply in_map_iff in Hin as ([name n] & Hn & Hin). cbn in Hn. subst name.
  apply fs_entries_from_spec in Hin as [Hm _].
  cbn [mem_string existsb] in Hm. now rewrite String.eqb_refl in Hm.
Qed.

Lemma NoDup_map_filter {A B} (g : A -> B) (p : A -> bool) (l : list A) :
  NoDup (map g l) -> NoDup (map g (filter p l)).
Proof.
  induction l as [|a l IH]; simpl; [auto|]. intros H. inversion H as [|? ? Hn Hd]; subst.
  destruct (p a); [|auto]. simpl. constructor; [|auto].
  intros Hin. apply Hn. apply in_map_iff in Hin as (x & Hx & Hin).
  apply filter_In in Hin as [Hin _]. apply in_map_iff. eauto.
Qed.



(** ** What [_wait_for_download] returns, and when *)

Lemma wait_loop_sound (self : BalanceSheetDownloader) (initial : list string)
      (start timeout : Z) (fuel : nat) :
  forall (w w' : World) (f : string),
    wait_loop self fuel initial start timeout w = (Ok (Some f), w') ->
    is_partial f = false /\ mem_string f initial = false.
Proof.
  induction fuel as [|fuel IH]; intros w w' f; cbn [wait_loop]; rewrite bind_run;
    change (time_time w) with (Ok (clock w), w); cbv iota;
    destruct (clock w - start <? timeout)%Z; try discriminate.
  rewrite bind_run.
  destruct (_get_download_files self w) as [[cur|e|] w1]; cbv iota; try discriminate.
  destruct (filter (fun f0 => negb (mem_string f0 initial)) cur) as [|new_file others] eqn:Hf.
  - rewrite bind_run. change (time_sleep 1000 w1) with (Ok tt, advance 1000 w1).
    cbv iota. apply IH.
  - rewrite bind_run. change (time_sleep 2000 w1) with (Ok tt, advance 2000 w1).
    cbv iota.
    destruct (negb (PyStr.endswith new_file ".crdownload")
              && negb (PyStr.endswith new_file ".tmp")) eqn:Hp.
    + intros [= <- <-]. split.
      * unfold is_partial. apply andb_prop in Hp as [H1 H2].
        apply negb_true_iff in H1, H2. now rewrite H1, H2.
      * assert (Hin : In new_file (filter (fun f0 => negb (mem_string f0 initial)) cur))
          by (rewrite Hf; now left).
        apply filter_In in Hin as [_ Hin]. now apply negb_true_iff in Hin.
    + rewrite bind_run.
      change (time_sleep 1000 (advance 2000 w1)) with (Ok tt, advance 1000 (advance 2000 w1)).
      cbv iota. apply IH.
Qed.

(** X11.  A name [_wait_for_download] returns is never one of the
    snapshot taken before the download, and never one with a
    partial-download suffix ([.crdownload], [.tmp]). *)
Theorem wait_for_download_returns_new_complete
        (self : BalanceSheetDownloader) (initial_files : list string) (timeout : Z)
        (w w' : World) (f : string) :
  _wait_for_download self initial_files timeout w = (Ok (Some f), w') ->
  is_partial f = false /\ ~ In f initial_files.
Proof.
  rewrite wait_for_download_unfold. intros H.
  apply wait_loop_sound in H as [Hp Hm]. split; [exact Hp|].
  intros Hin. apply mem_string_In in Hin. congruence.
Qed.

Lemma wait_for_download_skips_partial :
  is_partial "b.zip" = false /\ ~ In "b.zip" ["a.zip"].
Proof.
  apply (wait_for_download_returns_new_complete
           dl ["a.zip"] 30 w_listing
           (snd (_wait_for_download dl ["a.zip"] 30 w_listing)) "b.zip").
  vm_compute. reflexivity.
Defined.

Lemma wait_loop_clock (self : BalanceSheetDownloader) (initial : list string)
      (start timeout : Z) (fuel : nat) :
  forall w : World,
    let w' := snd (wait_loop self fuel initial start timeout w) in
    (clock w <= clock w')%Z
    /\ (clock w' = clock w \/ clock w' < start + timeout + 3000)%Z.
Proof.
  induction fuel as [|fuel IH]; intros w; cbn [wait_loop]; rewrite bind_run;
    change (time_time w) with (Ok (clock w), w); cbv iota;
    destruct (clock w - start <? timeout)%Z eqn:Hc; cbn [out_of_fuel ret snd];
    try (split; [lia | now left]).
  apply Z.ltb_lt in Hc. rewrite bind_run.
  pose proof (get_download_files_pure self w) as Hpure.
  destruct (_get_download_files self w) as [[cur|e|] w1]; cbn [snd] in Hpure; subst w1;
    cbv iota; cbn [snd]; try (split; [lia | now left]).
  destruct (filter (fun f0 => negb (mem_string f0 initial)) cur) as [|new_file others].
  - rewrite bind_run. change (time_sleep 1000 w) with (Ok tt, advance 1000 w).
    cbv iota. specialize (IH (advance 1000 w)). cbv zeta in IH.
    rewrite clock_advance in IH. split; [lia|]. right. lia.
  - rewrite bind_run. change (time_sleep 2000 w) with (Ok tt, advance 2000 w).
    cbv iota.
    destruct (negb (PyStr.endswith new_file ".crdownload")
              && negb (PyStr.endswith new_file ".tmp")).
    + cbn [ret snd]. rewrite clock_advance. split; [lia|]. right. lia.
    + rewrite bind_run.
      change (time_sleep 1000 (advance 2000 w)) with (Ok tt, advance 1000 (advance 2000 w)).
      cbv iota. specialize (IH (advance 1000 (advance 2000 w))). cbv zeta in IH.
      rewrite !clock_advance in IH. split; [lia|]. right. lia.
Qed.

(** X12.  Counting the time slept, [_wait_for_download] is over less
    than three seconds after its timeout: a turn of the loop begins before
    the timeout and sleeps at most the grace period of two seconds and the
    pause of one. *)
Theorem wait_for_download_deadline
        (self : BalanceSheetDownloader) (initial_files : list string) (timeout : Z)
        (w : World) :
  let w' := snd (_wait_for_download self initial_files timeout w) in
  (clock w <= clock w' < clock w + Z.max 0 (timeout * 1000) + 3000)%Z.
Proof.
  cbv zeta. rewrite wait_for_download_unfold.
  pose proof (wait_loop_clock self initial_files (clock w) (timeout * 1000)
                              (Z.to_nat timeout) w) as H.
  cbv zeta in H. lia.
Qed.

(** ** [_verify_download], the other cases *)

(** X13.  [_verify_download] never raises, for any path in any state of
    the file system; and a path that does not exist fails verification,
    with an error logged. *)
Theorem verify_download_never_raises (p : path) (w : World) :
  (exists (verdict : bool) (w' : World), _verify_download p w = (Ok verdict, w'))
  /\ (fs_exists p (fs w) = false ->
      _verify_download p w
      = (Ok false, snd (logger ERROR ("File does not exist: " ++ path_str p)%string w))).
Proof.
  split.
  - destruct (always_run _ _ w (always_verify_download p)) as (b & w' & H & _). eauto.
  - intros He. unfold _verify_download, try_except. rewrite bind_run.
    change (get_world w) with (Ok w, w). cbv iota. rewrite He. reflexivity.
Qed.

Lemma verify_download_of_a_missing_file :
  _verify_download ["downloads"; "gone.zip"] w_archives
  = (Ok false,
     snd (logger ERROR "File does not exist: downloads/gone.zip" w_archives)).
Proof.
  apply (proj2 (verify_download_never_raises ["downloads"; "gone.zip"] w_archives)).
  reflexivity.
Defined.

(** X14.  A non-empty file under a name ending in [.zip] that is no zip
    archive fails verification: [zipfile] rejects it, and the rejection is
    logged as an invalid archive, not raised. *)
Theorem verify_download_rejects_non_archive (p : path) (content : string) (w : World) :
  p <> [] ->
  fs_lookup p (fs w) = Some (File (Bytes content)) ->
  content <> ""%string ->
  PyStr.lower (suffix p) = ".zip"%string ->
  _verify_download p w
  = (Ok false, snd (logger ERROR ("Invalid ZIP file: " ++ path_str p)%string w)).
Proof.
  intros Hp Hl Hc Hz. destruct p as [|a p]; [congruence|].
  unfold _verify_download, try_except at 1. rewrite bind_run.
  change (get_world w) with (Ok w, w). cbv iota.
  rewrite (fs_lookup_exists _ _ _ Hl). cbn [negb]. rewrite bind_run.
  unfold stat_size. rewrite Hl. cbv iota.
  destruct (payload_size (Bytes content) =? 0)%N eqn:E.
  { apply N.eqb_eq in E. cbn in E. destruct content; [congruence | discriminate]. }
  rewrite bind_run, Hz. cbn [String.eqb Ascii.eqb Bool.eqb].
  unfold verify_zip, try_except, bind, ZipFile. rewrite Hl. reflexivity.
Qed.

Lemma verify_download_of_an_error_page :
  _verify_download ["downloads"; "report.zip"] w_error_page
  = (Ok false, snd (logger ERROR "Invalid ZIP file: downloads/report.zip" w_error_page)).
Proof.
  apply (verify_download_rejects_non_archive
           ["downloads"; "report.zip"] "<html>Service unavailable</html>" w_error_page);
    try reflexivity; discriminate.
Defined.

(** ** [_organize_download], the other cases *)

Lemma fs_mkdir_from_adds (todo done : path) (f f' : filesystem) :
  fs_mkdir_from done todo f = Some f' ->
  forall q, fs_lookup q f' = fs_lookup q f \/
            (fs_lookup q f = None /\ fs_lookup q f' = Some Dir
             /\ List.length q <= List.length (done ++ todo)).
Proof.
  revert done f. induction todo as [|c todo IH]; simpl; intros done f H q.
  - inversion H; subst. now left.
  - replace (done ++ c :: todo) with ((done ++ [c]) ++ todo)
      by now rewrite <- app_assoc.
    destruct (fs_lookup (done ++ [c]) f) as [[?|]|] eqn:E; [discriminate| |].
    + eapply IH; eauto.
    + destruct (IH _ _ H q) as [Hsame | (Hn & Hd & Hl)].
      * destruct (list_eq_dec string_dec (done ++ [c]) q) as [<-|Hne].
        -- right. rewrite Hsame, fs_lookup_put_same. repeat split; auto.
           rewrite !length_app. lia.
        -- left. now rewrite Hsame, fs_lookup_put_other.
      * destruct (list_eq_dec string_dec (done ++ [c]) q) as [<-|Hne].
        -- rewrite fs_lookup_put_same in Hn. discriminate.
        -- right. rewrite fs_lookup_put_other in Hn by exact Hne. auto.
Qed.

Lemma child_plain (d : path) (name : string) :
  name <> ""%string -> name <> "."%string -> child d name = d ++ [name].
Proof.
  intros H1 H2. unfold child.
  apply String.eqb_neq in H1, H2. now rewrite H1, H2.
Qed.

(** X15.  Without a collision the download keeps its name:
    [_organize_download] creates the folders [<inn>/<year>] as far as they
    are missing and moves the file to [<inn>/<year>/<filename>]; it is
    then there with its content and no longer in the download
    directory. *)
Theorem organize_keeps_free_name
        (self : BalanceSheetDownloader) (filename inn year : string)
        (w : World) (c : payload) :
  let source_path := child (download_dir self) filename in
  let target_dir := child (child (download_dir self) inn) year in
  filename <> ""%string -> filename <> "."%string ->
  fs_lookup source_path (fs w) = Some (File c) ->
  fs_mkdir_parents target_dir (fs w) <> None ->
  fs_exists (target_dir ++ [filename]) (fs w) = false ->
  exists w',
    _organize_download self filename inn year w = (Ok (target_dir ++ [filename]), w')
    /\ fs_is_dir target_dir (fs w') = true
    /\ fs_lookup (target_dir ++ [filename]) (fs w') = Some (File c)
    /\ fs_lookup source_path (fs w') = None.
Proof.
  intros source_path target_dir Hn1 Hn2 Hsrc Hmk Hfree.
  pose proof (organize_unfold self filename inn year w) as Hu. cbv zeta in Hu.
  fold source_path target_dir in Hu.
  destruct (fs_mkdir_parents target_dir (fs w)) as [f1|] eqn:Emk; [|congruence].
  rewrite (child_plain target_dir filename Hn1 Hn2) in Hu.
  assert (Hdir : fs_is_dir target_dir f1 = true).
  { apply (fs_mkdir_from_is_dir target_dir [] (fs w) f1 Emk). reflexivity. }
  assert (Hfree1 : fs_exists (target_dir ++ [filename]) f1 = false).
  { apply fs_exists_lookup in Hfree as [Hnone Hnil].
    unfold fs_exists. destruct (target_dir ++ [filename]) as [|a q] eqn:Eq; [congruence|].
    destruct (fs_mkdir_from_adds _ _ _ _ Emk (a :: q)) as [Hsame|(_ & _ & Hlen)].
    - now rewrite Hsame, Hnone.
    - rewrite <- Eq in Hlen. rewrite length_app in Hlen. simpl in Hlen. lia. }
  assert (Hsrc1 : fs_lookup source_path f1 = Some (File c))
    by (eapply fs_mkdir_from_keeps; eauto).
  rewrite free_target_step, Hfree1 in Hu.
  assert (Hpar : fs_is_dir (parent (target_dir ++ [filename])) (fs (set_fs f1 w)) = true)
    by (rewrite parent_snoc; exact Hdir).
  rewrite (path_rename_file source_path (target_dir ++ [filename]) c (set_fs f1 w)
                            Hsrc1 Hpar Hfree1) in Hu.
  assert (Hne : source_path <> target_dir ++ [filename]).
  { intros Heq. apply fs_lookup_exists in Hsrc1. congruence. }
  eexists. split; [exact Hu|]. cbn [fs set_fs]. split; [|split].
  - unfold fs_is_dir in *. destruct target_dir as [|a q] eqn:Et; [reflexivity|].
    rewrite <- Et in *.
    destruct (fs_lookup target_dir f1) as [[|]|] eqn:El; try discriminate.
    rewrite fs_lookup_put_other, fs_lookup_remove_other, El; [reflexivity| |].
    + intros Heq. congruence.
    + intros Heq. apply (f_equal (@List.length string)) in Heq.
      rewrite length_app in Heq. simpl in Heq. lia.
  - apply fs_lookup_put_same.
  - rewrite fs_lookup_put_other by congruence. apply fs_lookup_remove_same.
Qed.

Lemma organize_first_download :
  exists w',
    _organize_download dl "report.zip" "7707083893" "2023" w_first_download
    = (Ok (["downloads"; "7707083893"; "2023"] ++ ["report.zip"]), w')
    /\ fs_is_dir ["downloads"; "7707083893"; "2023"] (fs w') = true
    /\ fs_lookup (["downloads"; "7707083893"; "2023"] ++ ["report.zip"]) (fs w')
       = Some (File sound_zip)
    /\ fs_lookup ["downloads"; "report.zip"] (fs w') = None.
Proof.
  apply (organize_keeps_free_name dl "report.zip" "7707083893" "2023"
                                  w_first_download sound_zip);
    try reflexivity; discriminate.
Defined.

(** X16.  When the file to organize is not there (any more),
    [_organize_download] raises [FileNotFoundError]; the folders it has
    created before stay. *)
Theorem organize_missing_source
        (self : BalanceSheetDownloader) (filename inn year : string)
        (w : World) (f1 : filesystem) :
  let source_path := child (download_dir self) filename in
  let target_dir := child (child (download_dir self) inn) year in
  fs_mkdir_parents target_dir (fs w) = Some f1 ->
  fs_lookup source_path f1 = None ->
  exists e,
    _organize_download self filename inn year w = (Raise e, set_fs f1 w)
    /\ class_of e = FileNotFoundError
    /\ fs_is_dir target_dir f1 = true.
Proof.
  intros source_path target_dir Hmk Hsrc.
  pose proof (organize_unfold self filename inn year w) as Hu. cbv zeta in Hu.
  fold source_path target_dir in Hu. rewrite Hmk in Hu.
  destruct (free_target (S (List.length f1)) target_dir (stem source_path)
                        (suffix source_path) 1 (child target_dir filename) f1)
    as [t|] eqn:Ef; [|now apply free_target_fuel in Ef].
  unfold path_rename in Hu. cbn [fs set_fs] in Hu. rewrite Hsrc in Hu.
  eexists. split; [exact Hu|]. split; [reflexivity|].
  apply (fs_mkdir_from_is_dir target_dir [] (fs w) f1 Hmk). reflexivity.
Qed.

Lemma organize_a_vanished_file :
  exists e,
    _organize_download dl "gone.zip" "7707083893" "all" w_first_download
    = (Raise e,
       set_fs [ (["downloads"], Dir);
                (["downloads"; "report.zip"], File sound_zip);
                (["downloads"; "7707083893"], Dir);
                (["downloads"; "7707083893"; "all"], Dir) ] w_first_download)
    /\ class_of e = FileNotFoundError
    /\ fs_is_dir ["downloads"; "7707083893"; "all"]
         [ (["downloads"], Dir);
           (["downloads"; "report.zip"], File sound_zip);
           (["downloads"; "7707083893"], Dir);
           (["downloads"; "7707083893"; "all"], Dir) ] = true.
Proof.
  apply (organize_missing_source dl "gone.zip" "7707083893" "all" w_first_download);
    reflexivity.
Defined.

(** ** The batch and its session *)



(** ** The success rate at its ends *)

Lemma round53_same (n : Z) : (0 < n)%Z -> Float.round53 n n = (4503599627370496, -52)%Z.
Proof.
  intros Hn. unfold Float.round53.
  destruct (n =? 0)%Z eqn:E; [apply Z.eqb_eq in E; lia|].
  rewrite Z.sub_diag. cbn [Z.max Z.opp Z.compare Z.pow Z.pow_pos Pos.iter Z.mul Pos.mul].
  rewrite Z.mul_1_r, Z.leb_refl. cbv zeta.
  change (0 - 52)%Z with (-52)%Z.
  change (Z.max 0 (- -52)) with 52%Z. change (Z.max 0 (-52)) with 0%Z.
  change (2 ^ 0)%Z with 1%Z. rewrite Z.mul_1_r.
  unfold Float.rne.
  rewrite (Z.mul_comm n), Z.div_mul, Z.mod_mul by lia.
  change (2 * 0)%Z with 0%Z.
  destruct (0 <? n)%Z eqn:E0; [reflexivity | apply Z.ltb_ge in E0; lia].
Qed.

Lemma filter_all {A} (p : A -> bool) (l : list A) :
  forallb p l = true -> filter p l = l.
Proof.
  induction l as [|a l IH]; simpl; [reflexivity|].
  intros H. apply andb_prop in H as [Ha Hl]. rewrite Ha. f_equal. auto.
Qed.

Lemma filter_none {A} (p : A -> bool) (l : list A) :
  forallb (fun a => negb (p a)) l = true -> filter p l = [].
Proof.
  induction l as [|a l IH]; simpl; [reflexivity|].
  intros H. apply andb_prop in H as [Ha Hl]. apply negb_true_iff in Ha. rewrite Ha. auto.
Qed.

(** X18.  The ends of the success rate: when every result of a non-empty
    list is a success the report shows 100.0, when none is it shows 0.0,
    however many results there are. *)
Theorem success_rate_extremes (results : list DownloadResult) (w : World) :
  results <> [] ->
  (forallb success results = true ->
   exists rate, success_rate results w = (Ok rate, w)
                /\ Float.format_1f rate = "100.0"%string)
  /\ (forallb (fun r => negb (success r)) results = true ->
      exists rate, success_rate results w = (Ok rate, w)
                   /\ Float.format_1f rate = "0.0"%string).
Proof.
  intros Hne. destruct results as [|r rs]; [congruence|].
  set (results := r :: rs) in *.
  assert (Hpos : (0 < Z.of_nat (List.length results))%Z) by (simpl; lia).
  split; intros H; eexists; (split; [reflexivity|]).
  - unfold successful_downloads. rewrite (filter_all _ _ H).
    unfold Float.div_int. rewrite (round53_same _ Hpos). reflexivity.
  - unfold successful_downloads. rewrite (filter_none _ _ H). reflexivity.
Qed.

Lemma success_rate_of_three :
  (exists rate, success_rate [not_found "1" 0; not_found "2" 0; not_found "3" 0] w_quiet
                = (Ok rate, w_quiet)
                /\ Float.format_1f rate = "0.0"%string)
  /\ (exists rate,
         success_rate [ mkResult "1" (Some "all") true (Some "a.zip") None 0;
                        mkResult "1" (Some "2023") true (Some "b.zip") None 0;
                        mkResult "2" (Some "all") true (Some "c.zip") None 0 ] w_quiet
         = (Ok rate, w_quiet)
         /\ Float.format_1f rate = "100.0"%string).
Proof.
  split.
  - apply (proj2 (success_rate_extremes
                    [not_found "1" 0; not_found "2" 0; not_found "3" 0] w_quiet
                    ltac:(discriminate))).
    reflexivity.
  - apply (proj1 (success_rate_extremes
                    [ mkResult "1" (Some "all") true (Some "a.zip") None 0;
                      mkResult "1" (Some "2023") true (Some "b.zip") None 0;
                      mkResult "2" (Some "all") true (Some "c.zip") None 0 ] w_quiet
                    ltac:(discriminate))).
    reflexivity.
Defined.

(** ** [main] *)

(** X19.  The normal path of [main]: when the download directory is
    there, the batch returns a non-empty list of results and the report
    file can be written, [main] writes exactly the text of
    [generate_report] to the report path, prints its three lines and
    exits with status 0. *)
Theorem main_writes_the_report
        (strftime : Z -> string) (args : Args) (w w2 : World)
        (results : list DownloadResult) :
  fs_is_dir (arg_download_dir args) (fs w) = true ->
  process_inns (mkDownloader (arg_download_dir args) (arg_headless args))
               (inns_file args) w = (Ok results, w2) ->
  results <> [] ->
  fs_is_dir (report args) (fs w2) = false ->
  fs_is_dir (parent (report args)) (fs w2) = true ->
  exists text w',
    generate_report strftime results w2 = (Ok text, w2)
    /\ main strftime args w = (Ok 0, w')
    /\ fs w' = fs_put (report args) (File (Bytes text)) (fs w2)
    /\ stdout w'
       = stdout w2
         ++ [ ("Download process completed. Report saved to: "
               ++ path_str (report args))%string;
              ("Total results: " ++ PyStr.of_nat (List.length results))%string;
              ("Successful downloads: "
               ++ PyStr.of_nat (List.length (filter success results)))%string ].
Proof.
  intros Hd Hp Hne Hr1 Hr2.
  assert (Hg : exists text, generate_report strftime results w2 = (Ok text, w2)).
  { unfold generate_report, success_rate, bind, time_time.
    destruct results; [congruence|]. eexists. reflexivity. }
  destruct Hg as (text & Hg). exists text.
  unfold main. rewrite try_except_bind.
  unfold init at 1, path_mkdir at 1. cbn [download_dir]. rewrite Hd. cbv iota.
  unfold try_except at 1. rewrite try_except_bind, Hp. cbv iota.
  rewrite try_except_bind, Hg. cbv iota.
  rewrite try_except_bind. unfold write_text at 1. rewrite Hr1, Hr2. cbv iota.
  eexists. split; [reflexivity|]. split; [reflexivity|].
  cbn [fs stdout set_fs snd print modify bind try_except ret fst].
  split; [reflexivity|]. now rewrite <- !app_assoc.
Qed.

Lemma main_batch_report :
  exists text w',
    generate_report seconds_stamp batch_results
                    (snd (process_inns dl ["inns.txt"] w_batch))
    = (Ok text, snd (process_inns dl ["inns.txt"] w_batch))
    /\ main seconds_stamp args_batch w_batch = (Ok 0, w')
    /\ fs w' = fs_put ["download_report.txt"] (File (Bytes text))
                      (fs (snd (process_inns dl ["inns.txt"] w_batch)))
    /\ stdout w'
       = stdout (snd (process_inns dl ["inns.txt"] w_batch))
         ++ [ "Download process completed. Report saved to: download_report.txt";
              "Total results: 3";
              "Successful downloads: 1" ].
Proof.
  apply (main_writes_the_report seconds_stamp args_batch w_batch
           (snd (process_inns dl ["inns.txt"] w_batch)) batch_results).
  - reflexivity.
  - vm_compute. reflexivity.
  - discriminate.
  - vm_compute. reflexivity.
  - vm_compute. reflexivity.
Defined.

(** X20.  The downloader is built before the [try] of [main]: when the
    download directory cannot be created, because its path is taken by a
    regular file or its parent is missing, the run ends with status 1
    before anything else happens: no browser is started, nothing is
    printed, no report is written. *)
Theorem main_without_download_directory
        (strftime : Z -> string) (args : Args) (w : World) :
  fs_is_dir (arg_download_dir args) (fs w) = false ->
  fs_exists (arg_download_dir args) (fs w) = true
  \/ fs_is_dir (parent (arg_download_dir args)) (fs w) = false ->
  main strftime args w = (Ok 1, w).
Proof.
  intros Hd Hcase. unfold main. rewrite try_except_bind.
  unfold init, path_mkdir. cbn [download_dir]. rewrite Hd.
  destruct Hcase as [He|Hp].
  - rewrite He. reflexivity.
  - rewrite Hp. destruct (fs_exists _ _); reflexivity.
Qed.

Lemma main_with_blocked_directory :
  main seconds_stamp args_batch w_blocked = (Ok 1, w_blocked).
Proof.
  apply (main_without_download_directory seconds_stamp args_batch w_blocked).
  - reflexivity.
  - left. reflexivity.
Defined.

(** ** The pace of a batch *)

Section Forward.

Context {A B : Type}.

Lemma forward_ret (a : A) : forward (ret a).
Proof. intros w. apply Z.le_refl. Qed.

Lemma forward_raise (e : exn) : forward (@raise A e).
Proof. intros w. apply Z.le_refl. Qed.

Lemma forward_out_of_fuel : forward (@out_of_fuel A).
Proof. intros w. apply Z.le_refl. Qed.

Lemma forward_bind (m : M A) (k : A -> M B) :
  forward m -> (forall a, forward (k a)) -> forward (bind m k).
Proof.
  intros Hm Hk w. specialize (Hm w). unfold bind.
  destruct (m w) as [[a|e|] w']; cbn [snd] in *; auto.
  specialize (Hk a w'). lia.
Qed.

Lemma forward_try_except (m : M A) (h : exn -> M A) :
  forward m -> (forall e, forward (h e)) -> forward (try_except m h).
Proof.
  intros Hm Hh w. specialize (Hm w). unfold try_except.
  destruct (m w) as [[a|e|] w']; cbn [snd] in *; auto.
  specialize (Hh e w'). lia.
Qed.

Lemma forward_try_finally (m : M A) (c : M unit) :
  forward m -> forward c -> forward (try_finally m c).
Proof.
  intros Hm Hc w. specialize (Hm w). unfold try_finally.
  destruct (m w) as [[a|e|] w']; cbn [snd] in *; auto;
    specialize (Hc w'); destruct (c w') as [[[]|e'|] w'']; cbn [snd] in *; lia.
Qed.

End Forward.

Create HintDb forward.

Lemma forward_get_world : forward get_world.
Proof. intros w. apply Z.le_refl. Qed.

Lemma forward_time_time : forward time_time.
Proof. intros w. apply Z.le_refl. Qed.

Lemma forward_time_sleep (ms : Z) : forward (time_sleep ms).
Proof. intros w. unfold time_sleep, modify. cbn [snd]. rewrite clock_advance. lia. Qed.

Lemma forward_logger (l : level) (msg : string) : forward (logger l msg).
Proof. intros w. apply Z.le_refl. Qed.

Lemma forward_print (line : string) : forward (print line).
Proof. intros w. apply Z.le_refl. Qed.

Lemma forward_modify_session (b : bool) : forward (modify (set_session b)).
Proof. intros w. apply Z.le_refl. Qed.

Lemma forward_random_delay (a b : Z) : forward (random_delay a b).
Proof.
  intros w. unfold random_delay, random_uniform, random_random, bind, ret, time_sleep, modify.
  destruct (entropy w); cbn [snd]; rewrite clock_advance; cbn [clock]; lia.
Qed.

Lemma forward_driver_call (c : call) : forward (driver_call c).
Proof.
  intros w. unfold driver_call. destruct (session w); [|apply Z.le_refl].
  destruct (next_response w) as [r rest].
  destruct (answer r); cbn [snd]; rewrite clock_advance; cbn [clock]; lia.
Qed.

#[export] Hint Resolve forward_get_world forward_time_time forward_time_sleep forward_logger
  forward_print forward_modify_session forward_random_delay forward_driver_call : forward.

Ltac tick :=
  repeat first
    [ solve [auto with forward]
    | apply forward_ret
    | apply forward_raise
    | apply forward_out_of_fuel
    | apply forward_bind; [|intros ?]
    | apply forward_try_except; [|intros ?]
    | apply forward_try_finally
    | match goal with
      | |- forward (match ?x with _ => _ end) => destruct x
      end
    | progress cbv zeta ].

Lemma forward_driver_get (url : string) : forward (driver_get url).
Proof. unfold driver_get. tick. Qed.

Lemma forward_wait_until (c : condition) : forward (wait_until c).
Proof. unfold wait_until. tick. Qed.

Lemma forward_find_elements (l : locator) : forward (find_elements l).
Proof. unfold find_elements. tick. Qed.

Lemma forward_click (e : element) : forward (click e).
Proof. unfold click. tick. Qed.

Lemma forward_get_download_files (self : BalanceSheetDownloader) :
  forward (_get_download_files self).
Proof.
  intros w. unfold _get_download_files. destruct (fs_is_dir _ _); apply Z.le_refl.
Qed.

Lemma forward_path_mkdir_parents (d : path) : forward (path_mkdir_parents d).
Proof.
  intros w. unfold path_mkdir_parents. destruct (fs_mkdir_parents _ _); apply Z.le_refl.
Qed.

Lemma forward_path_rename (src dst : path) : forward (path_rename src dst).
Proof.
  intros w. unfold path_rename.
  destruct (fs_lookup _ _) as [[c|]|];
    repeat match goal with
           | |- context [if ?b then _ else _] => destruct b
           end; apply Z.le_refl.
Qed.

Lemma forward_stat_size (p : path) : forward (stat_size p).
Proof.
  intros w. unfold stat_size. destruct p; [apply Z.le_refl|].
  destruct (fs_lookup _ _) as [[c|]|]; apply Z.le_refl.
Qed.

Lemma forward_ZipFile (p : path) : forward (ZipFile p).
Proof.
  intros w. unfold ZipFile. destruct p; [apply Z.le_refl|].
  destruct (fs_lookup _ _) as [[[]|]|]; apply Z.le_refl.
Qed.

#[export] Hint Resolve forward_driver_get forward_wait_until forward_find_elements
  forward_click forward_get_download_files forward_path_mkdir_parents forward_path_rename
  forward_stat_size forward_ZipFile : forward.

Lemma forward_click_matching (ident : string) (els : list element) :
  forward (click_matching ident els).
Proof. induction els as [|el els IH]; simpl; tick. Qed.

Lemma forward_wait_loop (self : BalanceSheetDownloader) (initial : list string)
      (start timeout : Z) (fuel : nat) :
  forward (wait_loop self fuel initial start timeout).
Proof. induction fuel as [|fuel IH]; cbn [wait_loop]; tick. Qed.

Lemma forward_wait_for_download (self : BalanceSheetDownloader) (initial : list string)
      (timeout : Z) :
  forward (_wait_for_download self initial timeout).
Proof. unfold _wait_for_download. tick. apply forward_wait_loop. Qed.

Lemma forward_organize_download (self : BalanceSheetDownloader) (filename ident y : string) :
  forward (_organize_download self filename ident y).
Proof. unfold _organize_download. tick. Qed.

Lemma forward_verify_download (p : path) : forward (_verify_download p).
Proof. unfold _verify_download, verify_zip. tick. Qed.

Lemma forward_failure (ident : string) (y : option string) (e : exn) :
  forward (failure ident y e).
Proof. unfold failure. tick. Qed.

#[export] Hint Resolve forward_click_matching forward_wait_for_download
  forward_organize_download forward_verify_download forward_failure : forward.

Lemma forward_handle_download_popup (self : BalanceSheetDownloader) (ident : string)
      (y : option string) :
  forward (_handle_download_popup self ident y).
Proof. unfold _handle_download_popup. tick. Qed.

Lemma forward_download_specific_year (self : BalanceSheetDownloader) (ident y : string) :
  forward (_download_specific_year self ident y).
Proof. unfold _download_specific_year. tick. Qed.

#[export] Hint Resolve forward_handle_download_popup forward_download_specific_year : forward.

Lemma forward_download_reports (self : BalanceSheetDownloader) (ident : string)
      (y : option string) :
  forward (download_reports self ident y).
Proof. unfold download_reports. tick. Qed.

Lemma forward_log_results (ident : string) (rs : list DownloadResult) :
  forward (log_results ident rs).
Proof. induction rs as [|r rs IH]; simpl; tick. Qed.

Lemma forward_attempts {A} (f : M A) (wait : nat -> Z) (remaining : nat) :
  forward f -> forall n, forward (Tenacity.attempts remaining n wait f).
Proof.
  intros Hf. induction remaining as [|k IH]; intros n; cbn [Tenacity.attempts]; tick.
Qed.

Lemma forward_search_organization (ident : string) : forward (search_organization ident).
Proof.
  unfold search_organization, Tenacity.retry. apply forward_attempts.
  unfold search_attempt. tick.
Qed.

#[export] Hint Resolve forward_download_reports forward_log_results
  forward_search_organization : forward.

Lemma forward_process_inn (self : BalanceSheetDownloader) (ident : string)
      (acc : list DownloadResult) :
  forward (process_inn self ident acc).
Proof. unfold process_inn. tick. Qed.

(** The loop lets five seconds pass for every identifier, whatever
    happens to it. *)
Lemma process_loop_pace (self : BalanceSheetDownloader) (inns : list string) :
  forall (i total : nat) (acc : list DownloadResult) (w : World),
    (clock w + 5000 * Z.of_nat (List.length inns)
     <= clock (snd (process_loop self inns i total acc w)))%Z.
Proof.
  induction inns as [|ident inns IH]; intros i total acc w.
  - simpl. lia.
  - cbn [process_loop]. rewrite bind_run.
    match goal with
    | |- context [logger ?l ?msg w] =>
        set (w1 := snd (logger l msg w)); change (logger l msg w) with (Ok tt, w1)
    end.
    cbv iota. assert (H1 : clock w1 = clock w) by reflexivity.
    destruct (always_run _ _ w1 (always_process_inn self ident acc)) as (rs & w2 & Hr & _).
    pose proof (forward_process_inn self ident acc w1) as H2.
    rewrite bind_run, Hr. cbv iota. rewrite Hr in H2. cbn [snd] in H2.
    destruct (random_delay_sleeps 5 10 w2 ltac:(lia)) as [H3 H4].
    rewrite bind_run.
    destruct (random_delay 5 10 w2) as [r3 w3]. cbn [fst snd] in *. subst r3. cbv iota.
    specialize (IH (S i) total rs w3).
    rewrite length_cons, Nat2Z.inj_succ. lia.
Qed.

Lemma forward_create_driver : forward _create_driver.
Proof.
  intros w. unfold _create_driver. destruct (next_response w) as [r rest].
  destruct (answer r); cbn [snd]; unfold set_session; cbn [clock];
    rewrite clock_advance; cbn [clock]; lia.
Qed.

(** When [get_driver] returns, its body has run and returned, between
    the start of the driver and its end. *)
Lemma get_driver_ok_clock {A} (body : M A) (w w' : World) (a : A) :
  get_driver body w = (Ok a, w') ->
  exists w2 w3, (clock w <= clock w2)%Z /\ body w2 = (Ok a, w3) /\ (clock w3 <= clock w')%Z.
Proof.
  unfold get_driver, try_finally. rewrite bind_run.
  pose proof (forward_create_driver w) as H1.
  destruct (_create_driver w) as [[[]|e|] w2]; cbn [snd] in H1; cbv iota.
  - destruct (body w2) as [[b|e|] w3] eqn:Hb; [| |discriminate].
    + match goal with
      | |- context [match ?c w3 with _ => _ end] =>
          assert (H3 : forward c) by tick;
          specialize (H3 w3); destruct (c w3) as [[u|e|] w4]
      end; cbn [snd] in H3; intros [= <- <-] || discriminate.
      exists w2, w3. auto.
    + match goal with
      | |- context [match ?c w3 with _ => _ end] => destruct (c w3) as [[u|e'|] w4]
      end; discriminate.
  - match goal with
    | |- context [match ?c w2 with _ => _ end] => destruct (c w2) as [[u|e'|] w4]
    end; discriminate.
  - discriminate.
Qed.

(** X21.  A batch that returns has let at least five seconds pass for
    every identifier of its input file, whatever became of the
    identifiers: the pause at the end of every turn of the loop is taken
    on the success path, on the not-found path and after an exception
    alike. *)
Theorem process_inns_pace
        (self : BalanceSheetDownloader) (file : path) (content : string)
        (w w' : World) (results : list DownloadResult) :
  file <> [] ->
  fs_lookup file (fs w) = Some (File (Bytes content)) ->
  process_inns self file w = (Ok results, w') ->
  (clock w + 5000 * Z.of_nat (List.length (identifiers content)) <= clock w')%Z.
Proof.
  intros Hne Hl Hrun. rewrite <- read_inns_identifiers.
  assert (Hunf : process_inns self file w
                 = get_driver (process_loop self (read_inns content) 1
                                            (List.length (read_inns content)) [])
                     (snd (logger INFO ("Processing "
                                        ++ PyStr.of_nat (List.length (read_inns content))
                                        ++ " INNs from " ++ path_str file)%string w))).
  { unfold process_inns, bind, get_world, read_text.
    rewrite (fs_lookup_exists _ _ _ Hl). cbn [negb].
    destruct file as [|a p]; [congruence|]. rewrite Hl. reflexivity. }
  rewrite Hunf in Hrun. clear Hunf.
  apply get_driver_ok_clock in Hrun as (w2 & w3 & H1 & Hb & H3).
  pose proof (process_loop_pace self (read_inns content) 1
                (List.length (read_inns content)) [] w2) as H2.
  rewrite Hb in H2. cbn [snd] in H2.
  change (clock (snd (logger INFO
            ("Processing " ++ PyStr.of_nat (List.length (read_inns content))
             ++ " INNs from " ++ path_str file)%string w))) with (clock w) in H1.
  lia.
Qed.

Lemma process_inns_batch_pace :
  (clock w_batch
   + 5000 * Z.of_nat (List.length
                        (identifiers ("7707083893" ++ nl ++ "7736050003" ++ nl)%string))
   <= clock (snd (process_inns dl ["inns.txt"] w_batch)))%Z.
Proof.
  apply (process_inns_pace dl ["inns.txt"]
           ("7707083893" ++ nl ++ "7736050003" ++ nl)%string
           w_batch (snd (process_inns dl ["inns.txt"] w_batch)) batch_results).
  - discriminate.
  - reflexivity.
  - vm_compute. reflexivity.
Defined.

(** ** The identifiers read *)

Lemma string_app_nil_r (s : string) : (s ++ "")%string = s.
Proof. induction s as [|c s IH]; simpl; [reflexivity | now rewrite IH]. Qed.

Lemma string_app_assoc (a b c : string) : ((a ++ b) ++ c = a ++ (b ++ c))%string.
Proof. induction a as [|x a IH]; simpl; [reflexivity | now rewrite IH]. Qed.

Lemma rev_onto_twice (s a b : string) :
  PyStr.rev_onto (PyStr.rev_onto s a) b = PyStr.rev_onto a (s ++ b)%string.
Proof.
  revert a. induction s as [|c s IH]; intros a; simpl; [reflexivity|].
  rewrite IH. reflexivity.
Qed.

Lemma rev_rev (s : string) : PyStr.rev (PyStr.rev s) = s.
Proof. unfold PyStr.rev. rewrite rev_onto_twice. simpl. apply string_app_nil_r. Qed.

Lemma lstrip_starts_clean (s : string) : starts_clean (PyStr.lstrip s) = true.
Proof.
  induction s as [|c s IH]; simpl; [reflexivity|].
  destruct (PyStr.isspace c) eqn:E; [exact IH|]. simpl. now rewrite E.
Qed.

Lemma lstrip_of_clean (s : string) : starts_clean s = true -> PyStr.lstrip s = s.
Proof.
  destruct s as [|c s]; simpl; [reflexivity|].
  destruct (PyStr.isspace c); [discriminate | reflexivity].
Qed.

(** What [lstrip] takes away is white space. *)
Lemma lstrip_split (s : string) :
  exists u, s = (u ++ PyStr.lstrip s)%string /\ is_blank u = true.
Proof.
  induction s as [|c s (u & Hu & Hb)]; simpl.
  - exists ""%string. split; reflexivity.
  - destruct (PyStr.isspace c) eqn:E.
    + exists (String c u). simpl. rewrite E, Hb. split; [now rewrite <- Hu | reflexivity].
    + exists ""%string. split; reflexivity.
Qed.

Lemma rev_onto_app (s acc : string) :
  PyStr.rev_onto s acc = (PyStr.rev s ++ acc)%string.
Proof.
  unfold PyStr.rev. revert acc. induction s as [|c s IH]; intros acc; simpl; [reflexivity|].
  rewrite (IH (String c acc)), (IH (String c "")), string_app_assoc. reflexivity.
Qed.

Lemma rev_onto_append (a b acc : string) :
  PyStr.rev_onto (a ++ b) acc = PyStr.rev_onto b (PyStr.rev_onto a acc).
Proof. revert acc. induction a as [|c a IH]; intros acc; simpl; [reflexivity | apply IH]. Qed.

Lemma rev_app (a b : string) :
  PyStr.rev (a ++ b) = (PyStr.rev b ++ PyStr.rev a)%string.
Proof. unfold PyStr.rev at 1. rewrite rev_onto_append. apply rev_onto_app. Qed.

(** What [rstrip] takes away is white space. *)
Lemma rstrip_split (s : string) :
  exists v, s = (PyStr.rstrip s ++ v)%string /\ is_blank v = true.
Proof.
  destruct (lstrip_split (PyStr.rev s)) as (u & Hu & Hb).
  exists (PyStr.rev u). split; [|now rewrite is_blank_rev].
  unfold PyStr.rstrip. rewrite <- rev_app, <- Hu. symmetry. apply rev_rev.
Qed.

Lemma rstrip_starts_clean (s : string) :
  starts_clean s = true -> starts_clean (PyStr.rstrip s) = true.
Proof.
  destruct (rstrip_split s) as (v & Hv & _). revert Hv.
  destruct (PyStr.rstrip s) as [|c r]; [reflexivity|].
  intros ->. exact (fun H => H).
Qed.

Lemma rstrip_ends_clean (s : string) : ends_clean (PyStr.rstrip s) = true.
Proof. unfold ends_clean, PyStr.rstrip. rewrite rev_rev. apply lstrip_starts_clean. Qed.

Lemma rstrip_of_clean (s : string) : ends_clean s = true -> PyStr.rstrip s = s.
Proof.
  intros H. unfold PyStr.rstrip. rewrite (lstrip_of_clean _ H). apply rev_rev.
Qed.



(** ** What a success stands for *)

Lemma bind_ok_inv {A B} (m : M A) (k : A -> M B) (w w' : World) (b : B) :
  bind m k w = (Ok b, w') ->
  exists a w1, m w = (Ok a, w1) /\ k a w1 = (Ok b, w').
Proof.
  unfold bind. destruct (m w) as [[a|e|] w1]; try discriminate. eauto.
Qed.

Lemma try_except_ok_inv {A} (m : M A) (h : exn -> M A) (w w' : World) (a : A) :
  try_except m h w = (Ok a, w') ->
  m w = (Ok a, w') \/ exists e w1, m w = (Raise e, w1) /\ h e w1 = (Ok a, w').
Proof.
  unfold try_except. destruct (m w) as [[b|e|] w1]; try discriminate; eauto.
Qed.

Section Still.

Context {A B : Type}.

Lemma still_ret (a : A) : still (ret a).
Proof. intros w. split; reflexivity. Qed.

Lemma still_raise (e : exn) : still (@raise A e).
Proof. intros w. split; reflexivity. Qed.

Lemma still_bind (m : M A) (k : A -> M B) :
  still m -> (forall a, still (k a)) -> still (bind m k).
Proof.
  intros Hm Hk w. specialize (Hm w). unfold bind.
  destruct (m w) as [[a|e|] w']; cbn [snd] in *; auto.
  destruct (Hk a w') as [H1 H2]. destruct Hm as [H3 H4]. split; congruence.
Qed.

Lemma still_try_except (m : M A) (h : exn -> M A) :
  still m -> (forall e, still (h e)) -> still (try_except m h).
Proof.
  intros Hm Hh w. specialize (Hm w). unfold try_except.
  destruct (m w) as [[a|e|] w']; cbn [snd] in *; auto.
  destruct (Hh e w') as [H1 H2]. destruct Hm as [H3 H4]. split; congruence.
Qed.

End Still.

Lemma still_get_world : still get_world.
Proof. intros w. split; reflexivity. Qed.

Lemma still_logger (l : level) (msg : string) : still (logger l msg).
Proof. intros w. split; reflexivity. Qed.

Lemma still_stat_size (p : path) : still (stat_size p).
Proof.
  intros w. unfold stat_size. destruct p; [split; reflexivity|].
  destruct (fs_lookup _ _) as [[c|]|]; split; reflexivity.
Qed.

Lemma still_ZipFile (p : path) : still (ZipFile p).
Proof.
  intros w. unfold ZipFile. destruct p; [split; reflexivity|].
  destruct (fs_lookup _ _) as [[[]|]|]; split; reflexivity.
Qed.

Ltac calm :=
  repeat first
    [ apply still_ret
    | apply still_raise
    | apply still_get_world
    | apply still_logger
    | apply still_stat_size
    | apply still_ZipFile
    | apply still_bind; [|intros ?]
    | apply still_try_except; [|intros ?]
    | match goal with
      | |- still (match ?x with _ => _ end) => destruct x
      end
    | progress cbv zeta ].

(** Verification reads the file system and writes to the log only. *)
Lemma still_verify_download (p : path) : still (_verify_download p).
Proof. unfold _verify_download, verify_zip. calm. Qed.

(** When verification passes, the path exists and is no empty file. *)
Lemma verify_download_passed (p : path) (w w' : World) :
  p <> [] ->
  _verify_download p w = (Ok true, w') ->
  fs w' = fs w /\ clock w' = clock w
  /\ fs_exists p (fs w) = true
  /\ forall c, fs_lookup p (fs w) = Some (File c) -> payload_size c <> 0%N.
Proof.
  intros Hp H. pose proof (still_verify_download p w) as Hw. rewrite H in Hw.
  cbn [snd] in Hw. destruct Hw as [Hf Hc].
  split; [exact Hf|]. split; [exact Hc|]. split.
  - destruct (fs_exists p (fs w)) eqn:E; [reflexivity|].
    revert H. unfold _verify_download. rewrite try_except_bind.
    change (get_world w) with (Ok w, w). cbv iota. rewrite E. discriminate.
  - intros c Hl. pose proof (verify_download_verdict p c w Hp Hl) as Hv.
    rewrite H in Hv. cbn [fst] in Hv.
    destruct (payload_size c =? 0)%N eqn:E; [discriminate|].
    now apply N.eqb_neq in E.
Qed.

(** The path [_organize_download] returns lies in the folder of the
    organization and the year. *)
Lemma organize_target_in_dir
      (self : BalanceSheetDownloader) (filename ident y : string) (w w' : World) (p : path) :
  _organize_download self filename ident y w = (Ok p, w') ->
  exists name, p = child (child (download_dir self) ident) y ++ [name].
Proof.
  intros H.
  pose proof (organize_unfold self filename ident y w) as Hu. cbv zeta in Hu.
  rewrite Hu in H. clear Hu.
  set (target_dir := child (child (download_dir self) ident) y) in *.
  destruct (fs_mkdir_parents target_dir (fs w)) as [f1|] eqn:Hmk; [|discriminate].
  destruct (free_target _ _ _ _ _ _ f1) as [t|] eqn:Hft; [|discriminate].
  destruct (path_rename _ t (set_fs f1 w)) as [[[]|e|] w1] eqn:Hrn; try discriminate.
  injection H as -> ->.
  pose proof (free_target_fresh _ _ _ _ _ _ _ _ Hft) as Hfresh.
  assert (Hdir : fs_is_dir target_dir f1 = true).
  { apply (fs_mkdir_from_is_dir target_dir [] (fs w) f1 Hmk). reflexivity. }
  apply free_target_shape in Hft as [->|(k & _ & ->)].
  - unfold child in Hfresh |- * at 1.
    destruct (String.eqb filename "" || String.eqb filename ".").
    + apply fs_is_dir_exists in Hdir. congruence.
    + now exists filename.
  - unfold numbered_path. rewrite child_numbered. eauto.
Qed.

(** The end of both flows, from the moment a new file has been seen. *)
Lemma flow_end_success
      (self : BalanceSheetDownloader) (name ident label : string)
      (otherwise : Z -> option DownloadResult) (w w' : World) (r : DownloadResult) :
  (forall now r', otherwise now = Some r' -> success r' = false) ->
  (organized_path <- _organize_download self name ident label ;;
   verified <- _verify_download organized_path ;;
   now <- time_time ;;
   if verified : bool then
     ret (Some (mkResult ident (Some label) true (Some (path_str organized_path)) None now))
   else ret (otherwise now)) w = (Ok (Some r), w') ->
  success r = true ->
  exists file,
    let p := (child (child (download_dir self) ident) label ++ [file])%list in
    r = mkResult ident (Some label) true (Some (path_str p)) None (clock w')
    /\ fs_exists p (fs w') = true
    /\ forall c, fs_lookup p (fs w') = Some (File c) -> payload_size c <> 0%N.
Proof.
  intros Hother H Hs.
  apply bind_ok_inv in H as (p & w1 & Ho & H).
  apply bind_ok_inv in H as (v & w2 & Hv & H).
  apply bind_ok_inv in H as (now & w3 & Ht & H).
  unfold time_time in Ht. injection Ht as <- <-.
  destruct (organize_target_in_dir _ _ _ _ _ _ _ Ho) as (file & ->).
  exists file. cbv zeta.
  destruct v; cbv [ret] in H.
  - injection H as <- <-.
    apply verify_download_passed in Hv as (Hf & Hc & He & Hz);
      [|destruct (child _ _); discriminate].
    rewrite Hf. auto.
  - exfalso. injection H as H _. rewrite (Hother _ _ H) in Hs. discriminate.
Qed.

(** X23.  What a success stands for.  When one of the two flows returns a
    result marked as success, the result names the organization and the
    year label of the flow and carries no error message; its file path is
    a file in the folder [<download_dir>/<inn>/<label>], and at the moment
    the flow returns, which is the time stamp of the result, that path
    exists and is not an empty file. *)
Theorem successful_result_names_a_file
        (self : BalanceSheetDownloader) (ident label : string)
        (w w' : World) (r : DownloadResult) :
  (exists y, label = year_or_all y
             /\ _handle_download_popup self ident y w = (Ok (Some r), w'))
  \/ _download_specific_year self ident label w = (Ok (Some r), w') ->
  success r = true ->
  exists file,
    let p := (child (child (download_dir self) ident) label ++ [file])%list in
    r = mkResult ident (Some label) true (Some (path_str p)) None (clock w')
    /\ fs_exists p (fs w') = true
    /\ forall c, fs_lookup p (fs w') = Some (File c) -> payload_size c <> 0%N.
Proof.
  intros [(y & -> & H)|H] Hs.
  - unfold _handle_download_popup in H.
    apply try_except_ok_inv in H as [H|(e & w1 & _ & H)].
    + do 9 (apply bind_ok_inv in H as (? & ? & _ & H)).
      match type of H with
      | (match ?d with _ => _ end) _ = _ => destruct d as [name|]; [|discriminate]
      end.
      destruct (PyStr.truthy name); [|discriminate].
      apply (flow_end_success self name ident (year_or_all y)
               (fun now => Some (mkResult ident (Some (year_or_all y)) false None
                                          (Some "Download verification failed"%string) now)))
        in H; [exact H | | exact Hs].
      intros now r' [= <-]. reflexivity.
    + exfalso. revert H. unfold bind, logger, modify, failure, time_time, ret.
      intros [= <- _]. discriminate.
  - unfold _download_specific_year in H.
    apply try_except_ok_inv in H as [H|(e & w1 & _ & H)].
    + do 11 (apply bind_ok_inv in H as (? & ? & _ & H)).
      match type of H with
      | (match ?d with _ => _ end) _ = _ => destruct d as [name|]; [|discriminate]
      end.
      destruct (PyStr.truthy name); [|discriminate].
      apply (flow_end_success self name ident label (fun _ => None)) in H;
        [exact H | | exact Hs].
      intros now r'. discriminate.
    + exfalso. revert H. unfold bind, logger, modify, failure, time_time, ret.
      intros [= <- _]. discriminate.
Qed.

Lemma successful_result_of_the_bulk_flow :
  exists file,
    let p := (child (child (download_dir dl) "7707083893") "all" ++ [file])%list in
    mkResult "7707083893" (Some "all") true
             (Some "downloads/7707083893/all/report.zip") None 6000
    = mkResult "7707083893" (Some "all") true (Some (path_str p)) None
               (clock (snd (_handle_download_popup dl "7707083893" None w_popup)))
    /\ fs_exists p (fs (snd (_handle_download_popup dl "7707083893" None w_popup))) = true
    /\ forall c,
         fs_lookup p (fs (snd (_handle_download_popup dl "7707083893" None w_popup)))
         = Some (File c) ->
         payload_size c <> 0%N.
Proof.
  apply (successful_result_names_a_file dl "7707083893" "all" w_popup).
  - left. exists None. split; [reflexivity|]. vm_compute. reflexivity.
  - reflexivity.
Defined.

(** ** The exit status *)

Lemma yields_try_finally {A} (m : M A) (c : M unit) (Q : A -> Prop) :
  yields m Q -> yields c (fun _ => True) -> yields (try_finally m c) Q.
Proof.
  intros Hm Hc w. specialize (Hm w). unfold try_finally.
  destruct (m w) as [[a|e|] w1]; cbn [fst] in *; [| |contradiction];
    specialize (Hc w1); destruct (c w1) as [[[]|e'|] w2]; cbn [fst] in *; auto.
Qed.

Lemma yields_create_driver : yields _create_driver (fun _ => True).
Proof.
  intros w. unfold _create_driver. destruct (next_response w) as [r rest].
  destruct (answer r); exact I.
Qed.

Lemma yields_get_driver {A} (body : M A) (Q : A -> Prop) :
  yields body Q -> yields (get_driver body) Q.
Proof.
  intros Hb. unfold get_driver. apply yields_try_finally.
  - apply yields_bind_any; [apply yields_create_driver | intros _; exact Hb].
  - apply yields_bind_any; [auto with run|]. intros w.
    destruct (session w); [|now apply yields_ret].
    apply yields_bind_any; [apply yields_driver_call|]. intros _. auto with run.
Qed.

Lemma yields_read_text (p : path) : yields (read_text p) (fun _ => True).
Proof.
  intros w. unfold read_text. destruct p; [exact I|].
  destruct (fs_lookup _ _) as [[[]|]|]; exact I.
Qed.

Lemma yields_write_text (p : path) (s : string) : yields (write_text p s) (fun _ => True).
Proof.
  intros w. unfold write_text.
  destruct (fs_is_dir p (fs w)); [exact I|]. destruct (fs_is_dir _ _); exact I.
Qed.

Lemma yields_process_inns (self : BalanceSheetDownloader) (file : path) :
  yields (process_inns self file) (fun _ => True).
Proof.
  unfold process_inns. apply yields_bind_any; [auto with run|]. intros w.
  destruct (negb _).
  - apply yields_bind_any; [auto with run|]. intros _. now apply yields_ret.
  - apply yields_bind_any; [apply yields_read_text|]. intros content. cbv zeta.
    apply yields_bind_any; [auto with run|]. intros _.
    apply yields_get_driver, always_yields.
    eapply always_weaken; [apply always_process_loop|]. auto.
Qed.

Lemma yields_generate_report (strftime : Z -> string) (results : list DownloadResult) :
  yields (generate_report strftime results) (fun _ => True).
Proof.
  unfold generate_report. apply yields_bind_any; [auto with run|]. intros now.
  apply yields_bind_any; [|intros rate; now apply yields_ret].
  intros w. unfold success_rate. destruct results; exact I.
Qed.


(** ** An input that cannot be read *)

(** X25.  An input path that is a folder makes [process_inns] raise
    before anything else is done: the path exists, so the check at the
    start passes, and opening it fails; no browser is started and
    nothing is logged.  [main] then prints one ["Fatal error"] line and
    ends with status 1, without writing a report. *)
Theorem process_inns_unreadable_input
        (strftime : Z -> string) (args : Args) (w : World) :
  inns_file args <> [] ->
  fs_is_dir (arg_download_dir args) (fs w) = true ->
  fs_lookup (inns_file args) (fs w) = Some Dir ->
  exists e,
    class_of e = IsADirectoryError
    /\ process_inns (mkDownloader (arg_download_dir args) (arg_headless args))
                    (inns_file args) w = (Raise e, w)
    /\ fst (main strftime args w) = Ok 1
    /\ stdout (snd (main strftime args w)) = stdout w ++ [("Fatal error: " ++ str e)%string]
    /\ history (snd (main strftime args w)) = history w
    /\ fs (snd (main strftime args w)) = fs w.
Proof.
  intros Hne Hd Hl.
  assert (Hp : exists e,
             class_of e = IsADirectoryError
             /\ process_inns (mkDownloader (arg_download_dir args) (arg_headless args))
                             (inns_file args) w = (Raise e, w)).
  { unfold process_inns, bind, get_world, read_text, fs_exists.
    destruct (inns_file args) as [|a p]; [congruence|].
    rewrite Hl; cbn [negb]; cbv beta iota; rewrite ?Hl.
    eexists. split; [|reflexivity]. reflexivity. }
  destruct Hp as (e & Hc & Hp). exists e. split; [exact Hc|]. split; [exact Hp|].
  assert (Hm : main strftime args w
               = (Ok 1, snd (print ("Fatal error: " ++ str e)%string w))).
  { unfold main. rewrite try_except_bind.
    unfold init at 1, path_mkdir at 1. cbn [download_dir]. rewrite Hd. cbv iota.
    unfold try_except at 1. rewrite try_except_bind, Hp. reflexivity. }
  rewrite Hm. repeat split.
Qed.

Lemma main_with_a_folder_as_input :
  exists e,
    class_of e = IsADirectoryError
    /\ process_inns (mkDownloader (arg_download_dir args_batch) (arg_headless args_batch))
                    (inns_file args_batch) w_folder_as_input
       = (Raise e, w_folder_as_input)
    /\ fst (main seconds_stamp args_batch w_folder_as_input) = Ok 1
    /\ stdout (snd (main seconds_stamp args_batch w_folder_as_input))
       = stdout w_folder_as_input ++ [("Fatal error: " ++ str e)%string]
    /\ history (snd (main seconds_stamp args_batch w_folder_as_input))
       = history w_folder_as_input
    /\ fs (snd (main seconds_stamp args_batch w_folder_as_input)) = fs w_folder_as_input.
Proof.
  apply (process_inns_unreadable_input seconds_stamp args_batch w_folder_as_input).
  - discriminate.
  - reflexivity.
  - reflexivity.
Defined.
